(** * fbpyutils_finance.cvm: catalog journal, header registry and converters

    A shallow embedding of the CVM provider of [fbpyutils_finance]
    ([cvm/__init__.py] and [cvm/converters/__init__.py]) together with the
    properties of its specification.

    Conventions.
    - A Python [str] is a Rocq [string]; the feeds are ISO-8859-1, so one
      [ascii] is one code point, and comparison is by code point.
    - A Python value that may be [None], NaN or of several types is a
      constructor of [cell] (what flows into a function) or [pyval] (what a
      converter returns).
    - A call that may raise returns [res]: [Ok v] or [Raise e].
    - A [while] loop takes fuel; running out of fuel is [None]. *)

From Stdlib Require Import ZArith Lia List Bool Ascii String.
From Stdlib Require Import Decimal DecimalString.
From Stdlib Require DecimalZ.
From stdpp Require Import base option list strings gmap.

(** ** Python primitives *)

Module Py.

(** Exceptions the modelled code can raise. *)
Inductive exn :=
| ValueError | TypeError | IndexError | KeyError | AttributeError
| NameError | OverflowError | OSError.

Inductive res (A : Type) :=
| Ok (a : A)
| Raise (e : exn).
Arguments Ok {A} a.
Arguments Raise {A} e.

Definition bind {A B} (m : res A) (k : A -> res B) : res B :=
  match m with
  | Ok a => k a
  | Raise e => Raise e
  end.

Notation "'do' x <- m ; k" := (bind m (fun x => k))
  (at level 10, x name, m at level 100, k at level 200).

(** What a cell read from a spreadsheet, a CSV file or SQLite can be:
    [None], the float NaN (pandas' missing value), a [str], an [int] or a
    [bool].  Finite floats only arise from arithmetic SQL templates and are
    not part of the model. *)
Inductive cell :=
| CNone
| CNaN
| CStr (s : string)
| CInt (z : Z)
| CBool (b : bool).

Global Instance cell_eq_dec : EqDecision cell.
Proof. solve_decision. Defined.

(** [str(z)] for an [int]. *)
Definition str_of_Z (z : Z) : string := NilEmpty.string_of_int (Z.to_int z).

(** [str(x)]. *)
Definition str (x : cell) : string :=
  match x with
  | CNone => "None"
  | CNaN => "nan"
  | CStr s => s
  | CInt z => str_of_Z z
  | CBool true => "True"
  | CBool false => "False"
  end.

(** [bool(x)]: [None], [''], [0] and [False] are falsy; NaN is truthy. *)
Definition truthy (x : cell) : bool :=
  match x with
  | CNone => false
  | CNaN => true
  | CStr s => negb (String.eqb s "")
  | CInt z => negb (z =? 0)%Z
  | CBool b => b
  end.

(** [x or y]. *)
Definition py_or (x y : cell) : cell := if truthy x then x else y.

(** [s.startswith(p)]. *)
Definition startswith (s p : string) : bool := String.prefix p s.

(** [old in x] for two strings. *)
Fixpoint str_in (old x : string) : bool :=
  String.prefix old x ||
  match x with
  | EmptyString => false
  | String _ x' => str_in old x'
  end.

(** [x.replace(old, new)] with [old] not empty: the occurrences of [old] are
    found from the left and do not overlap.  [skip] counts the characters of
    a matched occurrence that are still to be dropped. *)
Fixpoint replace_from (skip : nat) (old new x : string) : string :=
  match x with
  | EmptyString => EmptyString
  | String c x' =>
      match skip with
      | S k => replace_from k old new x'
      | O =>
          if String.prefix old x
          then new +:+ replace_from (String.length old - 1) old new x'
          else String c (replace_from 0 old new x')
      end
  end.

(** [x.replace('', new)] puts [new] before every character and at the end. *)
Fixpoint interleave (new x : string) : string :=
  match x with
  | EmptyString => new
  | String c x' => new +:+ String c (interleave new x')
  end.

Definition replace (x old new : string) : string :=
  match old with
  | EmptyString => interleave new x
  | String _ _ => replace_from 0 old new x
  end.

(** [s.split(sep)] for a separator of one character: never an empty list. *)
Fixpoint split_go (sep : ascii) (cur : string) (s : string) : list string :=
  match s with
  | EmptyString => [String.rev cur]
  | String c s' =>
      if Ascii.eqb c sep then String.rev cur :: split_go sep EmptyString s'
      else split_go sep (String c cur) s'
  end.

Definition split (s : string) (sep : ascii) : list string :=
  split_go sep EmptyString s.

(** [sep.join(l)]. *)
Fixpoint join (sep : string) (l : list string) : string :=
  match l with
  | [] => ""
  | [s] => s
  | s :: l' => s +:+ sep +:+ join sep l'
  end.

(** [s.upper()] and [s.lower()] on the ASCII letters; the file names and
    converter inputs they are applied to are ASCII, other code points are
    left as they are. *)
Definition upper_ascii (c : ascii) : ascii :=
  let n := nat_of_ascii c in
  if (97 <=? n)%nat && (n <=? 122)%nat then ascii_of_nat (n - 32) else c.

Definition lower_ascii (c : ascii) : ascii :=
  let n := nat_of_ascii c in
  if (65 <=? n)%nat && (n <=? 90)%nat then ascii_of_nat (n + 32) else c.

Fixpoint map_string (f : ascii -> ascii) (s : string) : string :=
  match s with
  | EmptyString => EmptyString
  | String c s' => String (f c) (map_string f s')
  end.

Definition upper : string -> string := map_string upper_ascii.
Definition lower : string -> string := map_string lower_ascii.

(** [a > b] and [a <= b] on strings: code point order. *)
Definition str_gt (a b : string) : bool :=
  match String.compare a b with Gt => true | _ => false end.

Definition str_le (a b : string) : bool :=
  match String.compare a b with Gt => false | _ => true end.

(** [l[i]] with Python's negative indices. *)
Definition index {A} (l : list A) (i : Z) : res A :=
  let n := Z.of_nat (length l) in
  let j := if (i <? 0)%Z then (n + i)%Z else i in
  if (j <? 0)%Z || (n <=? j)%Z then Raise IndexError
  else match l !! Z.to_nat j with
       | Some a => Ok a
       | None => Raise IndexError
       end.

End Py.

Import Py.

(** ** cvm/converters/__init__.py *)

Module converters.

(** A Python [float] is kept as the decimal it was read from: [F_dec neg m e]
    stands for the binary64 nearest to [(-1)^neg * m * 10^e].  The rounding
    itself is not modelled; only overflow to infinity is. *)
Inductive pyfloat :=
| F_nan
| F_inf (neg : bool)
| F_dec (neg : bool) (mant : N) (exp10 : Z).

(** What a converter returns. *)
Inductive pyval :=
| VNone
| VBool (b : bool)
| VInt (z : Z)
| VFloat (f : pyfloat)
| VStr (s : string)
| VDate (year month day : Z).

(** *** [float(s)] for a string *)

Definition code (c : ascii) : nat := nat_of_ascii c.

Definition is_digit (c : ascii) : bool :=
  (48 <=? code c)%nat && (code c <=? 57)%nat.

Definition digit_val (c : ascii) : N := N.of_nat (code c - 48).

(** White space of [str.isspace] below code point 256. *)
Definition is_space (c : ascii) : bool :=
  let n := code c in
  ((9 <=? n)%nat && (n <=? 13)%nat) || ((28 <=? n)%nat && (n <=? 32)%nat)
  || (n =? 133)%nat || (n =? 160)%nat.

Fixpoint lstrip (s : string) : string :=
  match s with
  | String c s' => if is_space c then lstrip s' else s
  | EmptyString => EmptyString
  end.

Definition strip (s : string) : string :=
  String.rev (lstrip (String.rev (lstrip s))).

(** Underscores are dropped; one is only allowed between two digits. *)
Fixpoint drop_underscores (prev : ascii) (s : string) : option string :=
  match s with
  | EmptyString => if Ascii.eqb prev "_" then None else Some EmptyString
  | String c s' =>
      if Ascii.eqb c "_" then
        if is_digit prev then drop_underscores c s' else None
      else if Ascii.eqb prev "_" && negb (is_digit c) then None
      else option_map (String c) (drop_underscores c s')
  end.

(** The longest prefix of digits, read as a number, how many they are, and
    what follows. *)
Fixpoint take_digits (acc : N) (cnt : nat) (s : string) : N * nat * string :=
  match s with
  | String c s' =>
      if is_digit c then take_digits (10 * acc + digit_val c) (S cnt) s'
      else (acc, cnt, s)
  | EmptyString => (acc, cnt, s)
  end.

(** An exponent part [e[+-]digits]; [None] when what follows is not one. *)
Definition take_exponent (s : string) : option (Z * string) :=
  match s with
  | String c s' =>
      if Ascii.eqb c "e" || Ascii.eqb c "E" then
        let '(neg, s'') :=
          match s' with
          | String "+" t => (false, t)
          | String "-" t => (true, t)
          | _ => (false, s')
          end in
        let '(n, cnt, rest) := take_digits 0 0 s'' in
        if (cnt =? 0)%nat then None
        else Some (if neg then (- Z.of_N n)%Z else Z.of_N n, rest)
      else None
  | EmptyString => None
  end.

(** From [2^1024 - 2^970] on a decimal rounds to infinity. *)
Definition overflow_threshold : Z := (2 ^ 1024 - 2 ^ 970)%Z.

Definition overflows (mant : N) (exp10 : Z) : bool :=
  if (0 <=? exp10)%Z
  then (overflow_threshold <=? Z.of_N mant * 10 ^ exp10)%Z
  else (overflow_threshold * 10 ^ (- exp10) <=? Z.of_N mant)%Z.

Definition finite (neg : bool) (mant : N) (exp10 : Z) : pyfloat :=
  if overflows mant exp10 then F_inf neg else F_dec neg mant exp10.

(** The number after the sign: [inf], [infinity], [nan] in any case, or
    digits with an optional point and exponent, at least one digit. *)
Definition float_unsigned (neg : bool) (s : string) : res pyfloat :=
  let l := lower s in
  if String.eqb l "inf" || String.eqb l "infinity" then Ok (F_inf neg)
  else if String.eqb l "nan" then Ok F_nan
  else
    let '(ip, icnt, s1) := take_digits 0 0 s in
    let '(m, fcnt, s2) :=
      match s1 with
      | String "." t => take_digits ip 0 t
      | _ => (ip, 0%nat, s1)
      end in
    if (icnt + fcnt =? 0)%nat then Raise ValueError
    else
      let '(e, s3) :=
        match take_exponent s2 with
        | Some (e, rest) => (e, rest)
        | None => (0%Z, s2)
        end in
      match s3 with
      | EmptyString => Ok (finite neg m (e - Z.of_nat fcnt))
      | String _ _ => Raise ValueError
      end.

Definition float_of_str (s : string) : res pyfloat :=
  match drop_underscores "000" s with
  | None => Raise ValueError
  | Some s1 =>
      match strip s1 with
      | String "+" t => float_unsigned false t
      | String "-" t => float_unsigned true t
      | t => float_unsigned false t
      end
  end.

(** [float(x)] for a cell. *)
Definition float_of_cell (x : cell) : res pyfloat :=
  match x with
  | CStr s => float_of_str s
  | CInt z =>
      if (overflow_threshold <=? Z.abs z)%Z then Raise OverflowError
      else Ok (F_dec (z <? 0)%Z (Z.to_N (Z.abs z)) 0)
  | CBool b => Ok (F_dec false (if b then 1 else 0)%N 0)
  | CNaN => Ok F_nan
  | CNone => Raise TypeError
  end.

(** [int(f)]: truncation towards zero. *)
Definition int_of_float (f : pyfloat) : res Z :=
  match f with
  | F_nan => Raise ValueError
  | F_inf _ => Raise OverflowError
  | F_dec neg m e =>
      let a := if (0 <=? e)%Z then (Z.of_N m * 10 ^ e)%Z
               else (Z.of_N m / 10 ^ (- e))%Z in
      Ok (if neg then (- a)%Z else a)
  end.

(** *** [datetime.strptime(s, '%Y-%m-%d').date()] *)

Definition digits2 (a b : ascii) : Z := Z.of_N (10 * digit_val a + digit_val b).

(** [%Y]: exactly four digits. *)
Definition take_year (s : string) : option (Z * string) :=
  match s with
  | String a (String b (String c (String d rest))) =>
      if is_digit a && is_digit b && is_digit c && is_digit d
      then Some (Z.of_N (1000 * digit_val a + 100 * digit_val b
                         + 10 * digit_val c + digit_val d), rest)
      else None
  | _ => None
  end.

(** [%m]: [1[0-2]|0[1-9]|[1-9]], the first alternative that matches. *)
Definition take_month (s : string) : option (Z * string) :=
  match s with
  | String a rest =>
      let two :=
        match rest with
        | String b rest' =>
            if (Ascii.eqb a "1" && is_digit b && (code b <=? 50)%nat)
               || (Ascii.eqb a "0" && is_digit b && negb (Ascii.eqb b "0"))
            then Some (digits2 a b, rest')
            else None
        | EmptyString => None
        end in
      match two with
      | Some r => Some r
      | None =>
          if is_digit a && negb (Ascii.eqb a "0")
          then Some (Z.of_N (digit_val a), rest) else None
      end
  | EmptyString => None
  end.

(** [%d]: [3[0-1]|[1-2]\d|0[1-9]|[1-9]| [1-9]]. *)
Definition take_day (s : string) : option (Z * string) :=
  match s with
  | String a rest =>
      let two :=
        match rest with
        | String b rest' =>
            if (Ascii.eqb a "3" && is_digit b && (code b <=? 49)%nat)
               || ((Ascii.eqb a "1" || Ascii.eqb a "2") && is_digit b)
               || (Ascii.eqb a "0" && is_digit b && negb (Ascii.eqb b "0"))
            then Some (digits2 a b, rest')
            else if Ascii.eqb a " " && is_digit b && negb (Ascii.eqb b "0")
            then Some (Z.of_N (digit_val b), rest')
            else None
        | EmptyString => None
        end in
      match two with
      | Some r => Some r
      | None =>
          if is_digit a && negb (Ascii.eqb a "0")
          then Some (Z.of_N (digit_val a), rest) else None
      end
  | EmptyString => None
  end.

Definition is_leap (y : Z) : bool :=
  ((y mod 4 =? 0) && negb (y mod 100 =? 0) || (y mod 400 =? 0))%Z.

Definition days_in_month (y m : Z) : Z :=
  if (m =? 2)%Z then (if is_leap y then 29 else 28)%Z
  else if ((m =? 4) || (m =? 6) || (m =? 9) || (m =? 11))%Z then 30%Z
  else 31%Z.

Definition expect (c : ascii) (s : string) : option string :=
  match s with
  | String a rest => if Ascii.eqb a c then Some rest else None
  | EmptyString => None
  end.

Definition strptime_ymd (s : string) : res pyval :=
  let parsed :=
    '(y, s1) ← take_year s;
    s2 ← expect "-" s1;
    '(m, s3) ← take_month s2;
    s4 ← expect "-" s3;
    '(d, s5) ← take_day s4;
    match s5 with
    | EmptyString => Some (y, m, d)
    | String _ _ => None
    end in
  match parsed with
  | Some (y, m, d) =>
      if ((1 <=? y) && (d <=? days_in_month y m))%Z then Ok (VDate y m d)
      else Raise ValueError
  | None => Raise ValueError
  end.

(** *** The converters *)

(** [pd.isna(x)] *)
Definition isna (x : cell) : bool :=
  match x with
  | CNone | CNaN => true
  | _ => false
  end.

(** [not x or pd.isna(x) or len(str(x)) == 0] *)
Definition is_nan_or_empty (x : cell) : bool :=
  negb (truthy x) || isna x || (String.length (str x) =? 0)%nat.

Definition as_boolean (x : cell) : res pyval :=
  if is_nan_or_empty x then Ok (VBool false)
  else
    let u := upper (str x) in
    Ok (VBool (String.eqb u "S" || String.eqb u "Y" || String.eqb u "1")).

Definition as_date (x : cell) : res pyval :=
  if is_nan_or_empty x then Ok VNone
  else
    match x with
    | CStr s => strptime_ymd s
    | _ => Raise TypeError
    end.

(** [try: ... except ValueError: return None] *)
Definition except_ValueError (r : res pyval) : res pyval :=
  match r with
  | Raise ValueError => Ok VNone
  | _ => r
  end.

Definition as_float (x : cell) : res pyval :=
  if is_nan_or_empty x then Ok VNone
  else except_ValueError (do f <- float_of_str (str x); Ok (VFloat f)).

Definition as_integer (x : cell) : res pyval :=
  if is_nan_or_empty x then Ok (VInt 0)
  else except_ValueError
         (do f <- float_of_cell x; do z <- int_of_float f; Ok (VInt z)).

Definition as_string (x : cell) : res pyval :=
  if is_nan_or_empty x then Ok VNone
  else Ok (VStr (str x)).

Definition as_string_id (x : cell) : res pyval :=
  if is_nan_or_empty x then Ok VNone
  else Ok (VStr (replace (replace (replace (str x) "/" "") "-" "") "." "")).

End converters.

Import converters.

(** ** cvm/__init__.py *)

Module cvm.

Definition SOURCE_ENCODING := "iso-8859-1".
Definition TARGET_ENCODING := "utf-8".

(** *** Small helpers *)

(** [return x[y] if len(x) > y else z or None]: the conditional expression
    binds weaker than [or], so the default is [z or None]. *)
Definition _get_value_by_index_if_exists (x : list cell) (y : Z) (z : cell)
  : res cell :=
  if (y <? Z.of_nat (length x))%Z then index x y else Ok (py_or z CNone).

(** [while old in x: x = x.replace(old, new)] *)
Fixpoint _replace_all (fuel : nat) (x old new : string) : option string :=
  if str_in old x then
    match fuel with
    | O => None
    | S fuel' => _replace_all fuel' (replace x old new) old new
    end
  else Some x.

(** The columns of one line of the directory listing, as [_get_url_paths]
    cuts them: [_replace_all(p, '  ', ' ').split(' ')]. *)
Definition listing_columns (fuel : nat) (p : string) : option (list cell) :=
  line ← _replace_all fuel p "  " " ";
  Some (CStr <$> split line " ").

(** [name = _get_value_by_index_if_exists(content, 0, '').split('.')[0]] *)
Definition listing_name (content : list cell) : res string :=
  do v <- _get_value_by_index_if_exists content 0 (CStr "");
  match v with
  | CStr s => index (split s ".") 0
  | _ => Raise AttributeError
  end.

(** [for a in l: ...] over a body that may raise. *)
Fixpoint for_each {A S} (body : A -> S -> res S) (l : list A) (s : S)
  : res S :=
  match l with
  | [] => Ok s
  | a :: l' => do s' <- body a s; for_each body l' s'
  end.

(** *** Mapping rows

    One row of the header sheets, as the dictionary [to_dict('records')]
    gives: an empty spreadsheet cell is NaN, an SQL [NULL] and a generated
    blank are [None]. *)
Record mapping := {
  Kind : cell;
  Sub_Kind : cell;
  Header : cell;
  Hash : cell;
  Order : cell;
  Target_Field : cell;
  Source_Field : cell;
  Transformation1 : cell;
  Transformation2 : cell;
  Transformation3 : cell;
  Converter : cell;
  Is_New : cell
}.

Global Instance mapping_eq_dec : EqDecision mapping.
Proof. solve_decision. Defined.

(** *** _get_expression_and_converters *)

(** The functions a converter name can evaluate to, and [lambda x: None]. *)
Inductive converter :=
| conv_as_boolean
| conv_as_date
| conv_as_float
| conv_as_integer
| conv_as_string
| conv_as_string_id
| conv_is_nan_or_empty
| conv_lambda_None.

Definition apply_converter (c : converter) (x : cell) : res pyval :=
  match c with
  | conv_as_boolean => as_boolean x
  | conv_as_date => as_date x
  | conv_as_float => as_float x
  | conv_as_integer => as_integer x
  | conv_as_string => as_string x
  | conv_as_string_id => as_string_id x
  | conv_is_nan_or_empty => Ok (VBool (is_nan_or_empty x))
  | conv_lambda_None => Ok VNone
  end.

(** [eval(name)] in the namespace [from converters import *] fills; any
    other expression is outside the model and reported as a [NameError]. *)
Definition eval_converter (name : string) : res converter :=
  if String.eqb name "as_boolean" then Ok conv_as_boolean
  else if String.eqb name "as_date" then Ok conv_as_date
  else if String.eqb name "as_float" then Ok conv_as_float
  else if String.eqb name "as_integer" then Ok conv_as_integer
  else if String.eqb name "as_string" then Ok conv_as_string
  else if String.eqb name "as_string_id" then Ok conv_as_string_id
  else if String.eqb name "is_nan_or_empty" then Ok conv_is_nan_or_empty
  else Raise NameError.

(** [template.replace('$X', expression)] *)
Definition substitute (template expression : cell) : res cell :=
  match template with
  | CStr t =>
      match expression with
      | CStr e => Ok (CStr (replace t "$X" e))
      | _ => Raise TypeError
      end
  | _ => Raise AttributeError
  end.

Definition row_expression (m : mapping) : res cell :=
  if is_nan_or_empty (Source_Field m) then Ok (CStr "NULL")
  else
    let expression := Source_Field m in
    if is_nan_or_empty (Transformation1 m) then Ok expression
    else
      do expression <- substitute (Transformation1 m) expression;
      if is_nan_or_empty (Transformation2 m) then Ok expression
      else
        do expression <- substitute (Transformation2 m) expression;
        if is_nan_or_empty (Transformation3 m) then Ok expression
        else substitute (Transformation3 m) expression.

Definition row_converter (m : mapping) : res converter :=
  if is_nan_or_empty (Converter m) then Ok conv_lambda_None
  else
    match Converter m with
    | CStr c => eval_converter (replace c "_as_" "as_")
    | _ => Raise AttributeError
    end.

(** The body of [for m in mappings].  The dictionary is keyed by
    [m['Target_Field']]; [m['Target_Field'].lower()] raises in the same
    iteration unless that is a string, so the keys of a returned
    dictionary are strings. *)
Definition compile_row (m : mapping)
    (acc : list string * gmap string converter)
  : res (list string * gmap string converter) :=
  do expression <- row_expression m;
  do conv <- row_converter m;
  match Target_Field m with
  | CStr t =>
      Ok (acc.1 ++ [str expression +:+ " AS " +:+ lower t], <[t := conv]> acc.2)
  | _ => Raise AttributeError
  end.

Definition _get_expression_and_converters (mappings : list mapping)
  : res (list string * gmap string converter) :=
  for_each compile_row mappings ([], ∅).

(** *** Catalog rows

    The columns are named as in the SQL of [update_cvm_catalog]:
    [c_last_download] is [c.last_download] of the journal [c], [r_size] is
    [r.size] of the remote listing [r].

    A row of the remote listing is typed as [_get_url_paths] and
    [_get_remote_files_list] build it: the sequence is the index of the
    link, the name a string, the size an integer (rows without a size are
    filtered out), the timestamp the text SQLite stores for it, or missing.
    A row of the journal is a row of a table that outlives the run, so each
    column may hold an SQL [NULL] ([CNone]), an [INTEGER] ([CInt]) or a
    [TEXT] ([CStr]). *)
Record remote_row := {
  r_sequence : Z;
  r_href : option string;
  r_name : string;
  r_last_modified : option string;
  r_size : Z;
  r_history : bool;
  r_url : string;
  r_kind : string
}.

Record journal_row := {
  c_sequence : cell;
  c_href : cell;
  c_name : cell;
  c_last_modified : cell;
  c_size : cell;
  c_history : cell;
  c_url : cell;
  c_kind : cell;
  c_last_download : cell;
  c_last_updated : cell;
  c_process : cell;
  c_active : cell
}.

Global Instance remote_row_eq_dec : EqDecision remote_row.
Proof. solve_decision. Defined.

Global Instance journal_row_eq_dec : EqDecision journal_row.
Proof. solve_decision. Defined.

(** The dictionary [if_metadata]: a journal row, the key [history_folder]
    that [update_cvm_catalog] adds, and the key [history_file] that a
    download adds. *)
Record if_metadata := {
  row : journal_row;
  history_folder : string;
  history_file : option string
}.

Definition set_last_download (v : cell) (c : journal_row) : journal_row :=
  {| c_sequence := c_sequence c; c_href := c_href c; c_name := c_name c;
     c_last_modified := c_last_modified c; c_size := c_size c;
     c_history := c_history c; c_url := c_url c; c_kind := c_kind c;
     c_last_download := v; c_last_updated := c_last_updated c;
     c_process := c_process c; c_active := c_active c |}.

(** *** The outside world of a download

    The files written so far, the arguments [request.urlopen] was called
    with, and the number of times the clock was read. *)
Record world := {
  files : gmap string string;
  fetched : list cell;
  ticks : nat
}.

Definition write_file (path data : string) (w : world) : world :=
  {| files := <[path := data]> (files w); fetched := fetched w;
     ticks := ticks w |}.

Definition log_fetch (url : cell) (w : world) : world :=
  {| files := files w; fetched := fetched w ++ [url]; ticks := ticks w |}.

Definition tick (w : world) : world :=
  {| files := files w; fetched := fetched w; ticks := S (ticks w) |}.

Inductive status := SUCCESS | SKIP | ERROR.

Global Instance status_eq_dec : EqDecision status.
Proof. solve_decision. Defined.

(** [a > b] and [a <= b] between two cells: strings by code point, numbers
    by value (a NaN compares false), anything else is a [TypeError]. *)
Definition num_of (x : cell) : option (option Z) :=
  match x with
  | CInt z => Some (Some z)
  | CBool b => Some (Some (if b then 1 else 0)%Z)
  | CNaN => Some None
  | _ => None
  end.

Definition py_gt (a b : cell) : res bool :=
  match a, b with
  | CStr s, CStr t => Ok (str_gt s t)
  | _, _ =>
      match num_of a, num_of b with
      | Some (Some x), Some (Some y) => Ok (y <? x)%Z
      | Some _, Some _ => Ok false
      | _, _ => Raise TypeError
      end
  end.


(** [s.encode('utf-8')] for a string of code points below 256. *)
Fixpoint encode_utf8 (s : string) : string :=
  match s with
  | EmptyString => EmptyString
  | String c s' =>
      let n := nat_of_ascii c in
      if (n <? 128)%nat then String c (encode_utf8 s')
      else String (ascii_of_nat (192 + n / 64))
             (String (ascii_of_nat (128 + n mod 64)) (encode_utf8 s'))
  end.

(** [s.zfill(4)] *)
Definition zfill4 (s : string) : string :=
  match String.length s with
  | 0 => "0000" +:+ s
  | 1 => "000" +:+ s
  | 2 => "00" +:+ s
  | 3 => "0" +:+ s
  | _ => s
  end.

(** The last element of a list that is not empty. *)
Definition last_of (l : list string) : string := default "" (last l).

(** [file] is the member name of an archive, [None] for a plain file. *)
Definition _build_target_file_name (metadata : if_metadata)
    (target_folder : string) (index : option nat) (file : option string)
  : res string :=
  match c_href (row metadata), c_kind (row metadata) with
  | CStr href, CStr kind =>
      let preffix := default "" (head (split href ".")) in
      let target_file_name :=
        match file with
        | Some (String a f) =>
            let index := zfill4 (str_of_Z (Z.of_nat (default 0%nat index))) in
            join "." [preffix; index; String a f]
        | _ => href
        end in
      let target_file_name := join "." [lower kind; target_file_name] in
      Ok (join "/" [target_folder; target_file_name])
  | _, _ => Raise AttributeError
  end.

Section download.

(** [request.urlopen(url).read()] *)
Variable urlopen : string -> res string.
(** [FU.magic.from_buffer(data)] *)
Variable magic_from_buffer : string -> string.
(** [ZipFile(io.BytesIO(data))]: the member names with their bytes; once
    the archive is open, reading a member does not fail. *)
Variable zip_members : string -> res (list (string * string)).
(** [datetime.now().strftime('%Y-%m-%d %H:%M:%S')] at the n-th reading. *)
Variable now : nat -> string.
(** Whether [open(path, 'wb')] succeeds. *)
Variable writable : string -> bool.

Definition _write_target_file (data : string) (metadata : if_metadata)
    (target_folder : string) (index : option nat) (file : option string)
    (w : world) : res string * world :=
  match _build_target_file_name metadata target_folder index file with
  | Ok target_file =>
      if writable target_file then
        (Ok target_file, write_file target_file (encode_utf8 data) w)
      else (Raise OSError, w)
  | Raise e => (Raise e, w)
  end.

Definition zip_mime_types := ["Zip archive data, at least v2.0 to extract"].
Definition text_mime_types := ["Non-ISO extended-ASCII text"; "ISO-8859 text"].

(** [any([a for a in types if a in mime_type])] *)
Definition any_in (types : list string) (mime_type : string) : bool :=
  existsb (fun a => str_in a mime_type) types.

(** One entry of [result].  The dictionary stored in the entries is the one
    [if_metadata] object, so it is returned once, in its final state. *)
Definition result := list (status * string).

Definition downloaded (download_time r : string) (metadata : if_metadata)
  : if_metadata :=
  {| row := set_last_download (CStr download_time) (row metadata);
     history_folder := history_folder metadata;
     history_file := Some (last_of (split r "/")) |}.

(** [for k, v in enumerate(zip_file.namelist())] *)
Fixpoint write_members (download_time : string) (url : cell) (k : nat)
    (members : list (string * string)) (metadata : if_metadata)
    (acc : result) (w : world) : res (if_metadata * result) * world :=
  match members with
  | [] => (Ok (metadata, acc), w)
  | (v, response_data) :: members' =>
      match _write_target_file response_data metadata
              (history_folder metadata) (Some k) (Some v) w with
      | (Ok r, w') =>
          write_members download_time url (S k) members'
            (downloaded download_time r metadata)
            (acc ++ [(SUCCESS, r +:+ " written from " +:+ str url)]) w'
      | (Raise e, w') => (Raise e, w')
      end
  end.

(** Whether the test of the first [if] sends the entry to the download. *)
Definition needs_download (metadata : if_metadata) : res bool :=
  if is_nan_or_empty (c_last_download (row metadata)) then Ok true
  else py_gt (c_last_modified (row metadata)) (c_last_download (row metadata)).

Definition _update_cvm_history_file (if_metadata0 : if_metadata) (w : world)
  : res (if_metadata * result) * world :=
  let url := c_url (row if_metadata0) in
  match needs_download if_metadata0 with
  | Raise e => (Raise e, w)
  | Ok false =>
      (Ok (if_metadata0,
           [(SKIP, "Already updated data for url:" +:+ str url)]), w)
  | Ok true =>
      let w := log_fetch url w in
      match (match url with CStr u => urlopen u | _ => Raise TypeError end) with
      | Raise e => (Raise e, w)
      | Ok data =>
          let download_time := now (ticks w) in
          let w := tick w in
          let mime_type :=
            default "" (head (split (magic_from_buffer data) ";")) in
          if any_in zip_mime_types mime_type then
            match zip_members data with
            | Raise e => (Raise e, w)
            | Ok members =>
                write_members download_time url 0 members if_metadata0 [] w
            end
          else if any_in text_mime_types mime_type then
            match _write_target_file data if_metadata0
                    (history_folder if_metadata0) None None w with
            | (Ok r, w') =>
                (Ok (downloaded download_time r if_metadata0,
                     [(SUCCESS, r +:+ " written from " +:+ str url)]), w')
            | (Raise e, w') => (Raise e, w')
            end
          else
            (Ok (if_metadata0,
                 [(ERROR, "Unknown mime type:" +:+ mime_type +:+ " for url:"
                          +:+ str url)]), w)
      end
  end.

End download.

(** *** CVM.update_cvm_catalog: the reconciliation query *)

(** [DataFrame.to_sql]: a NaN is stored as [NULL], a [bool] as 0 or 1. *)
Definition to_sql (x : cell) : cell :=
  match x with
  | CNaN => CNone
  | CBool b => CInt (if b then 1 else 0)
  | _ => x
  end.

Definition journal_to_sql (c : journal_row) : journal_row :=
  {| c_sequence := to_sql (c_sequence c); c_href := to_sql (c_href c);
     c_name := to_sql (c_name c);
     c_last_modified := to_sql (c_last_modified c);
     c_size := to_sql (c_size c); c_history := to_sql (c_history c);
     c_url := to_sql (c_url c); c_kind := to_sql (c_kind c);
     c_last_download := to_sql (c_last_download c);
     c_last_updated := to_sql (c_last_updated c);
     c_process := to_sql (c_process c); c_active := to_sql (c_active c) |}.

(** The columns of [if_remote_files] as SQL values. *)
Definition text_or_null (o : option string) : cell :=
  match o with
  | Some s => CStr s
  | None => CNone
  end.

Definition sequence_of (r : remote_row) : cell := CInt (r_sequence r).
Definition href_of (r : remote_row) : cell := text_or_null (r_href r).
Definition name_of (r : remote_row) : cell := CStr (r_name r).
Definition last_modified_of (r : remote_row) : cell :=
  text_or_null (r_last_modified r).
Definition size_of (r : remote_row) : cell := CInt (r_size r).
Definition history_of (r : remote_row) : cell :=
  CInt (if r_history r then 1 else 0).
Definition url_of (r : remote_row) : cell := CStr (r_url r).
Definition kind_of (r : remote_row) : cell := CStr (r_kind r).

(** [if_remote_files['url'] = '%s/%s' % (x['url'], x['href'])] *)
Definition with_file_url (r : remote_row) : remote_row :=
  {| r_sequence := r_sequence r; r_href := r_href r; r_name := r_name r;
     r_last_modified := r_last_modified r; r_size := r_size r;
     r_history := r_history r;
     r_url := r_url r +:+ "/" +:+ str (href_of r);
     r_kind := r_kind r |}.

Definition is_null (x : cell) : bool :=
  match x with
  | CNone => true
  | _ => false
  end.

(** SQL [a = b]: never true on a [NULL]. *)
Definition sql_eq (a b : cell) : bool :=
  negb (is_null a) && negb (is_null b) && bool_decide (a = b).

(** SQL [a > b] on values that are not [NULL]: an [INTEGER] sorts before a
    [TEXT], two texts compare byte by byte. *)
Definition sql_gt (a b : cell) : bool :=
  match a, b with
  | CStr s, CStr t => str_gt s t
  | CInt x, CInt y => (y <? x)%Z
  | CStr _, CInt _ => true
  | _, _ => false
  end.

(** [using (href, name, kind)] *)
Definition join_match (c : journal_row) (r : remote_row) : bool :=
  sql_eq (c_href c) (href_of r) && sql_eq (c_name c) (name_of r)
  && sql_eq (c_kind c) (kind_of r).

(** [catalog_journal c full outer join if_remote_files r using (...)]: the
    matching pairs, the journal rows without a match and the remote rows
    without a match. *)
Definition joined := (option journal_row * option remote_row)%type.

Definition full_outer_join (C : list journal_row) (R : list remote_row)
  : list joined :=
  flat_map (fun c => map (fun r => (Some c, Some r))
                         (List.filter (join_match c) R)) C
  ++ map (fun c => (Some c, None))
         (List.filter (fun c => forallb (fun r => negb (join_match c r)) R) C)
  ++ map (fun r => (None, Some r))
         (List.filter (fun r => forallb (fun c => negb (join_match c r)) C) R).

(** A column of the side [c] or [r] of a joined row: [NULL] when the side
    is missing. *)
Definition c_ (col : journal_row -> cell) (j : joined) : cell :=
  from_option col CNone j.1.

Definition r_ (col : remote_row -> cell) (j : joined) : cell :=
  from_option col CNone j.2.

(** The [case ... end process] of the third branch. *)
Definition process_case (j : joined) : cell :=
  if is_null (r_ last_modified_of j) then CInt 0
  else if is_null (c_ c_last_download j) then CInt 1
  else if sql_gt (r_ last_modified_of j) (c_ c_last_download j) then CInt 1
  else CInt 0.

(** First branch: [where c.sequence is null]. *)
Definition select_new (j : joined) : journal_row :=
  {| c_sequence := r_ sequence_of j; c_href := r_ href_of j;
     c_name := r_ name_of j; c_last_modified := r_ last_modified_of j;
     c_size := r_ size_of j; c_history := r_ history_of j;
     c_url := r_ url_of j; c_kind := r_ kind_of j;
     c_last_download := CNone; c_last_updated := CNone;
     c_process := CInt 1; c_active := CInt 1 |}.

(** Second branch: [where r.sequence is null]. *)
Definition select_gone (j : joined) : journal_row :=
  {| c_sequence := c_ c_sequence j; c_href := c_ c_href j;
     c_name := c_ c_name j; c_last_modified := c_ c_last_modified j;
     c_size := c_ c_size j; c_history := c_ c_history j;
     c_url := c_ c_url j; c_kind := c_ c_kind j;
     c_last_download := c_ c_last_download j;
     c_last_updated := c_ c_last_updated j;
     c_process := CInt 0; c_active := CInt 0 |}.

(** Third branch: [where r.sequence is not null]. *)
Definition select_present (j : joined) : journal_row :=
  {| c_sequence := r_ sequence_of j; c_href := r_ href_of j;
     c_name := r_ name_of j; c_last_modified := r_ last_modified_of j;
     c_size := r_ size_of j; c_history := r_ history_of j;
     c_url := r_ url_of j; c_kind := r_ kind_of j;
     c_last_download := c_ c_last_download j;
     c_last_updated := c_ c_last_updated j;
     c_process := process_case j; c_active := c_ c_active j |}.

(** The query: [union] keeps one copy of each row; the order of its rows
    is not specified, here it is the order of the three branches. *)
Definition reconcile (R : list remote_row) (J : list journal_row)
  : list journal_row :=
  let C := map journal_to_sql J in
  let R := map with_file_url R in
  let fj := full_outer_join C R in
  remove_dups
    (map select_new (List.filter (fun j => is_null (c_ c_sequence j)) fj)
     ++ map select_gone (List.filter (fun j => is_null (r_ sequence_of j)) fj)
     ++ map select_present
          (List.filter (fun j => negb (is_null (r_ sequence_of j))) fj)).

(** The key [(href, name, kind)] of a journal row and of a remote row. *)
Definition key_of_row (c : journal_row) : cell * cell * cell :=
  (c_href c, c_name c, c_kind c).

Definition key_of_remote (r : remote_row) : cell * cell * cell :=
  (href_of r, name_of r, kind_of r).

(** *** CVM.update_cvm_catalog: downloads and the update of the journal *)

Section update_cvm_catalog.

Variable urlopen : string -> res string.
Variable magic_from_buffer : string -> string.
Variable zip_members : string -> res (list (string * string)).
Variable now : nat -> string.
Variable writable : string -> bool.

(** [for m in catalog_journal_df.to_dict(orient='records'): if m['process']] *)
Definition metadata_to_process (HISTORY_FOLDER : string)
    (journal : list journal_row) : list if_metadata :=
  map (fun m => {| row := m; history_folder := HISTORY_FOLDER;
                   history_file := None |})
      (List.filter (fun m => truthy (c_process m)) journal).

(** [for if_metadata in metadata_to_process: results.append(...)] *)
Fixpoint run_downloads (ms : list if_metadata) (w : world)
  : res (list (if_metadata * result)) * world :=
  match ms with
  | [] => (Ok [], w)
  | m :: ms' =>
      match _update_cvm_history_file urlopen magic_from_buffer zip_members
              now writable m w with
      | (Ok r, w') =>
          match run_downloads ms' w' with
          | (Ok rs, w'') => (Ok (r :: rs), w'')
          | (Raise e, w'') => (Raise e, w'')
          end
      | (Raise e, w') => (Raise e, w')
      end
  end.

(** One row of [result_data]: [(name, kind, status, message)]. *)
Definition result_row := (cell * cell * status * string)%type.

(** [[(r[0][1]['name'], r[0][1]['kind'], r[0][0], r[0][-1])
      for r in results if r[0][0] != 'SKIP']]: only the first entry of each
    result is read, and a result without entries raises. *)
Fixpoint result_data (results : list (if_metadata * result))
  : res (list result_row) :=
  match results with
  | [] => Ok []
  | (m, r) :: results' =>
      match r with
      | [] => Raise IndexError
      | (st, message) :: _ =>
          do rest <- result_data results';
          if bool_decide (st = SKIP) then Ok rest
          else Ok ((to_sql (c_name (row m)), to_sql (c_kind (row m)),
                    st, message) :: rest)
      end
  end.

(** One row of [update_results]: [name, kind, errors, successes, skips]. *)
Definition group_row := (cell * cell * nat * nat * nat)%type.

Definition count_status (st : status) (name kind : cell)
    (rows : list result_row) : nat :=
  length (List.filter
            (fun x : result_row =>
               bool_decide (x.1.1.1 = name) && bool_decide (x.1.1.2 = kind)
               && bool_decide (x.1.2 = st)) rows).

(** [select name, kind, sum(...) errors, sum(...) successes, sum(...) skips
    from result_table group by name, kind]; the groups are listed in the
    order in which they first appear. *)
Definition update_results (rows : list result_row) : list group_row :=
  map (fun g : cell * cell =>
         (g.1, g.2, count_status ERROR g.1 g.2 rows,
          count_status SUCCESS g.1 g.2 rows, count_status SKIP g.1 g.2 rows))
      (remove_dups (map (fun x : result_row => (x.1.1.1, x.1.1.2)) rows)).

(** A column used as a condition: true on an [INTEGER] other than 0. *)
Definition sql_true (x : cell) : bool :=
  match x with
  | CInt z => negb (z =? 0)%Z
  | _ => false
  end.

(** [where name = '{name}' and kind = '{kind}' and process and active]:
    the f-string writes the name and the kind with [str]; they are compared
    as texts, a quote inside them is not modelled. *)
Definition picked (name kind : cell) (c : journal_row) : bool :=
  sql_eq (c_name c) (CStr (str name)) && sql_eq (c_kind c) (CStr (str kind))
  && sql_true (c_process c) && sql_true (c_active c).

(** [update journal set last_download = '{download_time}', process = FALSE
    where ...] *)
Definition update_journal (download_time : string) (name kind : cell)
    (journal : list journal_row) : list journal_row :=
  map (fun c =>
         if picked name kind c
         then
           {| c_sequence := c_sequence c; c_href := c_href c;
              c_name := c_name c; c_last_modified := c_last_modified c;
              c_size := c_size c; c_history := c_history c;
              c_url := c_url c; c_kind := c_kind c;
              c_last_download := CStr download_time;
              c_last_updated := c_last_updated c;
              c_process := CInt 0; c_active := c_active c |}
         else c)
      journal.

(** [for name, kind, errors, successes, skips in update_results: ...] *)
Definition apply_updates (download_time : string) (groups : list group_row)
    (journal : list journal_row) : list journal_row :=
  fold_left
    (fun journal (g : group_row) =>
       let '(name, kind, errors, successes, skips) := g in
       if (errors =? 0)%nat && ((0 <? successes)%nat || (0 <? skips)%nat)
       then update_journal download_time name kind journal
       else journal)
    groups journal.

(** What the run leaves behind: the value it returns, the table
    [cvm_if_catalog_journal] and the files. *)
Record outcome := {
  returned : res (list group_row * list if_metadata);
  journal_after : list journal_row;
  world_after : world
}.

(** [catalog] is the journal table before the run, [None] when it does not
    exist yet; any exception leaves as a [ValueError]. *)
Definition update_cvm_catalog (HISTORY_FOLDER : string)
    (if_remote_files : list remote_row) (catalog : option (list journal_row))
    (w : world) : outcome :=
  let catalog_journal_df := reconcile if_remote_files (default [] catalog) in
  let to_process := metadata_to_process HISTORY_FOLDER catalog_journal_df in
  match run_downloads to_process w with
  | (Raise _, w') =>
      {| returned := Raise ValueError; journal_after := catalog_journal_df;
         world_after := w' |}
  | (Ok results, w') =>
      match result_data results with
      | Raise _ =>
          {| returned := Raise ValueError;
             journal_after := catalog_journal_df; world_after := w' |}
      | Ok rows =>
          let download_time := now (ticks w') in
          let w'' := tick w' in
          let groups := update_results rows in
          {| returned := Ok (groups, fst <$> results);
             journal_after :=
               apply_updates download_time groups catalog_journal_df;
             world_after := w'' |}
      end
  end.

End update_cvm_catalog.

(** *** Header fingerprints and the mapping registry *)

(** One row of the sheet [if_header_mappings.xlsx], the template of a kind
    (the column [Header] holds the kind); [Order] is an integer column. *)
Record template_row := {
  t_Header : cell;
  t_Order : Z;
  t_Target_Field : cell;
  t_Source_Field : cell;
  t_Transformation1 : cell;
  t_Transformation2 : cell;
  t_Transformation3 : cell;
  t_Converter : cell
}.

(** The sheet goes through [to_sql] and [read_sql]: its blanks are [None]. *)
Definition template_to_sql (t : template_row) : template_row :=
  {| t_Header := to_sql (t_Header t); t_Order := t_Order t;
     t_Target_Field := to_sql (t_Target_Field t);
     t_Source_Field := to_sql (t_Source_Field t);
     t_Transformation1 := to_sql (t_Transformation1 t);
     t_Transformation2 := to_sql (t_Transformation2 t);
     t_Transformation3 := to_sql (t_Transformation3 t);
     t_Converter := to_sql (t_Converter t) |}.

(** [order by "Order"], rows of equal order in the order of the sheet. *)
Fixpoint insert_by_order (t : template_row) (l : list template_row)
  : list template_row :=
  match l with
  | [] => [t]
  | u :: l' =>
      if (t_Order t <? t_Order u)%Z then t :: l
      else u :: insert_by_order t l'
  end.

Definition order_by_Order (l : list template_row) : list template_row :=
  fold_right insert_by_order [] l.

(** [header_mappings[kind]]: the rows [where "Header" = '{kind}'], and a
    [KeyError] when no row has this header. *)
Definition header_mappings (sheet : list template_row) (kind : string)
  : res (list template_row) :=
  match List.filter (fun t => bool_decide (t_Header t = CStr kind))
          (map template_to_sql sheet) with
  | [] => Raise KeyError
  | rows => Ok (order_by_Order rows)
  end.

(** [x is not None] *)
Definition is_not_None (x : cell) : bool := negb (is_null x).

(** [f in l] for a string [f] and a list of cells. *)
Definition str_in_cells (f : string) (l : list cell) : bool :=
  bool_decide (CStr f ∈ l).

(** [max([h['Order'] for h in header_mapping if h['Source_Field'] is not
    None])] *)
Definition max_order_of (header_mapping : list template_row) : res Z :=
  match map t_Order
          (List.filter (fun h => is_not_None (t_Source_Field h))
             header_mapping) with
  | [] => Raise ValueError
  | o :: os => Ok (fold_left Z.max os o)
  end.

Definition source_fields_of (header_mapping : list template_row)
  : list cell :=
  map t_Source_Field
      (List.filter (fun h => is_not_None (t_Source_Field h)) header_mapping).

Definition mapped_fields_of (mappings : list mapping) : list cell :=
  map Source_Field
      (List.filter (fun m => is_not_None (Target_Field m)) mappings)
  ++ map Source_Field
       (List.filter (fun m => is_not_None (Transformation1 m)) mappings)
  ++ map Source_Field
       (List.filter (fun m => is_not_None (Transformation2 m)) mappings)
  ++ map Source_Field
       (List.filter (fun m => is_not_None (Transformation3 m)) mappings).

Section new_rows.

Variables kind sub_kind header header_hash : string.

(** The row appended for the template row [m]. *)
Definition mapped_row (fields : list string) (m : template_row) : mapping :=
  let found :=
    match t_Source_Field m with
    | CStr s => bool_decide (s ∈ fields)
    | _ => false
    end in
  {| Kind := CStr kind; Sub_Kind := CStr sub_kind; Header := CStr header;
     Hash := CStr header_hash; Order := CInt (t_Order m);
     Target_Field := t_Target_Field m;
     Source_Field := if found then t_Source_Field m else CNone;
     Transformation1 := if found then t_Transformation1 m else CNone;
     Transformation2 := if found then t_Transformation2 m else CNone;
     Transformation3 := if found then t_Transformation3 m else CNone;
     Converter := if found then t_Converter m else CNone;
     Is_New := CBool true |}.

(** The row appended for a field without a mapping. *)
Definition orphan_row (max_order : Z) (f : string) : mapping :=
  {| Kind := CStr kind; Sub_Kind := CStr sub_kind; Header := CStr header;
     Hash := CStr header_hash; Order := CInt max_order;
     Target_Field := CNone; Source_Field := CStr f;
     Transformation1 := CNone; Transformation2 := CNone;
     Transformation3 := CNone; Converter := CNone;
     Is_New := CBool true |}.

(** [for f in fields: if not f in source_fields and not f in
    mapped_fields: max_order += 1; mappings.append(...)] *)
Fixpoint orphan_rows (source_fields mapped_fields : list cell)
    (max_order : Z) (fields : list string) : list mapping :=
  match fields with
  | [] => []
  | f :: fields' =>
      if negb (str_in_cells f source_fields)
         && negb (str_in_cells f mapped_fields)
      then orphan_row (max_order + 1) f
           :: orphan_rows source_fields mapped_fields (max_order + 1) fields'
      else orphan_rows source_fields mapped_fields max_order fields'
  end.

(** The body of [for m in header_mapping[:]]: the orphan fields are looked
    for inside this loop, once for every row of the template. *)
Definition template_step (header_mapping : list template_row)
    (fields : list string) (m : template_row) (mappings : list mapping)
  : res (list mapping) :=
  let mappings := mappings ++ [mapped_row fields m] in
  if bool_decide (sub_kind ∈ ["CAD_FI"; "DIARIO_FI"]) then
    do max_order <- max_order_of header_mapping;
    Ok (mappings
        ++ orphan_rows (source_fields_of header_mapping)
             (mapped_fields_of mappings) max_order fields)
  else Ok mappings.

End new_rows.

(** [(kind, sub_kind, header, header_hash)] *)
Definition source_header := (string * string * string * string)%type.

(** The body of [for source_header in ...]. *)
Definition header_step (existing_mappings : list cell)
    (header_mapping : list template_row) (sh : source_header)
    (mappings : list mapping) : res (list mapping) :=
  let '(kind, sub_kind, header, header_hash) := sh in
  if negb (str_in_cells header_hash existing_mappings) then
    let fields := split header ";" in
    for_each (template_step kind sub_kind header header_hash header_mapping
                fields)
      header_mapping mappings
  else Ok mappings.

(** The body of [for header_group in ...]: the template is looked up before
    the headers of the group are visited. *)
Definition group_step (sheet : list template_row)
    (existing_mappings : list cell) (source_headers : list source_header)
    (g : string * string) (mappings : list mapping) : res (list mapping) :=
  do header_mapping <- header_mappings sheet g.1;
  for_each (header_step existing_mappings header_mapping)
    (List.filter (fun sh : source_header =>
                    bool_decide (sh.1.1.1 = g.1) && bool_decide (sh.1.1.2 = g.2))
       source_headers)
    mappings.

(** [except Exception as E: raise ValueError(...)] *)
Definition as_ValueError {A} (r : res A) : res A :=
  match r with
  | Ok a => Ok a
  | Raise _ => Raise ValueError
  end.

Section headers.

(** [SU.hash_string] of the package [fbpyutils]. *)
Variable hash_string : string -> string.
(** The text of the file at a path; [open] may raise. *)
Variable read_text : string -> res string.

(** [f.readline()]: the text up to the first line feed, included. *)
Fixpoint readline (s : string) : string :=
  match s with
  | EmptyString => EmptyString
  | String c s' =>
      if Ascii.eqb c "010" then String c EmptyString
      else String c (readline s')
  end.

Definition sub_kind_of (metadata_file : string) : string :=
  if String.eqb "cad_fi" (lower metadata_file)
     || startswith (lower metadata_file) "inf_cadastral_fi"
  then "CAD_FI"
  else if startswith (lower metadata_file) "inf_diario_fi" then "DIARIO_FI"
  else upper metadata_file.

Definition _get_cvm_file_metadata (cvm_file : string) : res source_header :=
  do text <- read_text cvm_file;
  let line := readline text in
  let file_name_parts := split (last_of (split cvm_file "/")) "." in
  do kind <- index file_name_parts 0;
  let kind := upper kind in
  do metadata_file <- index file_name_parts (-2);
  let sub_kind := sub_kind_of metadata_file in
  do line <- index (split line "010") 0;
  Ok (kind, sub_kind, line, hash_string (join ";" [kind; sub_kind; line])).

(** [sheet] is [if_header_mappings.xlsx], [HEADERS] the rows of the
    persisted [if_headers_v4.xlsx] (none when the file is missing).  The set
    of source headers and the [select distinct] over it are visited in the
    order of their first appearance; Python and SQLite fix no order. *)
Definition _get_cvm_updated_headers (sheet : list template_row)
    (HEADERS : list mapping) (cvm_files : list string) : res (list mapping) :=
  as_ValueError (
    do metadata <-
      for_each (fun f acc => do md <- _get_cvm_file_metadata f;
                             Ok (acc ++ [md]))
        cvm_files [];
    let if_source_headers := remove_dups metadata in
    let mappings := HEADERS in
    let existing_mappings := remove_dups (map Hash mappings) in
    if (length cvm_files =? 0)%nat && (length existing_mappings =? 0)%nat
    then Raise ValueError
    else
      for_each (group_step sheet existing_mappings if_source_headers)
        (remove_dups
           (map (fun sh : source_header => (sh.1.1.1, sh.1.1.2))
              if_source_headers))
        mappings).

(** [_check_cvm_headers_changed]: the hashes of the updated headers that
    the persisted file does not have. *)
Definition _check_cvm_headers_changed (sheet : list template_row)
    (HEADERS : list mapping) (cvm_files : list string) : res (list cell) :=
  as_ValueError (
    do new_mappings <- _get_cvm_updated_headers sheet HEADERS cvm_files;
    Ok (List.filter (fun h => negb (bool_decide (h ∈ map Hash HEADERS)))
          (remove_dups (map Hash new_mappings)))).

End headers.

(** *** _make_number_type and _make_datetime *)

Definition is_letter (c : ascii) : bool :=
  let n := nat_of_ascii c in
  ((65 <=? n)%nat && (n <=? 90)%nat) || ((97 <=? n)%nat && (n <=? 122)%nat).

(** [re.sub(r'[a-zA-Z]', '', x)] *)
Fixpoint remove_letters (s : string) : string :=
  match s with
  | EmptyString => EmptyString
  | String c s' =>
      if is_letter c then remove_letters s' else String c (remove_letters s')
  end.

(** The white space [int] strips: tab to carriage return, the space, and
    the two spaces above code point 127. *)
Definition is_int_space (c : ascii) : bool :=
  let n := nat_of_ascii c in
  ((9 <=? n)%nat && (n <=? 13)%nat) || (n =? 32)%nat || (n =? 133)%nat
  || (n =? 160)%nat.

Fixpoint lstrip_int (s : string) : string :=
  match s with
  | String c s' => if is_int_space c then lstrip_int s' else s
  | EmptyString => EmptyString
  end.

(** [int(s)]: white space, a sign, digits with single underscores between
    them, white space. *)
Definition int_of_str (s : string) : res Z :=
  match drop_underscores "000" s with
  | None => Raise ValueError
  | Some s1 =>
      let stripped := String.rev (lstrip_int (String.rev (lstrip_int s1))) in
      let '(neg, t) :=
        match stripped with
        | String "+" t => (false, t)
        | String "-" t => (true, t)
        | t => (false, t)
        end in
      let '(n, cnt, rest) := take_digits 0 0 t in
      if (cnt =? 0)%nat then Raise ValueError
      else
        match rest with
        | EmptyString => Ok (if neg then (- Z.of_N n)%Z else Z.of_N n)
        | String _ _ => Raise ValueError
        end
  end.

(** [return None if x is None or x == '-' else y(re.sub(...))] with the
    default [y = int]; [re.sub] wants a string. *)
Definition _make_number_type (x : cell) : res (option Z) :=
  match x with
  | CNone => Ok None
  | CStr s =>
      if String.eqb s "-" then Ok None
      else do n <- int_of_str (remove_letters s); Ok (Some n)
  | _ => Raise TypeError
  end.

Section directory.

(** [datetime.strptime(dt, "%d-%b-%Y %H:%M")], given as the text SQLite
    stores for the result. *)
Variable strptime_listing : string -> res string.

Definition _make_datetime (x y : cell) : res (option string) :=
  if negb (truthy x && truthy y) then Ok None
  else
    match x, y with
    | CStr a, CStr b =>
        do t <- strptime_listing (join " " [a; b]); Ok (Some t)
    | _, _ => Raise TypeError
    end.

(** *** _get_url_paths and _get_remote_files_list *)

(** One row of the directory: [(i, href, name, last_modified, size)]. *)
Record dir_row := {
  d_sequence : Z;
  d_href : option string;
  d_name : string;
  d_last_modified : option string;
  d_size : option Z
}.

(** The body of [for i, href in enumerate(hrefs)]. *)
Definition directory_row (contents : list (list cell)) (i : nat)
    (href : option string) : res dir_row :=
  do content <- match contents !! i with
                | Some c => Ok c
                | None => Raise IndexError
                end;
  do name <- listing_name content;
  do date <- _get_value_by_index_if_exists content 1 CNone;
  do time <- _get_value_by_index_if_exists content 2 CNone;
  do last_modified <- _make_datetime date time;
  do size_text <- _get_value_by_index_if_exists content 3 CNone;
  do size <- _make_number_type size_text;
  Ok {| d_sequence := Z.of_nat i; d_href := href; d_name := name;
        d_last_modified := last_modified; d_size := size |}.

Fixpoint directory_rows (contents : list (list cell)) (i : nat)
    (hrefs : list (option string)) : res (list dir_row) :=
  match hrefs with
  | [] => Ok []
  | href :: hrefs' =>
      do d <- directory_row contents i href;
      do ds <- directory_rows contents (S i) hrefs';
      Ok (d :: ds)
  end.

(** [_get_url_paths] from the links of the page ([hrefs]) and the columns
    of the lines of its text ([contents]); the rows are sorted by their
    sequence, the order in which the loop makes them. *)
Definition _get_url_paths (hrefs : list (option string))
    (contents : list (list cell)) : res (list dir_row) :=
  directory_rows contents 0 hrefs.

(** [dir[~pd.isnull(dir['size'])]] with the columns [history], [url] and
    [kind] added. *)
Definition files_of (history : bool) (url kind : string)
    (dir : list dir_row) : list remote_row :=
  omap (fun d =>
          match d_size d with
          | Some size =>
              Some {| r_sequence := d_sequence d; r_href := d_href d;
                      r_name := d_name d;
                      r_last_modified := d_last_modified d; r_size := size;
                      r_history := history; r_url := url; r_kind := kind |}
          | None => None
          end) dir.


End directory.

(** *** CVM.get_cvm_files and CVM.update_cvm_files *)

(** SQL [order by name]: a NULL first, then the integers, then the texts. *)
Definition sql_le (a b : cell) : bool :=
  match a, b with
  | CNone, _ => true
  | _, CNone => false
  | CInt x, CInt y => (x <=? y)%Z
  | CInt _, _ => true
  | _, CInt _ => false
  | CStr s, CStr t => str_le s t
  | _, _ => true
  end.



Section files.

(** [FU.find(folder, mask)] of the package [fbpyutils]. *)
Variable find : string -> string -> list string.



End files.


(** *** _write_cvm_headers_mappings *)

(** The columns the sheet keeps: all but [Header]. *)
Definition sheet_row (m : mapping) : mapping :=
  {| Kind := to_sql (Kind m); Sub_Kind := to_sql (Sub_Kind m);
     Header := CNone; Hash := to_sql (Hash m); Order := to_sql (Order m);
     Target_Field := to_sql (Target_Field m);
     Source_Field := to_sql (Source_Field m);
     Transformation1 := to_sql (Transformation1 m);
     Transformation2 := to_sql (Transformation2 m);
     Transformation3 := to_sql (Transformation3 m);
     Converter := to_sql (Converter m); Is_New := to_sql (Is_New m) |}.

(** [order by "Hash", "Order"] *)
Definition sheet_le (a b : mapping) : bool :=
  if bool_decide (Hash a = Hash b) then sql_le (Order a) (Order b)
  else sql_le (Hash a) (Hash b).

Fixpoint insert_sheet_row (m : mapping) (l : list mapping) : list mapping :=
  match l with
  | [] => [m]
  | n :: l' =>
      if sheet_le m n then m :: l else n :: insert_sheet_row m l'
  end.

(** [select distinct ... order by "Hash", "Order"]: what is written to the
    sheet, [None] when [mappings] is empty and nothing is written. *)
Definition _write_cvm_headers_mappings (mappings : list mapping)
  : option (list mapping) :=
  match mappings with
  | [] => None
  | _ => Some (fold_right insert_sheet_row []
                 (remove_dups (map sheet_row mappings)))
  end.

End cvm.

Import cvm.

(** ** Sample data of the examples *)

Module sample.

(** The registration file of the funds, as the listing of the portal shows
    it. *)
Definition cad_fi : remote_row :=
  {| r_sequence := 1; r_href := Some "cad_fi.csv"; r_name := "cad_fi";
     r_last_modified := Some "2024-01-02 00:00:00"; r_size := 10;
     r_history := false; r_url := "http://dados.cvm.gov.br/dados/FI/CAD/DADOS";
     r_kind := "IF_REGISTER" |}.

(** Its journal row after a download on the third of January. *)
Definition cad_fi_synced : journal_row :=
  {| c_sequence := CInt 1; c_href := CStr "cad_fi.csv";
     c_name := CStr "cad_fi";
     c_last_modified := CStr "2024-01-01 00:00:00";
     c_size := CInt 9; c_history := CInt 0;
     c_url := CStr "http://dados.cvm.gov.br/dados/FI/CAD/DADOS/cad_fi.csv";
     c_kind := CStr "IF_REGISTER";
     c_last_download := CStr "2024-01-03 09:30:00";
     c_last_updated := CNone; c_process := CInt 0; c_active := CInt 1 |}.


Definition world0 : world := {| files := ∅; fetched := []; ticks := 0 |}.

(** A portal that answers every request with bytes [libmagic] calls
    ["data"]. *)
Definition urlopen (u : string) : res string := Ok "??".
Definition magic_from_buffer (data : string) : string := "data".
Definition zip_members (data : string) : res (list (string * string)) :=
  Raise OSError.
Definition now (n : nat) : string := "2024-02-01 00:00:0" +:+ str_of_Z (Z.of_nat n).
Definition writable (path : string) : bool := true.

(** A template of two rows for the registration files. *)
Definition template (order : Z) (target source : string) : template_row :=
  {| t_Header := CStr "IF_REGISTER"; t_Order := order;
     t_Target_Field := CStr target; t_Source_Field := CStr source;
     t_Transformation1 := CNaN; t_Transformation2 := CNaN;
     t_Transformation3 := CNaN; t_Converter := CStr "_as_string" |}.

Definition sheet : list template_row :=
  [template 1 "CNPJ" "CNPJ_FUNDO"; template 2 "NAME" "DENOM_SOCIAL"].

(** The persisted headers: one row of an older header of the daily files,
    which reads the column TP_FUNDO. *)
Definition HEADERS : list mapping :=
  [{| Kind := CStr "IF_POSITION"; Sub_Kind := CStr "DIARIO_FI";
      Header := CNaN; Hash := CStr "0f3a"; Order := CInt 1;
      Target_Field := CStr "FUND_TYPE"; Source_Field := CStr "TP_FUNDO";
      Transformation1 := CNaN; Transformation2 := CNaN;
      Transformation3 := CNaN; Converter := CStr "_as_string";
      Is_New := CBool false |}].

(** A registration file whose header has two columns the template does not
    know, SIT and TP_FUNDO. *)
Definition cad_fi_file : string := "/history/if_register.cad_fi.csv".

Definition read_text (path : string) : res string :=
  if String.eqb path cad_fi_file
  then Ok ("CNPJ_FUNDO;SIT;TP_FUNDO" +:+ String "010" "00.000.000/0001-91;A;FI")
  else Raise OSError.

(** A stand-in for the digest. *)
Definition hash_string (s : string) : string := "#" +:+ s.

Definition cad_fi_hash : string :=
  "#IF_REGISTER;CAD_FI;CNPJ_FUNDO;SIT;TP_FUNDO".

(** The listing of a directory of the portal: the link to the parent
    directory, which has no date and no size, and one file. *)
Definition listing_hrefs : list (option string) := [None; Some "cad_fi.csv"].

Definition listing_contents : list (list cell) :=
  [[CStr "../"];
   [CStr "cad_fi.csv"; CStr "02-Jan-2024"; CStr "08:30"; CStr "12K"]].

Definition strptime_listing (s : string) : res string :=
  Ok "2024-01-02 08:30:00".

End sample.

(** ** Devices of the proofs *)

(** [s[n:]] *)
Fixpoint sdrop (n : nat) (s : string) : string :=
  match n, s with
  | O, _ => s
  | S n', String _ s' => sdrop n' s'
  | S _, EmptyString => EmptyString
  end.

(** A string read as a number in base 256, first character first. *)
Fixpoint val (s : string) : Z :=
  match s with
  | EmptyString => 0
  | String c s' => Z.of_nat (nat_of_ascii c) * 256 ^ Z.of_nat (String.length s')
                   + val s'
  end.

(** [c * n] *)
Fixpoint repeat_char (c : ascii) (n : nat) : string :=
  match n with
  | O => EmptyString
  | S n' => String c (repeat_char c n')
  end.

(** A cell handed on as it is, seen as the value of a converter. *)
Definition pyval_of_cell (x : cell) : pyval :=
  match x with
  | CNone => VNone
  | CNaN => VFloat F_nan
  | CStr s => VStr s
  | CInt z => VInt z
  | CBool b => VBool b
  end.

(** A state that a loop only appends to, with rows that satisfy [Q]. *)
Definition extends (Q : mapping -> Prop) (s0 s : list mapping) : Prop :=
  exists new, s = s0 ++ new /\ Forall Q new.

(** The rows a new header brings carry its hash and are marked as new. *)
Definition generated (header_hash : string) (x : mapping) : Prop :=
  Hash x = CStr header_hash /\ Is_New x = CBool true.

(** The hash of a generated row is not one of the persisted file. *)
Definition fresh (existing : list cell) (x : mapping) : Prop :=
  (Hash x ∉ existing) /\ Is_New x = CBool true.





(** [s] without the character [c]. *)
Fixpoint remove_char (c : ascii) (s : string) : string :=
  match s with
  | EmptyString => EmptyString
  | String a s' =>
      if Ascii.eqb a c then remove_char c s' else String a (remove_char c s')
  end.

(** Whether the character [c] occurs in [s]. *)
Fixpoint has_char (c : ascii) (s : string) : bool :=
  match s with
  | EmptyString => false
  | String a s' => Ascii.eqb a c || has_char c s'
  end.




Local Arguments String.append !_ _ / : simpl nomatch.

(** * Properties *)

(** ** Converters *)

Section converter_facts.

(** A missing value is recognised before any parsing. *)
Lemma is_nan_or_empty_None : is_nan_or_empty CNone = true.
Proof. reflexivity. Qed.

Lemma is_nan_or_empty_NaN : is_nan_or_empty CNaN = true.
Proof. reflexivity. Qed.

Lemma is_nan_or_empty_str s :
  is_nan_or_empty (CStr s) = true <-> s = "".
Proof.
  unfold is_nan_or_empty; simpl. destruct s as [|a s]; simpl.
  - tauto.
  - split; [discriminate|discriminate].
Qed.

(** A sign alone is not a number: [float('-')] raises [ValueError]. *)
Lemma float_of_sign_only : float_of_str "-" = Raise ValueError.
Proof. reflexivity. Qed.

(** Every converter but [as_integer] gives [None] on a missing value. *)
Lemma missing_value_converted x :
  is_nan_or_empty x = true ->
  as_boolean x = Ok (VBool false) /\ as_date x = Ok VNone
  /\ as_float x = Ok VNone /\ as_integer x = Ok (VInt 0)
  /\ as_string x = Ok VNone /\ as_string_id x = Ok VNone.
Proof.
  intros H. unfold as_boolean, as_date, as_float, as_integer, as_string,
    as_string_id. rewrite H. repeat split.
Qed.

End converter_facts.

(** C4, as the specification words it: [as_integer("-")] would be [0].  The
    sign is not an empty value, [float] rejects it and the [ValueError] is
    turned into [None]; the five equations do not hold together. *)
Lemma converter_edge_cases_as_stated_fail :
  ~ (as_boolean (CStr "S") = Ok (VBool true)
     /\ as_boolean (CStr "n") = Ok (VBool false)
     /\ as_date (CStr "") = Ok VNone
     /\ as_integer (CStr "-") = Ok (VInt 0)
     /\ as_float (CStr "-") = Ok VNone).
Proof. intros (_ & _ & _ & H & _). vm_compute in H. discriminate H. Qed.

(** C4, amended: [as_boolean("S")] is true, [as_boolean("n")] is false,
    [as_date("")] is [None], [as_integer("-")] is [None] (the integer 0 is
    what [as_integer] gives for an empty value, [as_integer("") == 0]), and
    [as_float("-")] is [None]. *)
Theorem converter_edge_cases :
  as_boolean (CStr "S") = Ok (VBool true)
  /\ as_boolean (CStr "n") = Ok (VBool false)
  /\ as_date (CStr "") = Ok VNone
  /\ as_integer (CStr "-") = Ok VNone
  /\ as_integer (CStr "") = Ok (VInt 0)
  /\ as_float (CStr "-") = Ok VNone.
Proof. repeat split; vm_compute; reflexivity. Qed.

(** ** _get_value_by_index_if_exists *)

(** C9: past the end of the list the default [z] comes back only when it is
    truthy; a falsy default, the empty string or 0, comes back as [None].
    The directory listing passes [''] and so gets [None], never [''], for a
    missing first column -- on which [.split] then raises. *)
Theorem get_value_past_the_end (x : list cell) (y : Z) (z : cell) :
  (Z.of_nat (length x) <= y)%Z ->
  _get_value_by_index_if_exists x y z = Ok (if truthy z then z else CNone)
  /\ (truthy z = false -> _get_value_by_index_if_exists x y z = Ok CNone)
  /\ _get_value_by_index_if_exists x y (CStr "") = Ok CNone
  /\ _get_value_by_index_if_exists x y (CInt 0) = Ok CNone
  /\ (x = [] -> y = 0%Z -> listing_name x = Raise AttributeError).
Proof.
  intros Hy. unfold _get_value_by_index_if_exists.
  assert (Hlt : (y <? Z.of_nat (length x))%Z = false) by lia.
  rewrite Hlt. unfold py_or. repeat split.
  - intros ->. reflexivity.
  - intros -> _. reflexivity.
Qed.

Lemma get_value_past_the_end_witness :
  (Z.of_nat (length [CStr "a"]) <= 1)%Z
  /\ _get_value_by_index_if_exists [CStr "a"] 1 (CStr "") = Ok CNone.
Proof.
  assert (H : (Z.of_nat (length [CStr "a"]) <= 1)%Z) by (simpl; lia).
  split; [exact H|].
  exact (proj1 (proj2 (proj2 (get_value_past_the_end [CStr "a"] 1 (CStr "") H)))).
Defined.

(** Inside the list the element is returned and the default is ignored. *)
Lemma get_value_inside (x : list cell) (i : nat) (v z : cell) :
  x !! i = Some v ->
  _get_value_by_index_if_exists x (Z.of_nat i) z = Ok v.
Proof.
  intros H. pose proof (lookup_lt_Some _ _ _ H) as Hlt.
  unfold _get_value_by_index_if_exists, index.
  replace (Z.of_nat i <? Z.of_nat (length x))%Z with true by lia.
  replace (Z.of_nat i <? 0)%Z with false by lia.
  replace ((Z.of_nat i <? 0)%Z || (Z.of_nat (length x) <=? Z.of_nat i)%Z)
    with false by lia.
  rewrite Nat2Z.id, H. reflexivity.
Qed.

(** ** _replace_all *)

Section replace_facts.

Lemma length_append (a b : string) :
  String.length (a +:+ b) = (String.length a + String.length b)%nat.
Proof. induction a as [|c a IH]; simpl; [reflexivity|]. rewrite IH. reflexivity. Qed.

Lemma prefix_length (p s : string) :
  String.prefix p s = true -> (String.length p <= String.length s)%nat.
Proof.
  revert p. induction s as [|c s IH]; intros [|d p]; simpl; intros H;
    try lia; try discriminate.
  destruct (ascii_dec d c); [|discriminate]. specialize (IH _ H). lia.
Qed.

Lemma prefix_split (p s : string) :
  String.prefix p s = true -> s = p +:+ sdrop (String.length p) s.
Proof.
  revert p. induction s as [|c s IH]; intros [|d p]; simpl; intros H;
    try reflexivity; try discriminate.
  destruct (ascii_dec d c) as [->|]; [|discriminate].
  f_equal. apply IH, H.
Qed.

Lemma prefix_refl (s : string) : String.prefix s s = true.
Proof.
  induction s as [|c s IH]; simpl; [reflexivity|].
  destruct (ascii_dec c c); [exact IH|congruence].
Qed.

Lemma str_in_refl (s : string) : str_in s s = true.
Proof. destruct s; [reflexivity|]. cbn [str_in]. rewrite prefix_refl. reflexivity. Qed.

Lemma str_in_cons old c x :
  String.prefix old (String c x) = false ->
  str_in old (String c x) = str_in old x.
Proof. intros H. cbn [str_in]. rewrite H. reflexivity. Qed.

Lemma sdrop_length n s : String.length (sdrop n s) = (String.length s - n)%nat.
Proof.
  revert s. induction n as [|n IH]; intros [|c s]; simpl; try lia. apply IH.
Qed.

Variables old new : string.
Hypothesis old_not_empty : old <> "".

Lemma old_length_pos : (1 <= String.length old)%nat.
Proof. destruct old; [congruence|simpl; lia]. Qed.

(** The length after one pass, when [new] is not longer than [old]. *)
Lemma replace_from_length (x : string) :
  (String.length new <= String.length old)%nat ->
  forall k, (k <= String.length x)%nat ->
    (String.length (replace_from k old new x) + k <= String.length x)%nat
    /\ ((String.length new < String.length old)%nat ->
        str_in old (sdrop k x) = true ->
        (String.length (replace_from k old new x) + k < String.length x)%nat).
Proof.
  intros Hlen. pose proof old_length_pos as Hpos.
  induction x as [|c x IH]; intros k Hk.
  - simpl in *. assert (k = 0)%nat as -> by lia. split; [simpl; lia|].
    intros _ H. simpl in H. destruct old; [congruence|discriminate].
  - destruct k as [|k].
    + cbn [replace_from sdrop].
      destruct (String.prefix old (String c x)) eqn:Hp.
      * pose proof (prefix_length _ _ Hp) as Hl. simpl in Hl.
        destruct (IH (String.length old - 1)%nat ltac:(lia)) as [IH1 _].
        rewrite length_append. simpl. split; lia.
      * destruct (IH 0%nat ltac:(lia)) as [IH1 IH2].
        cbn [String.length]. split; [lia|].
        intros Hlt Hin. rewrite str_in_cons in Hin by exact Hp.
        specialize (IH2 Hlt Hin). lia.
    + cbn [replace_from sdrop]. simpl in Hk.
      destruct (IH k ltac:(lia)) as [IH1 IH2].
      cbn [String.length]. split; [lia|].
      intros Hlt Hin. specialize (IH2 Hlt Hin). lia.
Qed.


Lemma val_bounds (s : string) : (0 <= val s < 256 ^ Z.of_nat (String.length s))%Z.
Proof.
  induction s as [|c s IH]; [simpl; lia|].
  cbn [val String.length]. pose proof (nat_ascii_bounded c) as Hc.
  rewrite Nat2Z.inj_succ, Z.pow_succ_r by lia. nia.
Qed.

Lemma val_append (a b : string) :
  val (a +:+ b)
  = (val a * 256 ^ Z.of_nat (String.length b) + val b)%Z.
Proof.
  induction a as [|c a IH]; [simpl; lia|].
  cbn [String.append val]. rewrite IH, length_append, Nat2Z.inj_add,
    Z.pow_add_r by lia. ring.
Qed.

Lemma val_inj (a b : string) :
  String.length a = String.length b -> val a = val b -> a = b.
Proof.
  revert b. induction a as [|c a IH]; intros [|d b]; simpl; intros Hl Hv;
    try reflexivity; try discriminate.
  injection Hl as Hl. rewrite Hl in Hv.
  pose proof (val_bounds a) as Ha. pose proof (val_bounds b) as Hb.
  rewrite Hl in Ha.
  set (P := (256 ^ Z.of_nat (String.length b))%Z) in *.
  assert (Hc : Z.of_nat (nat_of_ascii c) = Z.of_nat (nat_of_ascii d)).
  { destruct (Z.lt_trichotomy (Z.of_nat (nat_of_ascii c))
                (Z.of_nat (nat_of_ascii d))) as [H|[H|H]];
      [exfalso|exact H|exfalso]; nia. }
  assert (Hab : val a = val b) by nia.
  apply Nat2Z.inj in Hc.
  f_equal; [|apply IH; assumption].
  rewrite <- (ascii_nat_embedding c), <- (ascii_nat_embedding d), Hc.
  reflexivity.
Qed.

(** One pass with [new] as long as [old]: the length is kept and the value
    moves by a multiple of [val old - val new], a positive one when [old]
    occurs. *)
Lemma replace_from_value (x : string) :
  String.length new = String.length old ->
  forall k, (k <= String.length x)%nat ->
    (String.length (replace_from k old new x) + k = String.length x)%nat
    /\ exists q : Z,
         (0 <= q)%Z
         /\ (val (sdrop k x) - val (replace_from k old new x)
             = q * (val old - val new))%Z
         /\ (str_in old (sdrop k x) = true -> (0 < q)%Z).
Proof.
  intros Hlen. pose proof old_length_pos as Hpos.
  induction x as [|c x IH]; intros k Hk.
  - simpl in Hk. assert (k = 0)%nat as -> by lia. split; [reflexivity|].
    exists 0%Z. cbn [sdrop replace_from val]. repeat split; try lia.
    intros H. simpl in H. destruct old; [congruence|discriminate].
  - destruct k as [|k].
    + cbn [replace_from sdrop].
      destruct (String.prefix old (String c x)) eqn:Hp.
      * pose proof (prefix_length _ _ Hp) as Hl. cbn [String.length] in Hl.
        destruct (IH (String.length old - 1)%nat ltac:(lia))
          as (IH1 & q & Hq0 & Hq & _).
        rewrite length_append. cbn [String.length]. split; [lia|].
        pose proof (prefix_split _ _ Hp) as Hx.
        assert (Hd : sdrop (String.length old) (String c x)
                     = sdrop (String.length old - 1) x).
        { destruct (String.length old) as [|n]; [lia|].
          cbn [sdrop]. f_equal. lia. }
        rewrite Hd in Hx.
        set (rest := sdrop (String.length old - 1) x) in *.
        set (R := replace_from (String.length old - 1) old new x) in *.
        assert (HlR : String.length R = String.length rest).
        { unfold rest. rewrite sdrop_length. lia. }
        exists (256 ^ Z.of_nat (String.length rest) + q)%Z.
        rewrite Hx at 1. rewrite !val_append, HlR.
        assert (0 < 256 ^ Z.of_nat (String.length rest))%Z
          by (apply Z.pow_pos_nonneg; lia).
        repeat split; [lia|lia|lia].
      * destruct (IH 0%nat ltac:(lia)) as (IH1 & q & Hq0 & Hq & Hqp).
        cbn [String.length]. split; [lia|].
        exists q. cbn [sdrop] in Hq, Hqp. cbn [val].
        replace (String.length (replace_from 0 old new x))
          with (String.length x) by lia.
        repeat split; [lia|lia|].
        intros Hin. rewrite str_in_cons in Hin by exact Hp. auto.
    + cbn [replace_from sdrop]. cbn [String.length] in Hk.
      destruct (IH k ltac:(lia)) as (IH1 & q & Hq0 & Hq & Hqp).
      cbn [String.length]. split; [lia|]. exists q. auto.
Qed.

End replace_facts.

(** [replace] on an [old] that is not empty is one pass from the left. *)
Lemma replace_nonempty (x old new : string) :
  old <> "" -> replace x old new = replace_from 0 old new x.
Proof. destruct old; [congruence|reflexivity]. Qed.

(** The loop ends as soon as a measure goes down with every pass. *)
Lemma replace_all_by_measure (mu : string -> nat) (old new : string) :
  (forall x, str_in old x = true -> (mu (replace x old new) < mu x)%nat) ->
  forall n x, (mu x <= n)%nat ->
    exists r, _replace_all n x old new = Some r /\ str_in old r = false.
Proof.
  intros Hdec. induction n as [|n IH]; intros x Hx.
  - cbn [_replace_all]. destruct (str_in old x) eqn:Hin.
    + specialize (Hdec x Hin). lia.
    + eauto.
  - cbn [_replace_all]. destruct (str_in old x) eqn:Hin.
    + apply IH. specialize (Hdec x Hin). lia.
    + eauto.
Qed.

(** More fuel does not change a result. *)
Lemma replace_all_more_fuel (old new : string) (n m : nat) (x r : string) :
  _replace_all n x old new = Some r -> (n <= m)%nat ->
  _replace_all m x old new = Some r.
Proof.
  revert m x. induction n as [|n IH]; intros m x H Hm.
  - cbn [_replace_all] in H. destruct (str_in old x) eqn:Hin; [discriminate|].
    destruct m; cbn [_replace_all]; rewrite Hin; exact H.
  - destruct m as [|m]; [lia|]. cbn [_replace_all] in *.
    destruct (str_in old x); [|exact H]. apply IH; [exact H|lia].
Qed.
(** The loop ends when every pass shortens the string, or keeps its length
    and moves its value one way. *)
Lemma replace_all_ends (x old new : string) :
  old <> "" ->
  str_in old new = false ->
  (String.length new <= String.length old)%nat ->
  exists fuel r,
    _replace_all fuel x old new = Some r
    /\ str_in old r = false
    /\ forall fuel', (fuel <= fuel')%nat ->
         _replace_all fuel' x old new = Some r.
Proof.
  intros Hne Hnot Hlen.
  assert (Hmeasure : exists mu : string -> nat,
             forall y, str_in old y = true ->
                       (mu (replace y old new) < mu y)%nat).
  { destruct (Nat.eq_dec (String.length new) (String.length old)) as [Heq|Hlt].
    - assert (Hv : val new <> val old).
      { intros Hv. apply val_inj in Hv; [|exact Heq]. subst new.
        rewrite str_in_refl in Hnot. discriminate. }
      assert (Hstep : forall y, str_in old y = true ->
                 String.length (replace y old new) = String.length y
                 /\ exists q, (0 < q)%Z
                      /\ (val y - val (replace y old new)
                          = q * (val old - val new))%Z).
      { intros y Hy. rewrite replace_nonempty by exact Hne.
        destruct (replace_from_value old new Hne y Heq 0%nat ltac:(lia))
          as (Hl & q & _ & Hq & Hpos).
        cbn [sdrop] in Hq, Hpos. split; [lia|]. exists q. auto. }
      destruct (Z.lt_trichotomy (val new) (val old)) as [Hlt|[Heq'|Hgt]];
        [|congruence|].
      + exists (fun y => Z.to_nat (val y)). intros y Hy.
        destruct (Hstep y Hy) as (_ & q & Hq0 & Hq).
        pose proof (val_bounds y). pose proof (val_bounds (replace y old new)).
        nia.
      + exists (fun y => Z.to_nat (256 ^ Z.of_nat (String.length y) - val y)).
        intros y Hy. destruct (Hstep y Hy) as (Hl & q & Hq0 & Hq).
        rewrite Hl.
        pose proof (val_bounds y). pose proof (val_bounds (replace y old new))
          as Hb. rewrite Hl in Hb. nia.
    - exists String.length. intros y Hy. rewrite replace_nonempty by exact Hne.
      destruct (replace_from_length old new Hne y Hlen 0%nat ltac:(lia))
        as [_ Hstrict].
      cbn [sdrop] in Hstrict. specialize (Hstrict ltac:(lia) Hy). lia. }
  destruct Hmeasure as [mu Hmu].
  destruct (replace_all_by_measure mu old new Hmu (mu x) x ltac:(lia))
    as (r & Hr & Hin).
  exists (mu x), r. repeat split; [exact Hr|exact Hin|].
  intros fuel' Hf. eapply replace_all_more_fuel; eassumption.
Qed.

(** C10, amended: when [old] is not empty, [new] does not contain [old] and
    [new] is not longer than [old] -- as in the only caller, which turns two
    spaces into one -- [_replace_all(x, old, new)] terminates for every
    string [x], and its result has no occurrence of [old]. *)
Theorem replace_all_terminates (x old new : string) :
  old <> "" ->
  str_in old new = false ->
  (String.length new <= String.length old)%nat ->
  exists fuel r,
    _replace_all fuel x old new = Some r
    /\ str_in old r = false
    /\ forall fuel', (fuel <= fuel')%nat ->
         _replace_all fuel' x old new = Some r.
Proof. apply replace_all_ends. Qed.

Lemma replace_all_terminates_witness :
  exists fuel r,
    _replace_all fuel "a    b  c" "  " " " = Some r
    /\ str_in "  " r = false
    /\ forall fuel', (fuel <= fuel')%nat ->
         _replace_all fuel' "a    b  c" "  " " " = Some r.
Proof.
  apply (replace_all_terminates "a    b  c" "  " " ").
  - discriminate.
  - reflexivity.
  - simpl. lia.
Defined.

(** [split] never gives an empty list. *)
Lemma split_not_nil (s : string) (sep : ascii) : split s sep <> [].
Proof.
  unfold split. generalize EmptyString.
  induction s as [|c s IH]; intros cur; cbn [split_go]; [discriminate|].
  destruct (Ascii.eqb c sep); [discriminate|apply IH].
Qed.

(** The caller of [_replace_all] always gets its columns, at least one. *)
Corollary listing_columns_total (p : string) :
  exists fuel cols, listing_columns fuel p = Some cols /\ cols <> [].
Proof.
  destruct (replace_all_ends p "  " " ") as (fuel & r & Hr & _);
    [discriminate|reflexivity|simpl; lia|].
  exists fuel. unfold listing_columns. rewrite Hr. cbn.
  eexists; split; [reflexivity|].
  intros H. apply fmap_nil_inv in H. exact (split_not_nil _ _ H).
Qed.

(** The strings on which the loop never ends: [b^m aab a^n] and
    [b^m abb a^n] under [ab -> bbaa]. *)
Section divergence.

Let bs (m : nat) : string := repeat_char "b" m.
Let as_ (n : nat) : string := repeat_char "a" n.

Lemma replace_from_0 old new c x :
  replace_from 0 old new (String c x)
  = if String.prefix old (String c x)
    then new +:+ replace_from (String.length old - 1) old new x
    else String c (replace_from 0 old new x).
Proof. reflexivity. Qed.

Lemma prefix_ab s : String.prefix "ab" (String "a" (String "b" s)) = true.
Proof. destruct s; reflexivity. Qed.

Lemma replace_bs m s :
  replace_from 0 "ab" "bbaa" (bs m +:+ s)
  = bs m +:+ replace_from 0 "ab" "bbaa" s.
Proof.
  induction m as [|m IH]; [reflexivity|].
  cbn [bs repeat_char String.append]. rewrite replace_from_0.
  change (String.prefix "ab" (String "b" _)) with false.
  cbv iota. f_equal. exact IH.
Qed.

Lemma replace_as n : replace_from 0 "ab" "bbaa" (as_ n) = as_ n.
Proof.
  induction n as [|n IH]; [reflexivity|].
  cbn [as_ repeat_char]. rewrite replace_from_0.
  replace (String.prefix "ab" (String "a" (repeat_char "a" n))) with false
    by (destruct n; reflexivity).
  f_equal. exact IH.
Qed.

Lemma str_in_bs m s : str_in "ab" s = true -> str_in "ab" (bs m +:+ s) = true.
Proof.
  intros H. induction m as [|m IH]; [exact H|].
  cbn [bs repeat_char String.append str_in].
  change (String.prefix "ab" (String "b" _)) with false. exact IH.
Qed.

Lemma bs_shift m s : String "b" (bs m +:+ s) = bs m +:+ String "b" s.
Proof.
  induction m as [|m IH]; [reflexivity|].
  cbn [bs repeat_char String.append]. f_equal. exact IH.
Qed.

Lemma pass_aab m n :
  replace (bs m +:+ "aab" +:+ as_ n) "ab" "bbaa"
  = bs m +:+ "abb" +:+ as_ (S (S n)).
Proof.
  unfold replace. rewrite replace_bs. f_equal.
  cbn [String.append]. rewrite replace_from_0.
  change (String.prefix "ab" (String "a" (String "a" _))) with false.
  cbv iota. rewrite replace_from_0, prefix_ab.
  cbn [String.length Nat.sub replace_from String.append].
  rewrite replace_as. reflexivity.
Qed.

Lemma pass_abb m n :
  replace (bs m +:+ "abb" +:+ as_ n) "ab" "bbaa"
  = bs (S (S m)) +:+ "aab" +:+ as_ n.
Proof.
  unfold replace. rewrite replace_bs.
  cbn [String.append]. rewrite replace_from_0, prefix_ab.
  cbn [String.length Nat.sub replace_from String.append].
  change (String.prefix "ab" (String "b" (as_ n))) with false. cbv iota.
  fold (replace_from 0 "ab" "bbaa" (as_ n)).
  rewrite replace_as.
  cbn [bs repeat_char String.append]. rewrite <- !bs_shift. reflexivity.
Qed.

Lemma str_in_aab m n : str_in "ab" (bs m +:+ "aab" +:+ as_ n) = true.
Proof.
  apply str_in_bs. cbn [String.append str_in]. rewrite prefix_ab.
  apply orb_true_r.
Qed.

Lemma str_in_abb m n : str_in "ab" (bs m +:+ "abb" +:+ as_ n) = true.
Proof. apply str_in_bs. cbn [String.append str_in]. rewrite prefix_ab. reflexivity. Qed.

Lemma never_ends fuel :
  forall m n,
    _replace_all fuel (bs m +:+ "aab" +:+ as_ n) "ab" "bbaa" = None
    /\ _replace_all fuel (bs m +:+ "abb" +:+ as_ n) "ab" "bbaa" = None.
Proof.
  induction fuel as [|fuel IH]; intros m n.
  - cbn [_replace_all]. rewrite str_in_aab, str_in_abb. split; reflexivity.
  - cbn [_replace_all]. rewrite str_in_aab, str_in_abb, pass_aab, pass_abb.
    split; apply IH.
Qed.

End divergence.

(** C10, as the specification words it, fails: [old = 'ab'] is not empty and
    [new = 'bbaa'] does not contain it, yet the loop on ['aab'] never ends:
    each pass leaves an occurrence of [old] in a longer string. *)
Lemma replace_all_may_diverge :
  "ab" <> ""
  /\ str_in "ab" "bbaa" = false
  /\ forall fuel, _replace_all fuel "aab" "ab" "bbaa" = None.
Proof.
  split; [discriminate|]. split; [reflexivity|].
  intros fuel. exact (proj1 (never_ends fuel 0 0)).
Qed.
(** ** _get_expression_and_converters *)

Section for_each_facts.

Context {A S : Type} (body : A -> S -> res S).

Lemma for_each_app (l1 l2 : list A) (s : S) :
  for_each body (l1 ++ l2) s
  = (do s' <- for_each body l1 s; for_each body l2 s').
Proof.
  revert s. induction l1 as [|a l1 IH]; intros s; [reflexivity|].
  cbn [app for_each]. destruct (body a s) as [s'|e]; cbn [bind];
    [apply IH|reflexivity].
Qed.

(** An invariant that every iteration keeps holds at the end. *)
Lemma for_each_invariant (P : S -> Prop) (l : list A) (s s' : S) :
  (forall a t t', a ∈ l -> P t -> body a t = Ok t' -> P t') ->
  P s -> for_each body l s = Ok s' -> P s'.
Proof.
  revert s. induction l as [|a l IH]; intros s Hbody Hs H.
  - cbn in H. injection H as <-. exact Hs.
  - cbn [for_each] in H. destruct (body a s) as [t|e] eqn:Ha; [|discriminate].
    cbn [bind] in H. apply (IH t); [|eapply Hbody; eauto; left|exact H].
    intros b u u' Hb. apply Hbody. right. exact Hb.
Qed.

End for_each_facts.

(** A row with a target leaves the converters of the other targets. *)
Lemma compile_row_other (m : mapping) (t : string) acc acc' :
  compile_row m acc = Ok acc' -> Target_Field m <> CStr t ->
  acc'.2 !! t = acc.2 !! t.
Proof.
  unfold compile_row. intros H Ht.
  destruct (row_expression m); [|discriminate].
  destruct (row_converter m); [|discriminate]. cbn [bind] in H.
  destruct (Target_Field m) as [| |u| |]; try discriminate.
  injection H as <-. cbn. apply lookup_insert_ne. congruence.
Qed.

Lemma compile_rows_other (ms : list mapping) (t : string) acc acc' :
  for_each compile_row ms acc = Ok acc' ->
  (forall m, m ∈ ms -> Target_Field m <> CStr t) ->
  acc'.2 !! t = acc.2 !! t.
Proof.
  intros H Hms.
  apply (for_each_invariant compile_row
           (fun a => a.2 !! t = acc.2 !! t) ms acc acc'); [|reflexivity|exact H].
  intros m a a' Hm Ha Hstep. rewrite <- Ha.
  eapply compile_row_other; eauto.
Qed.

(** C3, as the specification words it, fails: the converter stored for a
    row without a converter is [lambda x: None]; on the text ['1.5'] it
    gives [None], not the text. *)
Lemma missing_converter_is_not_identity :
  let m := {| Kind := CStr "IF_POSITION"; Sub_Kind := CStr "DIARIO_FI";
              Header := CNaN; Hash := CStr "h"; Order := CInt 1;
              Target_Field := CStr "VL_QUOTA";
              Source_Field := CStr "VL_QUOTA";
              Transformation1 := CNaN; Transformation2 := CNaN;
              Transformation3 := CNaN; Converter := CNaN;
              Is_New := CBool false |} in
  is_nan_or_empty (Converter m) = true
  /\ exists exprs convs c,
       _get_expression_and_converters [m] = Ok (exprs, convs)
       /\ convs !! "VL_QUOTA" = Some c
       /\ apply_converter c (CStr "1.5") = Ok VNone
       /\ apply_converter c (CStr "1.5") <> Ok (pyval_of_cell (CStr "1.5")).
Proof.
  cbv zeta. split; [reflexivity|].
  eexists _, _, conv_lambda_None. split; [reflexivity|].
  split; [apply lookup_insert_eq|]. split; [reflexivity|discriminate].
Qed.

(** C3, amended: for every mapping row whose Converter is empty or NaN, the
    converter [_get_expression_and_converters] stores for the row's
    Target_Field (when no later row has the same Target_Field) is the
    constant [None]: applied to any value it gives [None], whatever the
    value. *)
Theorem missing_converter_gives_None
    (pre post : list mapping) (m : mapping)
    (exprs : list string) (convs : gmap string converter) :
  _get_expression_and_converters (pre ++ m :: post) = Ok (exprs, convs) ->
  is_nan_or_empty (Converter m) = true ->
  exists t,
    Target_Field m = CStr t
    /\ ((forall m', m' ∈ post -> Target_Field m' <> CStr t) ->
        exists c, convs !! t = Some c
                  /\ forall v, apply_converter c v = Ok VNone).
Proof.
  unfold _get_expression_and_converters. intros H Hempty.
  rewrite for_each_app in H.
  destruct (for_each compile_row pre ([], ∅)) as [acc|e]; [|discriminate].
  cbn [bind for_each] in H.
  destruct (compile_row m acc) as [acc'|e] eqn:Hm; [|discriminate].
  cbn [bind] in H. unfold compile_row, row_converter in Hm.
  rewrite Hempty in Hm.
  destruct (row_expression m); [|discriminate]. cbn [bind] in Hm.
  destruct (Target_Field m) as [| |t| |]; try discriminate.
  injection Hm as <-. exists t. split; [reflexivity|]. intros Hpost.
  exists conv_lambda_None. split; [|reflexivity].
  pose proof (compile_rows_other post t _ _ H Hpost) as Hl.
  cbn in Hl. rewrite Hl. apply lookup_insert_eq.
Qed.

Lemma missing_converter_gives_None_witness :
  let m := {| Kind := CStr "IF_POSITION"; Sub_Kind := CStr "DIARIO_FI";
              Header := CNaN; Hash := CStr "h"; Order := CInt 1;
              Target_Field := CStr "VL_QUOTA";
              Source_Field := CStr "VL_QUOTA";
              Transformation1 := CNaN; Transformation2 := CNaN;
              Transformation3 := CNaN; Converter := CNaN;
              Is_New := CBool false |} in
  exists t,
    Target_Field m = CStr t
    /\ ((forall m', m' ∈ @nil mapping -> Target_Field m' <> CStr t) ->
        exists c, <[ "VL_QUOTA" := conv_lambda_None ]> (∅ : gmap string converter) !! t = Some c
                  /\ forall v, apply_converter c v = Ok VNone).
Proof.
  cbv zeta.
  eapply (missing_converter_gives_None [] []); reflexivity.
Defined.

(** ** _update_cvm_history_file *)

Section download_facts.

Variable urlopen : string -> res string.
Variable magic_from_buffer : string -> string.
Variable zip_members : string -> res (list (string * string)).
Variable now : nat -> string.
Variable writable : string -> bool.

Local Abbreviation update_file :=
  (_update_cvm_history_file urlopen magic_from_buffer zip_members now writable).

(** Writing a file neither fetches nor reads the clock. *)
Lemma write_target_file_world data md folder idx file w r w' :
  _write_target_file writable data md folder idx file w = (r, w') ->
  fetched w' = fetched w /\ ticks w' = ticks w.
Proof.
  unfold _write_target_file. intros H.
  destruct (_build_target_file_name md folder idx file) as [p|e].
  - destruct (writable p); injection H as <- <-; split; reflexivity.
  - injection H as <- <-. split; reflexivity.
Qed.

(** The members of an archive only add SUCCESS entries. *)
Lemma write_members_result dt url members :
  forall k md acc w md' r w',
    write_members writable dt url k members md acc w = (Ok (md', r), w') ->
    fetched w' = fetched w
    /\ exists r', r = acc ++ r' /\ Forall (fun x => x.1 = SUCCESS) r'.
Proof.
  induction members as [|[v data] members IH]; intros k md acc w md' r w' H.
  - cbn in H. injection H as <- <- <-. split; [reflexivity|].
    exists []. rewrite app_nil_r. split; [reflexivity|constructor].
  - cbn [write_members] in H.
    destruct (_write_target_file writable data md (history_folder md)
                (Some k) (Some v) w) as [[p|e] w1] eqn:Hw; [|discriminate].
    apply write_target_file_world in Hw as [Hf _].
    apply IH in H as (Hf' & r' & -> & Hall). split; [congruence|].
    exists ((SUCCESS, p +:+ " written from " +:+ str url) :: r').
    rewrite <- app_assoc. split; [reflexivity|]. constructor; [reflexivity|exact Hall].
Qed.

Lemma write_members_fetched dt url members :
  forall k md acc w out w',
    write_members writable dt url k members md acc w = (out, w') ->
    fetched w' = fetched w.
Proof.
  induction members as [|[v data] members IH]; intros k md acc w out w' H.
  - cbn in H. injection H as <- <-. reflexivity.
  - cbn [write_members] in H.
    destruct (_write_target_file writable data md (history_folder md)
                (Some k) (Some v) w) as [[p|e] w1] eqn:Hw.
    + apply write_target_file_world in Hw as [Hf _].
      apply IH in H. congruence.
    + apply write_target_file_world in Hw as [Hf _].
      injection H as <- <-. exact Hf.
Qed.

(** An entry that is not up to date: the URL is opened, and nothing else. *)
Lemma download_attempted (m : if_metadata) (w : world) :
  needs_download m = Ok true ->
  fetched (update_file m w).2 = fetched w ++ [c_url (row m)]
  /\ forall md r, (update_file m w).1 = Ok (md, r) ->
       Forall (fun x => x.1 = SUCCESS \/ x.1 = ERROR) r.
Proof.
  intros Hn. unfold _update_cvm_history_file. rewrite Hn.
  set (w1 := log_fetch (c_url (row m)) w).
  destruct (match c_url (row m) with CStr u => urlopen u | _ => Raise TypeError end)
    as [data|e]; [|split; [reflexivity|discriminate]].
  destruct (any_in zip_mime_types _).
  - destruct (zip_members data) as [members|e];
      [|split; [reflexivity|discriminate]].
    destruct (write_members _ _ _ _ _ _ _ _) as [out w'] eqn:Hw. cbn [fst snd].
    split; [apply write_members_fetched in Hw; exact Hw|].
    intros md r ->. apply write_members_result in Hw as (_ & r' & -> & Hall).
    cbn [app]. eapply Forall_impl; [exact Hall|]. cbn. tauto.
  - destruct (any_in text_mime_types _).
    + destruct (_write_target_file _ _ _ _ _ _ _) as [[p|e] w'] eqn:Hw;
        cbn [fst snd]; apply write_target_file_world in Hw as [Hf _].
      * split; [exact Hf|]. intros md r H. injection H as <- <-.
        constructor; [left; reflexivity|constructor].
      * split; [exact Hf|discriminate].
    + cbn [fst snd]. split; [reflexivity|]. intros md r H.
      injection H as <- <-. constructor; [right; reflexivity|constructor].
Qed.


End download_facts.

(** ** The reconciliation query *)

Section reconcile_facts.

Lemma in_full_outer_join (j : joined) (C : list journal_row)
    (R : list remote_row) :
  In j (full_outer_join C R) <->
  (exists c r, In c C /\ In r R /\ join_match c r = true
               /\ j = (Some c, Some r))
  \/ (exists c, In c C /\ (forall r, In r R -> join_match c r = false)
                /\ j = (Some c, None))
  \/ (exists r, In r R /\ (forall c, In c C -> join_match c r = false)
                /\ j = (None, Some r)).
Proof.
  unfold full_outer_join. rewrite !in_app_iff, in_flat_map, !in_map_iff.
  split.
  - intros [(c & Hc & Hj)|[(c & <- & Hc)|(r & <- & Hr)]].
    + apply in_map_iff in Hj as (r & <- & Hr).
      apply filter_In in Hr as [Hr Hm]. left. eauto 10.
    + apply filter_In in Hc as [Hc Hall]. right; left. exists c.
      split; [exact Hc|]. split; [|reflexivity]. intros r Hr.
      rewrite forallb_forall in Hall. specialize (Hall r Hr).
      destruct (join_match c r); [discriminate|reflexivity].
    + apply filter_In in Hr as [Hr Hall]. right; right. exists r.
      split; [exact Hr|]. split; [|reflexivity]. intros c Hc.
      rewrite forallb_forall in Hall. specialize (Hall c Hc).
      destruct (join_match c r); [discriminate|reflexivity].
  - intros [(c & r & Hc & Hr & Hm & ->)|[(c & Hc & Hall & ->)|(r & Hr & Hall & ->)]].
    + left. exists c. split; [exact Hc|]. apply in_map_iff. exists r.
      split; [reflexivity|]. apply filter_In. auto.
    + right; left. exists c. split; [reflexivity|]. apply filter_In.
      split; [exact Hc|]. apply forallb_forall. intros r Hr.
      rewrite (Hall r Hr). reflexivity.
    + right; right. exists r. split; [reflexivity|]. apply filter_In.
      split; [exact Hr|]. apply forallb_forall. intros c Hc.
      rewrite (Hall c Hc). reflexivity.
Qed.

(** The rows of the result are the rows of the three branches. *)
Lemma in_reconcile (row : journal_row) (R : list remote_row)
    (J : list journal_row) :
  row ∈ reconcile R J <->
  exists j, In j (full_outer_join (map journal_to_sql J) (map with_file_url R))
    /\ ((is_null (c_ c_sequence j) = true /\ row = select_new j)
        \/ (is_null (r_ sequence_of j) = true /\ row = select_gone j)
        \/ (is_null (r_ sequence_of j) = false /\ row = select_present j)).
Proof.
  unfold reconcile. rewrite elem_of_remove_dups, list_elem_of_In.
  rewrite !in_app_iff, !in_map_iff. split.
  - intros [(j & <- & Hj)|[(j & <- & Hj)|(j & <- & Hj)]];
      apply filter_In in Hj as [Hj Hw]; exists j; (split; [exact Hj|]).
    + left. auto.
    + right; left. auto.
    + right; right. split; [|reflexivity].
      destruct (is_null (r_ sequence_of j)); [discriminate|reflexivity].
  - intros (j & Hj & [[Hw ->]|[[Hw ->]|[Hw ->]]]).
    + left. exists j. split; [reflexivity|]. apply filter_In. auto.
    + right; left. exists j. split; [reflexivity|]. apply filter_In. auto.
    + right; right. exists j. split; [reflexivity|]. apply filter_In.
      rewrite Hw. auto.
Qed.

Lemma sql_eq_eq (a b : cell) : sql_eq a b = true -> a = b /\ a <> CNone.
Proof.
  unfold sql_eq. intros H. apply andb_true_iff in H as [H Hd].
  apply andb_true_iff in H as [Ha _]. apply bool_decide_eq_true in Hd.
  split; [exact Hd|]. destruct a; [discriminate|..]; discriminate.
Qed.

Lemma join_match_key (c : journal_row) (r : remote_row) :
  join_match c r = true -> key_of_row c = key_of_remote r.
Proof.
  unfold join_match, key_of_row, key_of_remote. intros H.
  apply andb_true_iff in H as [H H3]. apply andb_true_iff in H as [H1 H2].
  apply sql_eq_eq in H1 as [-> _], H2 as [-> _], H3 as [-> _]. reflexivity.
Qed.

Lemma key_join_match (c : journal_row) (r : remote_row) :
  key_of_row c = key_of_remote r -> r_href r <> None -> join_match c r = true.
Proof.
  unfold join_match, key_of_row, key_of_remote. intros H Hh.
  injection H as -> -> ->. unfold sql_eq, href_of, name_of, kind_of.
  destruct (r_href r); [|congruence]. cbn.
  rewrite !bool_decide_eq_true_2 by reflexivity. reflexivity.
Qed.

End reconcile_facts.

(** A file that the journal does not know is listed twice: by the first
    branch as a new entry, and by the third, whose [where] clause does not
    ask for a journal row, with a NULL [active]. *)
Lemma new_entry_in_two_branches (R : list remote_row) (J : list journal_row)
    (r : remote_row) :
  r ∈ R ->
  (forall c, c ∈ J -> join_match (journal_to_sql c) (with_file_url r) = false) ->
  let j : joined := (None, Some (with_file_url r)) in
  select_new j ∈ reconcile R J
  /\ select_present j ∈ reconcile R J
  /\ select_new j <> select_present j
  /\ key_of_row (select_new j) = key_of_row (select_present j).
Proof.
  intros Hr Hnew j.
  assert (Hj : In j (full_outer_join (map journal_to_sql J)
                       (map with_file_url R))).
  { apply in_full_outer_join. right; right. exists (with_file_url r).
    split; [apply in_map, list_elem_of_In, Hr|]. split; [|reflexivity].
    intros c Hc. apply in_map_iff in Hc as (c0 & <- & Hc0).
    apply Hnew, list_elem_of_In, Hc0. }
  repeat split.
  - apply in_reconcile. exists j. split; [exact Hj|]. left. auto.
  - apply in_reconcile. exists j. split; [exact Hj|]. right; right. auto.
  - intros H. apply (f_equal c_active) in H. discriminate H.
Qed.

(** C1 on the first run: the journal is empty, the listing has one file,
    and the reconciled journal holds its key twice. *)
Theorem first_run_lists_the_file_twice :
  length (List.filter
            (fun row => bool_decide (key_of_row row
                                     = key_of_remote (with_file_url sample.cad_fi)))
            (reconcile [sample.cad_fi] [])) = 2%nat.
Proof. vm_compute. reflexivity. Qed.

(** C5: for an entry that is both in the remote listing and in the journal
    the reconciled row takes sequence, last_modified, size and url from the
    remote record, keeps last_download, last_updated and active of the local
    record, and has process = false when the remote last_modified is null,
    else true when the local last_download is null, else
    (last_modified > last_download).  When the key is held by one journal
    row with a sequence and by one remote row, this is the only row of the
    key. *)
Theorem matched_entry_reconciled (R : list remote_row) (J : list journal_row)
    (c0 : journal_row) (r0 : remote_row) :
  let c := journal_to_sql c0 in
  let r := with_file_url r0 in
  c0 ∈ J -> r0 ∈ R -> join_match c r = true ->
  exists row,
    row ∈ reconcile R J
    /\ key_of_row row = key_of_remote r
    /\ c_sequence row = CInt (r_sequence r0)
    /\ c_last_modified row = text_or_null (r_last_modified r0)
    /\ c_size row = CInt (r_size r0)
    /\ c_url row = CStr (r_url r0 +:+ "/" +:+ str (href_of r0))
    /\ c_last_download row = c_last_download c
    /\ c_last_updated row = c_last_updated c
    /\ c_active row = c_active c
    /\ c_process row
       = match r_last_modified r0 with
         | None => CInt 0
         | Some last_modified =>
             if is_null (c_last_download c) then CInt 1
             else if sql_gt (CStr last_modified) (c_last_download c)
                  then CInt 1 else CInt 0
         end
    /\ (c_sequence c <> CNone ->
        (forall c2, c2 ∈ J -> key_of_row (journal_to_sql c2) = key_of_row c ->
                    journal_to_sql c2 = c) ->
        (forall r2, r2 ∈ R ->
                    key_of_remote (with_file_url r2) = key_of_remote r ->
                    with_file_url r2 = r) ->
        forall row', row' ∈ reconcile R J ->
                     key_of_row row' = key_of_remote r -> row' = row).
Proof.
  intros c r Hc Hr Hm.
  assert (HcC : In c (map journal_to_sql J))
    by (apply in_map, list_elem_of_In, Hc).
  assert (HrR : In r (map with_file_url R))
    by (apply in_map, list_elem_of_In, Hr).
  pose proof (join_match_key _ _ Hm) as Hkey.
  assert (Hhref : href_of r <> CNone).
  { unfold join_match in Hm. apply andb_true_iff in Hm as [Hm _].
    apply andb_true_iff in Hm as [Hm _]. apply sql_eq_eq in Hm as [<- Hn].
    exact Hn. }
  exists (select_present (Some c, Some r)).
  split; [|split; [reflexivity|]].
  { apply in_reconcile. exists (Some c, Some r). split.
    - apply in_full_outer_join. left. eauto 10.
    - right; right. auto. }
  do 7 (split; [reflexivity|]).
  split.
  { cbn. unfold process_case. cbn. unfold last_modified_of. cbn.
    destruct (r_last_modified r0); reflexivity. }
  intros Hseq HuJ HuR row' Hrow' Hk'.
  apply in_reconcile in Hrow' as (j & Hj & Hbranch).
  apply in_full_outer_join in Hj
    as [(c2 & r2 & Hc2 & Hr2 & Hm2 & ->)|[(c2 & Hc2 & Hall & ->)
                                          |(r2 & Hr2 & Hall & ->)]].
  - (* a matching pair *)
    assert (r2 = r) as ->.
    { apply in_map_iff in Hr2 as (r3 & <- & Hr3).
      apply HuR; [apply list_elem_of_In, Hr3|].
      destruct Hbranch as [[_ ->]|[[Hw _]|[_ ->]]];
        [exact Hk'|discriminate Hw|exact Hk']. }
    assert (c2 = c) as ->.
    { apply in_map_iff in Hc2 as (c3 & <- & Hc3).
      apply HuJ; [apply list_elem_of_In, Hc3|].
      rewrite (join_match_key _ _ Hm2). symmetry. exact Hkey. }
    destruct Hbranch as [[Hw _]|[[Hw _]|[_ ->]]].
    + change (is_null (c_sequence c) = true) in Hw.
      destruct (c_sequence c); [congruence|discriminate Hw..].
    + discriminate Hw.
    + reflexivity.
  - (* a journal row without a match *)
    destruct Hbranch as [[_ ->]|[[_ ->]|[Hw _]]].
    + exfalso. apply Hhref. unfold key_of_row, key_of_remote in Hk'.
      cbn in Hk'. injection Hk' as Hh _ _. symmetry. exact Hh.
    + exfalso. assert (c2 = c) as ->.
      { apply in_map_iff in Hc2 as (c3 & <- & Hc3).
        apply HuJ; [apply list_elem_of_In, Hc3|].
        change (key_of_row (journal_to_sql c3) = key_of_remote r) in Hk'.
        congruence. }
      rewrite (Hall r HrR) in Hm. discriminate.
    + discriminate Hw.
  - (* a remote row without a match *)
    exfalso. assert (r2 = r) as ->.
    { apply in_map_iff in Hr2 as (r3 & <- & Hr3).
      apply HuR; [apply list_elem_of_In, Hr3|].
      destruct Hbranch as [[_ ->]|[[Hw _]|[_ ->]]];
        [exact Hk'|discriminate Hw|exact Hk']. }
    rewrite (Hall c HcC) in Hm. discriminate.
Qed.

Lemma matched_entry_reconciled_witness :
  exists row,
    row ∈ reconcile [sample.cad_fi] [sample.cad_fi_synced]
    /\ c_last_download row = CStr "2024-01-03 09:30:00"
    /\ c_last_modified row = CStr "2024-01-02 00:00:00"
    /\ c_process row = CInt 0.
Proof.
  destruct (matched_entry_reconciled [sample.cad_fi] [sample.cad_fi_synced]
              sample.cad_fi_synced sample.cad_fi)
    as (row & Hin & _ & _ & Hlm & _ & _ & Hld & _ & _ & Hp & _).
  - apply list_elem_of_here.
  - apply list_elem_of_here.
  - reflexivity.
  - exists row. repeat split; assumption.
Defined.

(** The scenario of the specification: the remote file is newer than the
    last download, so the entry is to be processed. *)
Example newer_remote_file_is_processed :
  let c := set_last_download (CStr "2024-01-01 00:00:00") sample.cad_fi_synced in
  c_process <$> reconcile [sample.cad_fi] [c] = [CInt 1].
Proof. vm_compute. reflexivity. Qed.

(** ** The update of the journal after the downloads *)

Section update_facts.

Variable urlopen : string -> res string.
Variable magic_from_buffer : string -> string.
Variable zip_members : string -> res (list (string * string)).
Variable now : nat -> string.
Variable writable : string -> bool.

Local Abbreviation update_file :=
  (_update_cvm_history_file urlopen magic_from_buffer zip_members now writable).

Local Abbreviation mime_of data :=
  (default "" (head (split (magic_from_buffer data) ";"))).






(** The results of a run that did not raise, entry by entry. *)
Lemma run_downloads_results (ms : list if_metadata) :
  forall w rs w',
    run_downloads urlopen magic_from_buffer zip_members now writable ms w
    = (Ok rs, w') ->
    Forall2 (fun m r => exists w1, (update_file m w1).1 = Ok r) ms rs.
Proof.
  induction ms as [|m ms IH]; intros w rs w' H.
  - cbn in H. injection H as <- _. constructor.
  - cbn [run_downloads] in H.
    destruct (update_file m w) as [[r|e] w1] eqn:Hm; [|discriminate].
    destruct (run_downloads _ _ _ _ _ ms w1) as [[rs'|e] w2] eqn:Hms;
      [|discriminate].
    injection H as <- _. constructor; [|eapply IH; exact Hms].
    exists w. rewrite Hm. reflexivity.
Qed.






Lemma count_status_pos st name kind msg (rows : list result_row) :
  In (name, kind, st, msg) rows -> (0 < count_status st name kind rows)%nat.
Proof.
  intros H. unfold count_status.
  assert (Hf : In (name, kind, st, msg)
                 (List.filter
                    (fun x : result_row =>
                       bool_decide (x.1.1.1 = name) && bool_decide (x.1.1.2 = kind)
                       && bool_decide (x.1.2 = st)) rows)).
  { apply filter_In. split; [exact H|]. cbn.
    rewrite !bool_decide_eq_true_2 by reflexivity. reflexivity. }
  destruct (List.filter _ rows); [destruct Hf|cbn; lia].
Qed.



End update_facts.


(** With a journal whose last_download column holds texts or NULL, every
    entry the run schedules is downloaded. *)
Lemma scheduled_entry_is_downloaded (HISTORY_FOLDER : string)
    (R : list remote_row) (J : list journal_row) (m : if_metadata) :
  (forall c, c ∈ J ->
     c_last_download c = CNone \/ exists t, c_last_download c = CStr t) ->
  m ∈ metadata_to_process HISTORY_FOLDER (reconcile R J) ->
  needs_download m = Ok true.
Proof.
  intros HJ Hm. unfold metadata_to_process in Hm.
  apply list_elem_of_In, in_map_iff in Hm as (c & <- & Hc).
  apply filter_In in Hc as [Hc Hp]. apply list_elem_of_In in Hc.
  unfold needs_download. cbn [row].
  apply in_reconcile in Hc as ([oc o] & Hj & Hbranch).
  destruct Hbranch as [[_ ->]|[[_ ->]|[Hw ->]]].
  - reflexivity.
  - cbn in Hp. discriminate Hp.
  - destruct o as [r|]; [|discriminate Hw].
    cbn [select_present c_last_download c_last_modified c_process] in *.
    unfold process_case in Hp. cbn [r_ c_ from_option fst snd] in *.
    destruct oc as [c|]; [|reflexivity]. cbn [from_option] in *.
    assert (Hld : c_last_download c = CNone
                  \/ exists t, c_last_download c = CStr t).
    { apply in_full_outer_join in Hj
        as [(c2 & r2 & Hc2 & _ & _ & Heq)|[(c2 & _ & _ & Heq)
                                            |(r2 & _ & _ & Heq)]];
        [|discriminate Heq..].
      injection Heq as -> _. apply in_map_iff in Hc2 as (c0 & <- & Hc0).
      destruct (HJ c0 ltac:(apply list_elem_of_In; exact Hc0))
        as [H0|[t H0]]; cbn [journal_to_sql c_last_download]; rewrite H0;
        cbn; eauto. }
    destruct Hld as [Hld|[t Hld]]; rewrite Hld in Hp |- *; [reflexivity|].
    destruct (is_nan_or_empty (CStr t)); [reflexivity|].
    unfold last_modified_of in *.
    destruct (r_last_modified r) as [s|]; cbn in Hp |- *;
      [|discriminate Hp].
    destruct (str_gt s t); [reflexivity|discriminate Hp].
Qed.
(** ** Header fingerprints and the mapping registry *)

Section registry_facts.

Variable hash_string : string -> string.
Variable read_text : string -> res string.

Local Abbreviation file_metadata := (_get_cvm_file_metadata hash_string read_text).
Local Abbreviation updated_headers :=
  (_get_cvm_updated_headers hash_string read_text).

Lemma extends_refl Q s : extends Q s s.
Proof. exists []. rewrite app_nil_r. split; [reflexivity|constructor]. Qed.

Lemma extends_trans Q s0 s1 s2 :
  extends Q s0 s1 -> extends Q s1 s2 -> extends Q s0 s2.
Proof.
  intros (n1 & -> & H1) (n2 & -> & H2). exists (n1 ++ n2).
  rewrite app_assoc. split; [reflexivity|]. apply Forall_app. auto.
Qed.

Lemma for_each_extends {A} (Q : mapping -> Prop)
    (body : A -> list mapping -> res (list mapping)) (l : list A) :
  (forall a s s', a ∈ l -> body a s = Ok s' -> extends Q s s') ->
  forall s s', for_each body l s = Ok s' -> extends Q s s'.
Proof.
  intros Hbody s s' H.
  apply (for_each_invariant body (extends Q s) l s s'); [|apply extends_refl|exact H].
  intros a t t' Ha Ht Hstep. eapply extends_trans; [exact Ht|]. eauto.
Qed.

Lemma orphan_rows_generated kind sub_kind header header_hash sf mf fields :
  forall o, Forall (generated header_hash)
              (orphan_rows kind sub_kind header header_hash sf mf o fields).
Proof.
  induction fields as [|f fields IH]; intros o; cbn [orphan_rows];
    [constructor|].
  destruct (negb (str_in_cells f sf) && negb (str_in_cells f mf)); [|apply IH].
  constructor; [split; reflexivity|apply IH].
Qed.

Lemma template_step_extends kind sub_kind header header_hash hm fields m s s' :
  template_step kind sub_kind header header_hash hm fields m s = Ok s' ->
  extends (generated header_hash) s s'.
Proof.
  unfold template_step. intros H.
  destruct (bool_decide (sub_kind ∈ ["CAD_FI"; "DIARIO_FI"])).
  - destruct (max_order_of hm) as [o|e]; [|discriminate]. cbn [bind] in H.
    injection H as <-. eexists. rewrite <- app_assoc. split; [reflexivity|].
    constructor; [split; reflexivity|apply orphan_rows_generated].
  - injection H as <-. eexists. split; [reflexivity|].
    constructor; [split; reflexivity|constructor].
Qed.

Lemma header_step_extends existing hm sh s s' :
  header_step existing hm sh s = Ok s' -> extends (fresh existing) s s'.
Proof.
  destruct sh as [[[kind sub_kind] header] header_hash]. unfold header_step.
  destruct (str_in_cells header_hash existing) eqn:Hex; cbn [negb].
  - intros H. injection H as <-. apply extends_refl.
  - intros H. unfold str_in_cells in Hex. apply bool_decide_eq_false in Hex.
    assert (Hext : extends (generated header_hash) s s').
    { eapply for_each_extends; [|exact H].
      intros m t t' _ Hstep. eapply template_step_extends. exact Hstep. }
    destruct Hext as (new & -> & Hnew). exists new. split; [reflexivity|].
    eapply Forall_impl; [exact Hnew|]. intros x [Hh Hn].
    unfold fresh. rewrite Hh. split; [exact Hex|exact Hn].
Qed.

Lemma group_step_extends sheet existing shs g s s' :
  group_step sheet existing shs g s = Ok s' -> extends (fresh existing) s s'.
Proof.
  unfold group_step. destruct (header_mappings sheet g.1) as [hm|e];
    [|discriminate]. cbn [bind]. apply for_each_extends.
  intros sh t t' _. apply header_step_extends.
Qed.

(** The persisted rows open the returned list; what follows are rows of
    hashes the persisted file does not have. *)
Lemma updated_headers_extends sheet HEADERS cvm_files result :
  updated_headers sheet HEADERS cvm_files = Ok result ->
  extends (fresh (map Hash HEADERS)) HEADERS result.
Proof.
  unfold _get_cvm_updated_headers, as_ValueError. intros H.
  destruct (for_each _ cvm_files []) as [metadata|e]; [|discriminate].
  cbn [bind] in H.
  destruct ((length cvm_files =? 0)%nat && _); [discriminate|].
  destruct (for_each _ _ HEADERS) as [r|e] eqn:Hloop; [|discriminate].
  injection H as <-.
  assert (Hext : extends (fresh (remove_dups (map Hash HEADERS))) HEADERS r).
  { eapply for_each_extends; [|exact Hloop].
    intros g t t' _. apply group_step_extends. }
  destruct Hext as (new & -> & Hnew). exists new. split; [reflexivity|].
  eapply Forall_impl; [exact Hnew|]. intros x [Hh Hn]. split; [|exact Hn].
  intros Hin. apply Hh. apply elem_of_remove_dups. exact Hin.
Qed.

(** C8: the hash is a function of (kind, sub_kind, header line): two files
    with the same header line, kind and sub-kind get the same hash; and for
    a hash that the persisted headers file already has, the rows returned
    by [_get_cvm_updated_headers] are the persisted ones, unchanged: new
    rows are only generated for hashes not yet present. *)
Theorem fingerprint_is_stable :
  (forall file1 file2 kind sub_kind line hash1 hash2,
      file_metadata file1 = Ok (kind, sub_kind, line, hash1) ->
      file_metadata file2 = Ok (kind, sub_kind, line, hash2) ->
      hash1 = hash2 /\ hash1 = hash_string (join ";" [kind; sub_kind; line]))
  /\ (forall sheet HEADERS cvm_files result,
        updated_headers sheet HEADERS cvm_files = Ok result ->
        (exists new,
            result = HEADERS ++ new
            /\ Forall (fun x => Hash x ∉ map Hash HEADERS) new)
        /\ forall h, h ∈ map Hash HEADERS ->
             List.filter (fun x => bool_decide (Hash x = h)) result
             = List.filter (fun x => bool_decide (Hash x = h)) HEADERS).
Proof.
  split.
  - intros file1 file2 kind sub_kind line hash1 hash2 H1 H2.
    assert (Hhash : forall file h,
               file_metadata file = Ok (kind, sub_kind, line, h) ->
               h = hash_string (join ";" [kind; sub_kind; line])).
    { intros file h H. unfold _get_cvm_file_metadata in H.
      destruct (read_text file); [|discriminate]. cbn [bind] in H.
      destruct (index _ 0) as [k|]; [|discriminate]. cbn [bind] in H.
      destruct (index _ (-2)) as [mf|]; [|discriminate]. cbn [bind] in H.
      destruct (index (split _ _) 0) as [l|]; [|discriminate]. cbn [bind] in H.
      injection H as <- <- <- <-. reflexivity. }
    rewrite (Hhash _ _ H1), (Hhash _ _ H2). split; reflexivity.
  - intros sheet HEADERS cvm_files result H.
    destruct (updated_headers_extends _ _ _ _ H) as (new & -> & Hnew).
    split.
    + exists new. split; [reflexivity|].
      eapply Forall_impl; [exact Hnew|]. intros x [Hx _]. exact Hx.
    + intros h Hh. rewrite List.filter_app.
      replace (List.filter (fun x => bool_decide (Hash x = h)) new) with (@nil mapping);
        [apply app_nil_r|].
      symmetry. clear H. induction new as [|x new IH]; [reflexivity|].
      apply Forall_cons in Hnew as [[Hx _] Hnew]. cbn [List.filter].
      rewrite bool_decide_eq_false_2; [apply IH, Hnew|].
      intros Heq. apply Hx. rewrite Heq. exact Hh.
Qed.

End registry_facts.

Lemma fingerprint_is_stable_witness :
  exists result new,
    _get_cvm_updated_headers sample.hash_string sample.read_text sample.sheet
      sample.HEADERS [sample.cad_fi_file] = Ok result
    /\ result = sample.HEADERS ++ new
    /\ List.filter (fun x => bool_decide (Hash x = CStr "0f3a")) result
       = sample.HEADERS.
Proof.
  assert (Hr : exists result,
             _get_cvm_updated_headers sample.hash_string sample.read_text
               sample.sheet sample.HEADERS [sample.cad_fi_file] = Ok result)
    by (vm_compute; eexists; reflexivity).
  destruct Hr as [result Hr].
  destruct (proj2 (fingerprint_is_stable sample.hash_string sample.read_text)
              sample.sheet sample.HEADERS [sample.cad_fi_file] result Hr)
    as [(new & Hnew & _) Hsame].
  exists result, new. split; [exact Hr|]. split; [exact Hnew|].
  rewrite (Hsame (CStr "0f3a")); [reflexivity|]. apply list_elem_of_here.
Defined.

Section orphan_facts.

Variable hash_string : string -> string.
Variable read_text : string -> res string.

Local Abbreviation file_metadata := (_get_cvm_file_metadata hash_string read_text).
Local Abbreviation updated_headers :=
  (_get_cvm_updated_headers hash_string read_text).

(** A loop reaches a goal that one of its iterations establishes, when the
    goal, once reached, is kept and an invariant holds on the way. *)
Lemma for_each_reaches {A} (body : A -> list mapping -> res (list mapping))
    (Inv goal : list mapping -> Prop) (l : list A) (a0 : A) :
  (forall a s s', a ∈ l -> body a s = Ok s' -> Inv s -> Inv s') ->
  (forall a s s', a ∈ l -> body a s = Ok s' -> goal s -> goal s') ->
  a0 ∈ l ->
  (forall s s', Inv s -> body a0 s = Ok s' -> goal s') ->
  forall s s', Inv s -> for_each body l s = Ok s' -> goal s'.
Proof.
  intros Hinv Hkeep Ha0 Hreach.
  induction l as [|a l IH]; intros s s' Hs H; [inversion Ha0|].
  cbn [for_each] in H. destruct (body a s) as [t|e] eqn:Ha; [|discriminate].
  cbn [bind] in H.
  assert (Hinv' : forall b u u', b ∈ l -> body b u = Ok u' -> Inv u -> Inv u')
    by (intros b u u' Hb; apply Hinv; right; exact Hb).
  assert (Hkeep' : forall b u u', b ∈ l -> body b u = Ok u' -> goal u -> goal u')
    by (intros b u u' Hb; apply Hkeep; right; exact Hb).
  apply elem_of_cons in Ha0 as [->|Ha0].
  - assert (Hg : goal t) by (eapply Hreach; eauto).
    clear -Hg H Hkeep'. revert t Hg H.
    induction l as [|b l IHl]; intros t Hg H.
    + cbn in H. injection H as <-. exact Hg.
    + cbn [for_each] in H. destruct (body b t) as [u|e] eqn:Hb; [|discriminate].
      cbn [bind] in H. eapply IHl; [| |exact H].
      * intros c v v' Hc. apply Hkeep'. right. exact Hc.
      * eapply Hkeep'; [left|exact Hb|exact Hg].
  - eapply (IH Hinv' Hkeep' Ha0); [|exact H].
    eapply Hinv; [left|exact Ha|exact Hs].
Qed.









(** Sorting keeps the rows. *)
Lemma in_insert_by_order t u l :
  In t (insert_by_order u l) <-> t = u \/ In t l.
Proof.
  induction l as [|v l IH]; cbn [insert_by_order].
  - cbn. intuition congruence.
  - destruct (t_Order u <? t_Order v)%Z; cbn; [intuition congruence|].
    rewrite IH. intuition congruence.
Qed.

Lemma in_order_by_Order t l : In t (order_by_Order l) <-> In t l.
Proof.
  unfold order_by_Order. induction l as [|u l IH]; cbn [fold_right];
    [reflexivity|].
  rewrite in_insert_by_order, IH. cbn. intuition congruence.
Qed.

(** The template of a kind has a row, and its rows are rows of the sheet. *)
Lemma header_mappings_rows sheet kind hm :
  header_mappings sheet kind = Ok hm ->
  (exists t, t ∈ hm)
  /\ forall t, t ∈ hm -> exists t0, t0 ∈ sheet /\ t = template_to_sql t0.
Proof.
  unfold header_mappings.
  destruct (List.filter _ (map template_to_sql sheet)) as [|t0 rows] eqn:Hf;
    [discriminate|].
  intros H. injection H as <-. split.
  - exists t0. apply list_elem_of_In.
    apply (proj2 (in_order_by_Order t0 (t0 :: rows))), in_eq.
  - intros t Ht. apply list_elem_of_In in Ht.
    apply (proj1 (in_order_by_Order t (t0 :: rows))) in Ht.
    rewrite <- Hf in Ht. apply filter_In in Ht as [Ht _].
    apply in_map_iff in Ht as (t1 & <- & Ht1). exists t1.
    split; [apply list_elem_of_In; exact Ht1|reflexivity].
Qed.


(** Every file of the list has its fingerprint among the source headers. *)
Lemma collected_metadata (cvm_files : list string) :
  forall acc mds,
    for_each (fun f acc => do md <- file_metadata f; Ok (acc ++ [md]))
      cvm_files acc = Ok mds ->
    (forall md, md ∈ acc -> md ∈ mds)
    /\ forall file, file ∈ cvm_files ->
         exists md, file_metadata file = Ok md /\ md ∈ mds.
Proof.
  induction cvm_files as [|f files IH]; intros acc mds H.
  - cbn in H. injection H as <-. split; [auto|]. intros file Hf. inversion Hf.
  - cbn [for_each] in H. destruct (file_metadata f) as [md|e] eqn:Hf;
      [|discriminate].
    cbn [bind] in H. destruct (IH _ _ H) as [Hacc Hfiles]. split.
    + intros md' Hmd'. apply Hacc, elem_of_app. left. exact Hmd'.
    + intros file Hfile. apply elem_of_cons in Hfile as [->|Hfile].
      * exists md. split; [exact Hf|]. apply Hacc, elem_of_app. right. left.
      * apply Hfiles, Hfile.
Qed.

End orphan_facts.
Section orphan_theorems.

Variable hash_string : string -> string.
Variable read_text : string -> res string.

Local Abbreviation file_metadata := (_get_cvm_file_metadata hash_string read_text).
Local Abbreviation updated_headers :=
  (_get_cvm_updated_headers hash_string read_text).




End orphan_theorems.


(** * Further properties *)

(** ** Converters *)

Section more_converter_facts.

Lemma upper_one (s : string) (c : ascii) :
  upper s = String c EmptyString ->
  exists a, s = String a EmptyString /\ upper_ascii a = c.
Proof.
  destruct s as [|a [|b s]]; cbn; intros H; try discriminate.
  injection H as <-. eauto.
Qed.

Lemma upper_ascii_S a : upper_ascii a = "S"%char <-> a = "S"%char \/ a = "s"%char.
Proof.
  split.
  - destruct a as [[] [] [] [] [] [] [] []]; vm_compute; intros H;
      try discriminate H; auto.
  - intros [->| ->]; reflexivity.
Qed.

Lemma upper_ascii_Y a : upper_ascii a = "Y"%char <-> a = "Y"%char \/ a = "y"%char.
Proof.
  split.
  - destruct a as [[] [] [] [] [] [] [] []]; vm_compute; intros H;
      try discriminate H; auto.
  - intros [->| ->]; reflexivity.
Qed.

Lemma upper_ascii_1 a : upper_ascii a = "1"%char <-> a = "1"%char.
Proof.
  split.
  - destruct a as [[] [] [] [] [] [] [] []]; vm_compute; intros H;
      try discriminate H; auto.
  - intros ->; reflexivity.
Qed.

Lemma str_of_Z_one z : str_of_Z z = "1" -> z = 1%Z.
Proof.
  unfold str_of_Z. intros H.
  apply (f_equal NilEmpty.int_of_string) in H.
  rewrite NilEmpty.isi in H. injection H as H.
  apply DecimalZ.to_int_inj. exact H.
Qed.


Lemma str_of_Z_not_letter z (c : ascii) :
  NilEmpty.int_of_string (String c EmptyString) = None ->
  str_of_Z z <> String c EmptyString.
Proof.
  unfold str_of_Z. intros Hc H.
  apply (f_equal NilEmpty.int_of_string) in H.
  rewrite NilEmpty.isi, Hc in H. discriminate.
Qed.

Lemma upper_in_flags (s : string) :
  (String.eqb (upper s) "S" || String.eqb (upper s) "Y"
   || String.eqb (upper s) "1") = true
  <-> s ∈ ["S"; "s"; "Y"; "y"; "1"].
Proof.
  rewrite !orb_true_iff, !String.eqb_eq. split.
  - intros [[H|H]|H]; apply upper_one in H as (a & -> & Ha).
    + apply upper_ascii_S in Ha as [->| ->]; set_solver.
    + apply upper_ascii_Y in Ha as [->| ->]; set_solver.
    + apply upper_ascii_1 in Ha as ->; set_solver.
  - intros H. repeat (apply elem_of_cons in H as [->|H]); auto.
    inversion H.
Qed.

(** [as_boolean] never raises, and its answer is true exactly when the text
    of the value is one of S, s, Y, y and 1. *)
Theorem as_boolean_true_iff (x : cell) :
  (exists b, as_boolean x = Ok (VBool b))
  /\ (as_boolean x = Ok (VBool true) <-> str x ∈ ["S"; "s"; "Y"; "y"; "1"]).
Proof.
  unfold as_boolean. destruct (is_nan_or_empty x) eqn:He.
  - split; [eauto|]. split; [discriminate|]. intros H. exfalso.
    destruct x as [| |s|z|[|]]; cbn in H.
    + repeat (apply elem_of_cons in H as [H|H]; [discriminate H|]). inversion H.
    + repeat (apply elem_of_cons in H as [H|H]; [discriminate H|]). inversion H.
    + apply is_nan_or_empty_str in He as ->.
      repeat (apply elem_of_cons in H as [H|H]; [discriminate H|]). inversion H.
    + apply elem_of_cons in H as [H|H];
        [exact (str_of_Z_not_letter z "S" eq_refl H)|].
      apply elem_of_cons in H as [H|H];
        [exact (str_of_Z_not_letter z "s" eq_refl H)|].
      apply elem_of_cons in H as [H|H];
        [exact (str_of_Z_not_letter z "Y" eq_refl H)|].
      apply elem_of_cons in H as [H|H];
        [exact (str_of_Z_not_letter z "y" eq_refl H)|].
      apply elem_of_cons in H as [H|H]; [|inversion H].
      apply str_of_Z_one in H as ->. discriminate He.
    + discriminate He.
    + repeat (apply elem_of_cons in H as [H|H]; [discriminate H|]). inversion H.
  - split; [eauto|]. rewrite <- upper_in_flags. split.
    + intros H. injection H as H. exact H.
    + intros ->. reflexivity.
Qed.

(** One pass over a single character with nothing to put in its place
    removes the character. *)
Lemma replace_char_by_nothing (c : ascii) (s : string) :
  replace s (String c EmptyString) "" = remove_char c s.
Proof.
  unfold replace. induction s as [|a s IH]; [reflexivity|].
  cbn [replace_from remove_char String.prefix String.length Nat.sub].
  destruct (ascii_dec c a) as [->|Hne].
  - rewrite Ascii.eqb_refl.
    replace (String.prefix "" s) with true by (destruct s; reflexivity).
    cbn [String.append]. exact IH.
  - destruct (Ascii.eqb_spec a c) as [->|_]; [congruence|].
    f_equal. exact IH.
Qed.

Lemma has_char_remove_same c s : has_char c (remove_char c s) = false.
Proof.
  induction s as [|a s IH]; [reflexivity|]. cbn [remove_char].
  destruct (Ascii.eqb a c) eqn:E; [exact IH|]. cbn [has_char].
  rewrite E, IH. reflexivity.
Qed.

Lemma has_char_remove_other c d s :
  has_char c s = false -> has_char c (remove_char d s) = false.
Proof.
  induction s as [|a s IH]; [reflexivity|]. cbn [has_char remove_char].
  intros H. apply orb_false_iff in H as [Ha Hs].
  destruct (Ascii.eqb a d); [apply IH, Hs|].
  cbn [has_char]. rewrite Ha, (IH Hs). reflexivity.
Qed.

Lemma remove_char_absent c s : has_char c s = false -> remove_char c s = s.
Proof.
  induction s as [|a s IH]; [reflexivity|]. cbn [has_char remove_char].
  intros H. apply orb_false_iff in H as [-> Hs]. rewrite (IH Hs). reflexivity.
Qed.

(** [as_string_id] never raises; the identifier it gives has no slash, no
    hyphen and no point, and is the text of the value itself when that has
    none of them. *)
Theorem as_string_id_strips (x : cell) :
  (as_string_id x = Ok VNone /\ is_nan_or_empty x = true)
  \/ (exists r, as_string_id x = Ok (VStr r)
                /\ has_char "/" r = false /\ has_char "-" r = false
                /\ has_char "." r = false
                /\ (has_char "/" (str x) = false ->
                    has_char "-" (str x) = false ->
                    has_char "." (str x) = false -> r = str x)).
Proof.
  unfold as_string_id. destruct (is_nan_or_empty x); [left; auto|right].
  eexists. split; [reflexivity|]. rewrite !replace_char_by_nothing.
  repeat split.
  - apply has_char_remove_other, has_char_remove_other, has_char_remove_same.
  - apply has_char_remove_other, has_char_remove_same.
  - apply has_char_remove_same.
  - intros H1 H2 H3. rewrite (remove_char_absent "/") by exact H1.
    rewrite (remove_char_absent "-") by exact H2.
    apply remove_char_absent, H3.
Qed.

(** [float] of a string answers or raises [ValueError], nothing else. *)
Lemma float_of_str_errors (s : string) (e : exn) :
  float_of_str s = Raise e -> e = ValueError.
Proof.
  assert (Hu : forall neg t, float_unsigned neg t = Raise e -> e = ValueError).
  { intros neg t. unfold float_unsigned.
    destruct (String.eqb (lower t) "inf" || String.eqb (lower t) "infinity");
      [discriminate|].
    destruct (String.eqb (lower t) "nan"); [discriminate|].
    destruct (take_digits 0 0 t) as [[ip icnt] s1].
    destruct (match s1 with String "." t0 => take_digits ip 0 t0 | _ => (ip, 0%nat, s1) end)
      as [[m fcnt] s2].
    destruct (icnt + fcnt =? 0)%nat; [congruence|].
    destruct (match take_exponent s2 with Some (e0, rest) => (e0, rest) | None => (0%Z, s2) end)
      as [e0 s3].
    destruct s3; [discriminate|congruence]. }
  unfold float_of_str. destruct (drop_underscores _ s) as [s1|]; [|congruence].
  destruct (strip s1) as [|a t]; [apply Hu|].
  destruct (ascii_dec a "+") as [->|Hp]; [apply Hu|].
  destruct (ascii_dec a "-") as [->|Hm]; [apply Hu|].
  intros H. eapply (Hu false (String a t)). rewrite <- H.
  destruct a as [[] [] [] [] [] [] [] []]; try reflexivity; congruence.
Qed.

(** What the converters can raise: [as_boolean], [as_float], [as_string]
    and [as_string_id] nothing; [as_integer] only the [OverflowError] of an
    infinite or too large number, which its [except ValueError] lets
    through; [as_date] a [ValueError], or a [TypeError] on a value that is
    not a string. *)
Theorem converter_errors (x : cell) (e : exn) :
  as_boolean x <> Raise e /\ as_float x <> Raise e
  /\ as_string x <> Raise e /\ as_string_id x <> Raise e
  /\ (as_integer x = Raise e -> e = OverflowError)
  /\ (as_date x = Raise e -> e = ValueError \/ e = TypeError)
  /\ as_integer (CStr "1e999") = Raise OverflowError.
Proof.
  split; [unfold as_boolean; destruct (is_nan_or_empty x); discriminate|].
  split.
  { unfold as_float. destruct (is_nan_or_empty x); [discriminate|].
    destruct (float_of_str (str x)) as [f|e'] eqn:Hf; cbn; [discriminate|].
    apply float_of_str_errors in Hf as ->. discriminate. }
  split; [unfold as_string; destruct (is_nan_or_empty x); discriminate|].
  split; [unfold as_string_id; destruct (is_nan_or_empty x); discriminate|].
  split.
  { unfold as_integer. destruct (is_nan_or_empty x) eqn:He; [discriminate|].
    destruct x as [| |s|z|b]; try discriminate He.
    - cbn [float_of_cell]. destruct (float_of_str s) as [f|e'] eqn:Hf.
      + cbn [bind]. destruct f as [|neg|neg m ex]; cbn; congruence.
      + apply float_of_str_errors in Hf as ->. discriminate.
    - cbn [float_of_cell]. destruct (overflow_threshold <=? Z.abs z)%Z;
        cbn; congruence.
    - cbn. congruence. }
  split; [|vm_compute; reflexivity].
  unfold as_date. destruct (is_nan_or_empty x); [discriminate|].
  destruct x; try (intros H; right; congruence).
  unfold strptime_ymd. intros H. left.
  repeat match type of H with
         | context [match ?t with _ => _ end] => destruct t
         end; congruence.
Qed.

End more_converter_facts.
Section date_facts.

Lemma digit_val_bound c : is_digit c = true -> (0 <= Z.of_N (digit_val c) <= 9)%Z.
Proof.
  unfold is_digit, digit_val, code. intros H.
  apply andb_true_iff in H as [H1 H2].
  apply Nat.leb_le in H1, H2. lia.
Qed.

Lemma digit_val_pos c :
  is_digit c = true -> Ascii.eqb c "0" = false ->
  (1 <= Z.of_N (digit_val c))%Z.
Proof.
  unfold is_digit, digit_val, code. intros H Hz.
  apply andb_true_iff in H as [H1 H2]. apply Nat.leb_le in H1, H2.
  assert (nat_of_ascii c <> 48)%nat.
  { intros Hc. apply (f_equal ascii_of_nat) in Hc.
    rewrite ascii_nat_embedding in Hc. subst c. discriminate Hz. }
  lia.
Qed.

Lemma take_year_range s y rest :
  take_year s = Some (y, rest) -> (0 <= y <= 9999)%Z.
Proof.
  unfold take_year. destruct s as [|a [|b [|c [|d r]]]]; try discriminate.
  destruct (is_digit a) eqn:Ha; [|discriminate].
  destruct (is_digit b) eqn:Hb; [|discriminate].
  destruct (is_digit c) eqn:Hc; [|discriminate].
  destruct (is_digit d) eqn:Hd; [|discriminate]. cbn [andb].
  intros H. injection H as <- _.
  pose proof (digit_val_bound a Ha). pose proof (digit_val_bound b Hb).
  pose proof (digit_val_bound c Hc). pose proof (digit_val_bound d Hd). lia.
Qed.

Lemma take_month_range s m rest :
  take_month s = Some (m, rest) -> (1 <= m <= 12)%Z.
Proof.
  unfold take_month. destruct s as [|a r]; [discriminate|].
  assert (Hone : (if is_digit a && negb (Ascii.eqb a "0")
                  then Some (Z.of_N (digit_val a), r) else None)
                 = Some (m, rest) -> (1 <= m <= 12)%Z).
  { destruct (is_digit a) eqn:Ha; [|discriminate].
    destruct (Ascii.eqb a "0") eqn:Hz; [discriminate|]. cbn.
    intros H. injection H as <- _.
    pose proof (digit_val_bound a Ha). pose proof (digit_val_pos a Ha Hz). lia. }
  destruct r as [|b r']; [exact Hone|].
  destruct (Ascii.eqb a "1" && is_digit b && (code b <=? 50)%nat) eqn:H1.
  - cbn [orb]. intros H. injection H as <- _.
    apply andb_true_iff in H1 as [H1 Hle]. apply andb_true_iff in H1 as [Ha Hb].
    apply Ascii.eqb_eq in Ha as ->. apply Nat.leb_le in Hle.
    pose proof (digit_val_bound b Hb). unfold digits2.
    unfold digit_val in *. change (code "1") with 49%nat. lia.
  - cbn [orb].
    destruct (Ascii.eqb a "0" && is_digit b && negb (Ascii.eqb b "0")) eqn:H0;
      [|exact Hone].
    intros H. injection H as <- _.
    apply andb_true_iff in H0 as [H0 Hnz]. apply andb_true_iff in H0 as [Ha Hb].
    apply Ascii.eqb_eq in Ha as ->. apply negb_true_iff in Hnz.
    pose proof (digit_val_bound b Hb). pose proof (digit_val_pos b Hb Hnz).
    unfold digits2. change (digit_val "0") with 0%N. lia.
Qed.

Lemma take_day_positive s d rest :
  take_day s = Some (d, rest) -> (1 <= d)%Z.
Proof.
  unfold take_day. destruct s as [|a r]; [discriminate|].
  assert (Hone : (if is_digit a && negb (Ascii.eqb a "0")
                  then Some (Z.of_N (digit_val a), r) else None)
                 = Some (d, rest) -> (1 <= d)%Z).
  { destruct (is_digit a) eqn:Ha; [|discriminate].
    destruct (Ascii.eqb a "0") eqn:Hz; [discriminate|]. cbn.
    intros H. injection H as <- _. apply digit_val_pos; assumption. }
  destruct r as [|b r']; [exact Hone|].
  destruct ((Ascii.eqb a "3" && is_digit b && (code b <=? 49)%nat)
            || ((Ascii.eqb a "1" || Ascii.eqb a "2") && is_digit b)
            || (Ascii.eqb a "0" && is_digit b && negb (Ascii.eqb b "0")))
    eqn:Htwo.
  - intros H. injection H as <- _. unfold digits2.
    apply orb_true_iff in Htwo as [Htwo|H0].
    + assert (1 <= Z.of_N (digit_val a))%Z; [|lia].
      apply orb_true_iff in Htwo as [H3|H12].
      * apply andb_true_iff in H3 as [H3 _]. apply andb_true_iff in H3 as [H3 _].
        apply Ascii.eqb_eq in H3 as ->. vm_compute. discriminate.
      * apply andb_true_iff in H12 as [H12 _].
        apply orb_true_iff in H12 as [H|H]; apply Ascii.eqb_eq in H as ->;
          vm_compute; discriminate.
    + apply andb_true_iff in H0 as [H0 Hnz]. apply andb_true_iff in H0 as [_ Hb].
      apply negb_true_iff in Hnz. pose proof (digit_val_pos b Hb Hnz). lia.
  - destruct (Ascii.eqb a " " && is_digit b && negb (Ascii.eqb b "0")) eqn:Hsp;
      [|exact Hone].
    intros H. injection H as <- _.
    apply andb_true_iff in Hsp as [Hsp Hnz]. apply andb_true_iff in Hsp as [_ Hb].
    apply negb_true_iff in Hnz. apply digit_val_pos; assumption.
Qed.

(** A date that [as_date] returns is a date of the calendar: the year from
    1 to 9999, the month from 1 to 12, the day from 1 to the length of the
    month. *)
Theorem as_date_is_valid (x : cell) (y m d : Z) :
  as_date x = Ok (VDate y m d) ->
  (1 <= y <= 9999)%Z /\ (1 <= m <= 12)%Z /\ (1 <= d <= days_in_month y m)%Z.
Proof.
  unfold as_date. destruct (is_nan_or_empty x); [discriminate|].
  destruct x as [| |s| |]; try discriminate. unfold strptime_ymd.
  destruct (take_year s) as [[y0 s1]|] eqn:Hy; cbn; [|discriminate].
  destruct (expect "-" s1) as [s2|]; cbn; [|discriminate].
  destruct (take_month s2) as [[m0 s3]|] eqn:Hm; cbn; [|discriminate].
  destruct (expect "-" s3) as [s4|]; cbn; [|discriminate].
  destruct (take_day s4) as [[d0 s5]|] eqn:Hd; cbn; [|discriminate].
  destruct s5; [|discriminate].
  destruct ((1 <=? y0)%Z && (d0 <=? days_in_month y0 m0)%Z) eqn:Hv;
    [|discriminate].
  intros H. injection H as <- <- <-.
  apply andb_true_iff in Hv as [Hy1 Hd1]. apply Z.leb_le in Hy1, Hd1.
  pose proof (take_year_range _ _ _ Hy). pose proof (take_month_range _ _ _ Hm).
  pose proof (take_day_positive _ _ _ Hd). lia.
Qed.

Lemma as_date_is_valid_witness :
  as_date (CStr "2024-02-29") = Ok (VDate 2024 2 29)
  /\ (1 <= 29 <= days_in_month 2024 2)%Z.
Proof.
  assert (H : as_date (CStr "2024-02-29") = Ok (VDate 2024 2 29))
    by reflexivity.
  split; [exact H|].
  exact (proj2 (proj2 (as_date_is_valid _ _ _ _ H))).
Defined.

End date_facts.

(** ** _get_value_by_index_if_exists, negative indices *)

(** A negative index is never replaced by the default: it counts from the
    end of the list, and below [-len(x)] it raises [IndexError]. *)
Theorem get_value_negative_index (x : list cell) (y : Z) (z : cell) :
  (y < 0)%Z ->
  _get_value_by_index_if_exists x y z
  = if (y <? - Z.of_nat (length x))%Z then Raise IndexError
    else match x !! Z.to_nat (Z.of_nat (length x) + y) with
         | Some v => Ok v
         | None => Raise IndexError
         end.
Proof.
  intros Hy. unfold _get_value_by_index_if_exists, index.
  pose proof (Nat2Z.is_nonneg (length x)) as Hn.
  assert (H1 : (y <? Z.of_nat (length x))%Z = true) by (apply Z.ltb_lt; lia).
  assert (H2 : (y <? 0)%Z = true) by (apply Z.ltb_lt; lia).
  rewrite H1, H2.
  destruct (y <? - Z.of_nat (length x))%Z eqn:Hlow.
  - apply Z.ltb_lt in Hlow.
    assert (H3 : (Z.of_nat (length x) + y <? 0)%Z = true)
      by (apply Z.ltb_lt; lia).
    rewrite H3. reflexivity.
  - apply Z.ltb_ge in Hlow.
    assert (H3 : (Z.of_nat (length x) + y <? 0)%Z = false)
      by (apply Z.ltb_ge; lia).
    assert (H4 : (Z.of_nat (length x) <=? Z.of_nat (length x) + y)%Z = false)
      by (apply Z.leb_gt; lia).
    rewrite H3, H4. reflexivity.
Qed.

Lemma get_value_negative_index_witness :
  _get_value_by_index_if_exists [CStr "a"; CStr "b"] (-1) (CStr "z")
  = Ok (CStr "b")
  /\ _get_value_by_index_if_exists [CStr "a"; CStr "b"] (-3) (CStr "z")
     = Raise IndexError.
Proof.
  split.
  - rewrite (get_value_negative_index [CStr "a"; CStr "b"] (-1) (CStr "z"));
      [reflexivity|lia].
  - rewrite (get_value_negative_index [CStr "a"; CStr "b"] (-3) (CStr "z"));
      [reflexivity|lia].
Defined.
(** ** The directory listing *)

Section listing_facts.

Variable strptime_listing : string -> res string.

Lemma has_char_rev_app c s t :
  has_char c (String.rev_app s t) = has_char c s || has_char c t.
Proof.
  revert t. induction s as [|a s IH]; intros t; [reflexivity|].
  cbn [String.rev_app has_char]. rewrite IH. cbn [has_char].
  destruct (Ascii.eqb a c), (has_char c s), (has_char c t); reflexivity.
Qed.

(** The first piece of a split has no separator in it. *)
Lemma split_go_head sep cur s :
  has_char sep cur = false ->
  exists first rest,
    split_go sep cur s = first :: rest /\ has_char sep first = false.
Proof.
  revert cur. induction s as [|a s IH]; intros cur Hcur; cbn [split_go].
  - eexists _, _. split; [reflexivity|]. unfold String.rev.
    rewrite has_char_rev_app, Hcur. reflexivity.
  - destruct (Ascii.eqb a sep) eqn:Ha.
    + eexists _, _. split; [reflexivity|]. unfold String.rev.
      rewrite has_char_rev_app, Hcur. reflexivity.
    + apply IH. cbn [has_char]. rewrite Ha, Hcur. reflexivity.
Qed.

Lemma listing_name_no_point content name :
  listing_name content = Ok name -> has_char "." name = false.
Proof.
  unfold listing_name.
  destruct (_get_value_by_index_if_exists content 0 (CStr "")) as [v|];
    [|discriminate].
  cbn [bind]. destruct v; try discriminate. unfold split.
  destruct (split_go_head "." EmptyString s eq_refl) as (first & rest & -> & Hf).
  cbn. intros H. injection H as <-. exact Hf.
Qed.

(** The size column of a row that has a size. *)
Lemma make_number_type_some (x : cell) (n : Z) :
  _make_number_type x = Ok (Some n) ->
  exists s, x = CStr s /\ s <> "-"
            /\ int_of_str (remove_letters s) = Ok n.
Proof.
  destruct x as [| |s| |]; cbn [_make_number_type]; try discriminate.
  destruct (String.eqb_spec s "-") as [->|Hne]; [discriminate|].
  destruct (int_of_str (remove_letters s)) as [m|] eqn:Hm; [|discriminate].
  cbn [bind]. intros H. injection H as <-. exists s. auto.
Qed.

Lemma get_value_some (content : list cell) (i : nat) (s : string) :
  _get_value_by_index_if_exists content (Z.of_nat i) CNone = Ok (CStr s) ->
  content !! i = Some (CStr s).
Proof.
  unfold _get_value_by_index_if_exists, index.
  destruct (Z.of_nat i <? Z.of_nat (length content))%Z eqn:Hlt;
    [|discriminate].
  replace (Z.of_nat i <? 0)%Z with false
    by (symmetry; apply Z.ltb_ge; lia).
  destruct (_ || _); [discriminate|]. rewrite Nat2Z.id.
  destruct (content !! i); [|discriminate]. congruence.
Qed.

Lemma directory_rows_spec (contents : list (list cell))
    (hrefs : list (option string)) :
  forall start dir,
    directory_rows strptime_listing contents start hrefs = Ok dir ->
    length dir = length hrefs
    /\ forall k d, dir !! k = Some d ->
         hrefs !! k = Some (d_href d)
         /\ directory_row strptime_listing contents (start + k) (d_href d)
            = Ok d.
Proof.
  induction hrefs as [|href hrefs IH]; intros start dir H.
  - cbn in H. injection H as <-. split; [reflexivity|]. intros k d Hk.
    inversion Hk.
  - cbn [directory_rows] in H.
    destruct (directory_row _ contents start href) as [d0|] eqn:Hd0;
      [|discriminate].
    cbn [bind] in H.
    destruct (directory_rows _ contents (S start) hrefs) as [ds|] eqn:Hds;
      [|discriminate].
    cbn [bind] in H. injection H as <-.
    destruct (IH _ _ Hds) as [Hlen Hrows]. split; [cbn; lia|].
    assert (Hhref : d_href d0 = href).
    { unfold directory_row in Hd0.
      repeat match type of Hd0 with
             | context [bind ?m _] => destruct m; cbn [bind] in Hd0;
                                      [|discriminate]
             end.
      injection Hd0 as <-. reflexivity. }
    intros [|k] d Hk.
    + cbn in Hk. injection Hk as <-. rewrite Nat.add_0_r, Hhref.
      split; [reflexivity|exact Hd0].
    + cbn in Hk. destruct (Hrows k d Hk) as [Hh Hrow].
      split; [exact Hh|]. rewrite <- Hrow. f_equal. lia.
Qed.

(** [_get_url_paths] gives one row for each link, in the order of the
    links; the sequence of a row is the position of its link, and its name
    has no point in it. *)
Theorem url_paths_follow_the_links (hrefs : list (option string))
    (contents : list (list cell)) (dir : list dir_row) :
  _get_url_paths strptime_listing hrefs contents = Ok dir ->
  length dir = length hrefs
  /\ (length hrefs <= length contents)%nat
  /\ forall k d, dir !! k = Some d ->
       d_sequence d = Z.of_nat k /\ hrefs !! k = Some (d_href d)
       /\ has_char "." (d_name d) = false.
Proof.
  unfold _get_url_paths. intros H.
  destruct (directory_rows_spec contents hrefs 0 dir H) as [Hlen Hrows].
  assert (Hrow : forall k d, dir !! k = Some d ->
            d_sequence d = Z.of_nat k /\ hrefs !! k = Some (d_href d)
            /\ has_char "." (d_name d) = false /\ (k < length contents)%nat).
  { intros k d Hk. destruct (Hrows k d Hk) as [Hh Hd]. cbn in Hd.
    unfold directory_row in Hd.
    destruct (contents !! k) as [content|] eqn:Hc; [|discriminate].
    cbn [bind] in Hd.
    destruct (listing_name content) as [name|] eqn:Hname; [|discriminate].
    cbn [bind] in Hd.
    repeat match type of Hd with
           | context [bind ?m _] => destruct m; cbn [bind] in Hd;
                                    [|discriminate]
           end.
    injection Hd as <-. cbn. repeat split; [exact Hh| |].
    - eapply listing_name_no_point. exact Hname.
    - eapply lookup_lt_Some. exact Hc. }
  split; [exact Hlen|]. split.
  - destruct (Nat.le_gt_cases (length hrefs) (length contents)) as [Hle|Hgt];
      [exact Hle|exfalso].
    destruct (lookup_lt_is_Some_2 dir (length contents) ltac:(lia)) as [d Hd].
    destruct (Hrow _ _ Hd) as (_ & _ & _ & Hlt). lia.
  - intros k d Hk. destruct (Hrow k d Hk) as (H1 & H2 & H3 & _). auto.
Qed.

(** A file of the remote listing comes from a line with a fourth column
    that is not the hyphen and reads as an integer once its letters are
    dropped: the lines without a size, like the link to the parent
    directory, never become files. *)
Theorem listed_files_have_a_size (hrefs : list (option string))
    (contents : list (list cell)) (dir : list dir_row)
    (history : bool) (url kind : string) (r : remote_row) :
  _get_url_paths strptime_listing hrefs contents = Ok dir ->
  r ∈ files_of history url kind dir ->
  r_history r = history /\ r_url r = url /\ r_kind r = kind
  /\ exists k content s,
       r_sequence r = Z.of_nat k
       /\ hrefs !! k = Some (r_href r)
       /\ contents !! k = Some content
       /\ content !! 3%nat = Some (CStr s)
       /\ s <> "-"
       /\ int_of_str (remove_letters s) = Ok (r_size r).
Proof.
  intros Hdir Hr. unfold files_of in Hr.
  apply list_elem_of_omap in Hr as (d & Hd & Hsome).
  destruct (d_size d) as [size|] eqn:Hsize; [|discriminate].
  injection Hsome as <-. cbn. repeat split.
  apply list_elem_of_lookup in Hd as [k Hk].
  destruct (directory_rows_spec contents hrefs 0 dir Hdir) as [_ Hrows].
  destruct (Hrows k d Hk) as [Hh Hrow]. cbn in Hrow.
  unfold directory_row in Hrow.
  destruct (contents !! k) as [content|] eqn:Hc; [|discriminate].
  cbn [bind] in Hrow.
  destruct (listing_name content) as [name|]; [|discriminate].
  cbn [bind] in Hrow.
  destruct (_get_value_by_index_if_exists content 1 CNone); [|discriminate].
  cbn [bind] in Hrow.
  destruct (_get_value_by_index_if_exists content 2 CNone); [|discriminate].
  cbn [bind] in Hrow.
  destruct (_make_datetime _ _ _); [|discriminate]. cbn [bind] in Hrow.
  destruct (_get_value_by_index_if_exists content 3 CNone) as [v|] eqn:Hv;
    [|discriminate].
  cbn [bind] in Hrow.
  destruct (_make_number_type v) as [sz|] eqn:Hsz; [|discriminate].
  cbn [bind] in Hrow. injection Hrow as Hrow.
  assert (Hseq : d_sequence d = Z.of_nat k) by (rewrite <- Hrow; reflexivity).
  rewrite <- Hrow in Hsize. cbn in Hsize. rewrite Hsize in Hsz.
  apply make_number_type_some in Hsz as (s & -> & Hne & Hint).
  apply (get_value_some content 3 s) in Hv.
  exists k, content, s. auto 10.
Qed.

End listing_facts.

Lemma url_paths_follow_the_links_witness :
  exists dir,
    _get_url_paths sample.strptime_listing sample.listing_hrefs
      sample.listing_contents = Ok dir
    /\ length dir = 2%nat.
Proof.
  eexists. split; [vm_compute; reflexivity|].
  refine (proj1 (url_paths_follow_the_links sample.strptime_listing
                   sample.listing_hrefs sample.listing_contents _ _)).
  vm_compute. reflexivity.
Defined.

Lemma listed_files_have_a_size_witness :
  exists dir r,
    _get_url_paths sample.strptime_listing sample.listing_hrefs
      sample.listing_contents = Ok dir
    /\ files_of false "http://dados.cvm.gov.br" "IF_REGISTER" dir = [r]
    /\ r_sequence r = 1%Z /\ r_size r = 12%Z /\ r_kind r = "IF_REGISTER".
Proof.
  eexists _, _. split; [vm_compute; reflexivity|].
  split; [vm_compute; reflexivity|]. split; [reflexivity|].
  split; [reflexivity|].
  refine (proj1 (proj2 (proj2
            (listed_files_have_a_size sample.strptime_listing
               sample.listing_hrefs sample.listing_contents _ false
               "http://dados.cvm.gov.br" "IF_REGISTER" _ _ _)))).
  - vm_compute. reflexivity.
  - apply list_elem_of_here.
Defined.
(** ** More on the reconciliation query *)

Section reconcile_more.

Lemma is_null_true (x : cell) : is_null x = true -> x = CNone.
Proof. destruct x; [reflexivity|discriminate..]. Qed.

Lemma is_null_false (x : cell) : x <> CNone -> is_null x = false.
Proof. destruct x; [congruence|reflexivity..]. Qed.

(** A journal row has a match in the listing, or it has none. *)
Lemma match_or_not (c : journal_row) (R : list remote_row) :
  (exists r, In r R /\ join_match c r = true)
  \/ (forall r, In r R -> join_match c r = false).
Proof.
  induction R as [|r R IH].
  - right. intros r [].
  - destruct (join_match c r) eqn:Hm.
    + left. exists r. split; [left; reflexivity|exact Hm].
    + destruct IH as [(r' & Hr' & Hm')|Hnone].
      * left. exists r'. split; [right; exact Hr'|exact Hm'].
      * right. intros r' [<-|Hr']; [exact Hm|apply Hnone, Hr'].
Qed.

Lemma matched_or_not (r : remote_row) (C : list journal_row) :
  (exists c, In c C /\ join_match c r = true)
  \/ (forall c, In c C -> join_match c r = false).
Proof.
  induction C as [|c C IH].
  - right. intros c [].
  - destruct (join_match c r) eqn:Hm.
    + left. exists c. split; [left; reflexivity|exact Hm].
    + destruct IH as [(c' & Hc' & Hm')|Hnone].
      * left. exists c'. split; [right; exact Hc'|exact Hm'].
      * right. intros c' [<-|Hc']; [exact Hm|apply Hnone, Hc'].
Qed.

Lemma to_sql_idem (x : cell) : to_sql (to_sql x) = to_sql x.
Proof. destruct x as [| | | |[|]]; reflexivity. Qed.

End reconcile_more.

(** A journal entry whose file has left the remote listing is kept, with
    all its columns, and is switched off: process = 0 and active = 0.  When
    every journal row has a sequence, the entry has a href and its key is
    held by no other journal row, this is the only row of its key. *)
Theorem gone_entry_is_deactivated (R : list remote_row)
    (J : list journal_row) (c0 : journal_row) :
  let c := journal_to_sql c0 in
  c0 ∈ J ->
  (forall r, r ∈ R -> join_match c (with_file_url r) = false) ->
  exists row,
    row ∈ reconcile R J
    /\ key_of_row row = key_of_row c
    /\ c_sequence row = c_sequence c
    /\ c_last_modified row = c_last_modified c
    /\ c_size row = c_size c
    /\ c_history row = c_history c
    /\ c_url row = c_url c
    /\ c_last_download row = c_last_download c
    /\ c_last_updated row = c_last_updated c
    /\ c_process row = CInt 0
    /\ c_active row = CInt 0
    /\ ((forall c2, c2 ∈ J -> c_sequence (journal_to_sql c2) <> CNone) ->
        c_href c <> CNone ->
        (forall c2, c2 ∈ J -> key_of_row (journal_to_sql c2) = key_of_row c ->
                    journal_to_sql c2 = c) ->
        forall row', row' ∈ reconcile R J ->
                     key_of_row row' = key_of_row c -> row' = row).
Proof.
  intros c Hc Hnone.
  assert (Hnone' : forall r, In r (map with_file_url R) ->
                             join_match c r = false).
  { intros r Hr. apply in_map_iff in Hr as (r0 & <- & Hr0).
    apply Hnone, list_elem_of_In, Hr0. }
  exists (select_gone (Some c, None)).
  split.
  { apply in_reconcile. exists (Some c, None). split.
    - apply in_full_outer_join. right; left. exists c.
      split; [apply in_map, list_elem_of_In, Hc|]. auto.
    - right; left. auto. }
  do 10 (split; [reflexivity|]).
  intros Hseq Hhref HuJ row' Hrow' Hk'.
  apply in_reconcile in Hrow' as (j & Hj & Hbranch).
  apply in_full_outer_join in Hj
    as [(c2 & r2 & Hc2 & Hr2 & Hm2 & ->)|[(c2 & Hc2 & Hall & ->)
                                          |(r2 & Hr2 & Hall & ->)]].
  - (* a matching pair: its journal row would be [c] *)
    exfalso. assert (c2 = c) as ->.
    { apply in_map_iff in Hc2 as (c3 & <- & Hc3).
      apply HuJ; [apply list_elem_of_In, Hc3|].
      rewrite (join_match_key _ _ Hm2).
      destruct Hbranch as [[_ ->]|[[Hw _]|[_ ->]]];
        [exact Hk'|discriminate Hw|exact Hk']. }
    rewrite (Hnone' r2 Hr2) in Hm2. discriminate.
  - apply in_map_iff in Hc2 as (c3 & <- & Hc3).
    apply list_elem_of_In in Hc3.
    destruct Hbranch as [[Hw _]|[[_ ->]|[Hw _]]].
    + exfalso. apply (Hseq c3 Hc3). apply is_null_true. exact Hw.
    + rewrite (HuJ c3 Hc3 Hk'). reflexivity.
    + discriminate Hw.
  - (* a remote row without a match would match [c] *)
    exfalso.
    assert (Hkey : key_of_row c = key_of_remote r2).
    { destruct Hbranch as [[_ ->]|[[Hw _]|[_ ->]]];
        [symmetry; exact Hk'|discriminate Hw|symmetry; exact Hk']. }
    assert (Hr2h : r_href r2 <> None).
    { intros Hn. apply Hhref. unfold key_of_row, key_of_remote in Hkey.
      injection Hkey as Hh _ _. unfold href_of in Hh. rewrite Hn in Hh.
      exact Hh. }
    pose proof (key_join_match c r2 Hkey Hr2h) as Hjm.
    rewrite (Hnone' r2 Hr2) in Hjm. discriminate Hjm.
Qed.

Lemma gone_entry_is_deactivated_witness :
  exists row,
    row ∈ reconcile [] [sample.cad_fi_synced]
    /\ c_process row = CInt 0 /\ c_active row = CInt 0
    /\ c_last_download row = CStr "2024-01-03 09:30:00".
Proof.
  destruct (gone_entry_is_deactivated [] [sample.cad_fi_synced]
              sample.cad_fi_synced)
    as (row & Hin & _ & _ & _ & _ & _ & _ & Hld & _ & Hp & Ha & _).
  - apply list_elem_of_here.
  - intros r Hr. inversion Hr.
  - exists row. repeat split; assumption.
Defined.

(** When every journal row has a sequence, the keys of the reconciled
    journal are the keys of the remote listing and the keys of the journal:
    no file and no entry is dropped, and no key is made up. *)
Theorem reconcile_keys (R : list remote_row) (J : list journal_row)
    (k : cell * cell * cell) :
  (forall c, c ∈ J -> c_sequence (journal_to_sql c) <> CNone) ->
  (exists row, row ∈ reconcile R J /\ key_of_row row = k)
  <-> (exists r, r ∈ R /\ key_of_remote (with_file_url r) = k)
      \/ (exists c, c ∈ J /\ key_of_row (journal_to_sql c) = k).
Proof.
  intros Hseq. split.
  - intros (row & Hrow & <-).
    apply in_reconcile in Hrow as (j & Hj & Hbranch).
    apply in_full_outer_join in Hj
      as [(c2 & r2 & Hc2 & Hr2 & Hm2 & ->)|[(c2 & Hc2 & Hall & ->)
                                            |(r2 & Hr2 & Hall & ->)]].
    + left. apply in_map_iff in Hr2 as (r3 & <- & Hr3).
      exists r3. split; [apply list_elem_of_In, Hr3|].
      destruct Hbranch as [[_ ->]|[[Hw _]|[_ ->]]];
        [reflexivity|discriminate Hw|reflexivity].
    + right. apply in_map_iff in Hc2 as (c3 & <- & Hc3).
      apply list_elem_of_In in Hc3. exists c3. split; [exact Hc3|].
      destruct Hbranch as [[Hw _]|[[_ ->]|[Hw _]]].
      * exfalso. apply (Hseq c3 Hc3). apply is_null_true. exact Hw.
      * reflexivity.
      * discriminate Hw.
    + left. apply in_map_iff in Hr2 as (r3 & <- & Hr3).
      exists r3. split; [apply list_elem_of_In, Hr3|].
      destruct Hbranch as [[_ ->]|[[Hw _]|[_ ->]]];
        [reflexivity|discriminate Hw|reflexivity].
  - intros [(r & Hr & <-)|(c & Hc & <-)].
    + set (r' := with_file_url r).
      assert (Hr' : In r' (map with_file_url R))
        by (apply in_map, list_elem_of_In, Hr).
      destruct (matched_or_not r' (map journal_to_sql J))
        as [(c & Hc & Hm)|Hnone].
      * exists (select_present (Some c, Some r')). split; [|reflexivity].
        apply in_reconcile. exists (Some c, Some r'). split.
        -- apply in_full_outer_join. left. eauto 10.
        -- right; right. auto.
      * exists (select_present (None, Some r')). split; [|reflexivity].
        apply in_reconcile. exists (None, Some r'). split.
        -- apply in_full_outer_join. right; right. eauto.
        -- right; right. auto.
    + set (c' := journal_to_sql c).
      assert (Hc' : In c' (map journal_to_sql J))
        by (apply in_map, list_elem_of_In, Hc).
      destruct (match_or_not c' (map with_file_url R))
        as [(r & Hr & Hm)|Hnone].
      * exists (select_present (Some c', Some r)).
        split; [|symmetry; apply (join_match_key _ _ Hm)].
        apply in_reconcile. exists (Some c', Some r). split.
        -- apply in_full_outer_join. left. eauto 10.
        -- right; right. auto.
      * exists (select_gone (Some c', None)). split; [|reflexivity].
        apply in_reconcile. exists (Some c', None). split.
        -- apply in_full_outer_join. right; left. eauto.
        -- right; left. auto.
Qed.

Lemma reconcile_keys_witness :
  exists row,
    row ∈ reconcile [sample.cad_fi] [sample.cad_fi_synced]
    /\ key_of_row row = key_of_remote (with_file_url sample.cad_fi).
Proof.
  apply (proj2 (reconcile_keys [sample.cad_fi] [sample.cad_fi_synced]
                  (key_of_remote (with_file_url sample.cad_fi))
                  ltac:(intros c Hc; apply list_elem_of_In in Hc;
                        destruct Hc as [<-|[]]; discriminate))).
  left. exists sample.cad_fi. split; [apply list_elem_of_here|reflexivity].
Defined.

(** Every row of the reconciled journal has a sequence when every row of
    the journal has one: this holds again for the journal of the next
    run. *)
Theorem reconcile_keeps_sequences (R : list remote_row)
    (J : list journal_row) (row : journal_row) :
  (forall c, c ∈ J -> c_sequence (journal_to_sql c) <> CNone) ->
  row ∈ reconcile R J ->
  c_sequence (journal_to_sql row) <> CNone.
Proof.
  intros Hseq Hrow.
  apply in_reconcile in Hrow as (j & Hj & Hbranch).
  apply in_full_outer_join in Hj
    as [(c2 & r2 & Hc2 & Hr2 & Hm2 & ->)|[(c2 & Hc2 & Hall & ->)
                                          |(r2 & Hr2 & Hall & ->)]];
    destruct Hbranch as [[Hw ->]|[[Hw ->]|[Hw ->]]];
    try discriminate Hw; try (cbn; discriminate).
  - exfalso. apply in_map_iff in Hc2 as (c3 & <- & Hc3).
    apply (Hseq c3); [apply list_elem_of_In, Hc3|]. apply is_null_true, Hw.
  - apply in_map_iff in Hc2 as (c3 & <- & Hc3). cbn.
    rewrite to_sql_idem. apply (Hseq c3), list_elem_of_In, Hc3.
Qed.

Lemma reconcile_keeps_sequences_witness :
  forallb (fun row => negb (is_null (c_sequence (journal_to_sql row))))
    (reconcile [sample.cad_fi] [sample.cad_fi_synced]) = true
  /\ c_sequence (journal_to_sql
       (select_present (Some (journal_to_sql sample.cad_fi_synced),
                        Some (with_file_url sample.cad_fi)))) <> CNone.
Proof.
  split; [reflexivity|].
  apply (reconcile_keeps_sequences [sample.cad_fi] [sample.cad_fi_synced]).
  - intros c Hc. apply list_elem_of_In in Hc. destruct Hc as [<-|[]].
    discriminate.
  - vm_compute. apply list_elem_of_here.
Defined.

(** A row of the reconciled journal asks for processing only for a file of
    the remote listing, and only when the entry has no download yet or the
    remote file is newer than the last download. *)
Theorem scheduled_only_when_newer (R : list remote_row)
    (J : list journal_row) (row : journal_row) :
  (forall c, c ∈ J -> c_sequence (journal_to_sql c) <> CNone) ->
  row ∈ reconcile R J ->
  c_process row = CInt 1 ->
  (exists r, r ∈ R
             /\ key_of_row row = key_of_remote (with_file_url r)
             /\ c_url row = url_of (with_file_url r)
             /\ c_last_modified row = last_modified_of r)
  /\ (c_last_download row = CNone
      \/ sql_gt (c_last_modified row) (c_last_download row) = true).
Proof.
  intros Hseq Hrow Hp.
  assert (Hcase : forall j, c_process (select_present j) = CInt 1 ->
            c_last_download (select_present j) = CNone
            \/ sql_gt (c_last_modified (select_present j))
                      (c_last_download (select_present j)) = true).
  { intros j. cbn. unfold process_case.
    destruct (is_null (r_ last_modified_of j)); [discriminate|].
    destruct (is_null (c_ c_last_download j)) eqn:Hld.
    - intros _. left. apply is_null_true, Hld.
    - destruct (sql_gt _ _); [auto|discriminate]. }
  apply in_reconcile in Hrow as (j & Hj & Hbranch).
  apply in_full_outer_join in Hj
    as [(c2 & r2 & Hc2 & Hr2 & Hm2 & ->)|[(c2 & Hc2 & Hall & ->)
                                          |(r2 & Hr2 & Hall & ->)]];
    destruct Hbranch as [[Hw ->]|[[Hw ->]|[Hw ->]]];
    try discriminate Hw; try discriminate Hp.
  - apply in_map_iff in Hr2 as (r3 & <- & Hr3). split; [|left; reflexivity].
    exists r3. split; [apply list_elem_of_In, Hr3|]. auto.
  - apply in_map_iff in Hr2 as (r3 & <- & Hr3). split; [|apply Hcase, Hp].
    exists r3. split; [apply list_elem_of_In, Hr3|]. auto.
  - exfalso. apply in_map_iff in Hc2 as (c3 & <- & Hc3).
    apply (Hseq c3); [apply list_elem_of_In, Hc3|]. apply is_null_true, Hw.
  - apply in_map_iff in Hr2 as (r3 & <- & Hr3). split; [|left; reflexivity].
    exists r3. split; [apply list_elem_of_In, Hr3|]. auto.
  - apply in_map_iff in Hr2 as (r3 & <- & Hr3). split; [|apply Hcase, Hp].
    exists r3. split; [apply list_elem_of_In, Hr3|]. auto.
Qed.

Lemma scheduled_only_when_newer_witness :
  let c := set_last_download (CStr "2024-01-01 00:00:00") sample.cad_fi_synced in
  let row := select_present (Some (journal_to_sql c),
                             Some (with_file_url sample.cad_fi)) in
  c_process row = CInt 1
  /\ sql_gt (c_last_modified row) (c_last_download row) = true.
Proof.
  intros c row. split; [reflexivity|].
  destruct (scheduled_only_when_newer [sample.cad_fi] [c] row) as [_ [H|H]].
  - intros c' Hc. apply list_elem_of_In in Hc. destruct Hc as [<-|[]].
    discriminate.
  - vm_compute. apply list_elem_of_here.
  - reflexivity.
  - discriminate H.
  - exact H.
Defined.

(** The general form of the duplicate: a witness on the sample listing. *)
Lemma new_entry_in_two_branches_witness :
  let j : joined := (None, Some (with_file_url sample.cad_fi)) in
  select_new j ∈ reconcile [sample.cad_fi] []
  /\ select_present j ∈ reconcile [sample.cad_fi] []
  /\ select_new j <> select_present j
  /\ key_of_row (select_new j) = key_of_row (select_present j).
Proof.
  apply (new_entry_in_two_branches [sample.cad_fi] [] sample.cad_fi).
  - apply list_elem_of_here.
  - intros c Hc. inversion Hc.
Defined.
(** ** The run as a whole *)

Section run_facts.

Variable urlopen : string -> res string.
Variable magic_from_buffer : string -> string.
Variable zip_members : string -> res (list (string * string)).
Variable now : nat -> string.
Variable writable : string -> bool.

Local Abbreviation update_file :=
  (_update_cvm_history_file urlopen magic_from_buffer zip_members now writable).

Local Abbreviation run :=
  (update_cvm_catalog urlopen magic_from_buffer zip_members now writable).

Local Abbreviation downloads :=
  (run_downloads urlopen magic_from_buffer zip_members now writable).

Lemma result_data_no_skip (results : list (if_metadata * result)) :
  forall rows, result_data results = Ok rows ->
    Forall (fun r => r.2 <> []) results
    /\ forall x, In x rows -> x.1.2 <> SKIP.
Proof.
  induction results as [|[m r] results IH]; intros rows H.
  - cbn in H. injection H as <-. split; [constructor|intros x []].
  - cbn [result_data] in H. destruct r as [|[st msg] r]; [discriminate|].
    destruct (result_data results) as [rest|e]; [|discriminate].
    cbn [bind] in H. destruct (IH rest eq_refl) as [IH1 IH2].
    split; [constructor; [discriminate|exact IH1]|].
    destruct (bool_decide (st = SKIP)) eqn:Hst; injection H as <-.
    + exact IH2.
    + apply bool_decide_eq_false in Hst.
      intros x [<-|Hx]; [exact Hst|apply IH2, Hx].
Qed.

Lemma count_status_none st name kind (rows : list result_row) :
  (forall x, In x rows -> x.1.2 <> st) -> count_status st name kind rows = 0%nat.
Proof.
  unfold count_status. induction rows as [|x rows IH]; intros H;
    [reflexivity|].
  cbn [List.filter].
  rewrite (bool_decide_eq_false_2 (x.1.2 = st))
    by (apply H; left; reflexivity).
  rewrite andb_false_r. apply IH. intros y Hy. apply H. right. exact Hy.
Qed.

Lemma in_update_results_counts (rows : list result_row) name kind e s k :
  In (name, kind, e, s, k) (update_results rows) ->
  e = count_status ERROR name kind rows
  /\ s = count_status SUCCESS name kind rows
  /\ k = count_status SKIP name kind rows
  /\ exists st msg, In (name, kind, st, msg) rows.
Proof.
  unfold update_results. intros H.
  apply in_map_iff in H as ([n k'] & Heq & Hin).
  cbn in Heq. injection Heq as -> -> <- <- <-.
  do 3 (split; [reflexivity|]).
  rewrite <- list_elem_of_In, elem_of_remove_dups, list_elem_of_In in Hin.
  apply in_map_iff in Hin as ([[[n1 k1] st] msg] & Hx & Hin).
  cbn in Hx. injection Hx as -> ->. eauto.
Qed.

(** The results only hold the entries that were not skipped, so the skips
    of a group are always 0, and every group has an error or a success. *)
Theorem skips_are_never_counted (HISTORY_FOLDER : string)
    (R : list remote_row) (catalog : option (list journal_row)) (w : world)
    (groups : list group_row) (ms : list if_metadata) :
  returned (run HISTORY_FOLDER R catalog w) = Ok (groups, ms) ->
  forall name kind e s k, In (name, kind, e, s, k) groups ->
    k = 0%nat /\ (0 < e + s)%nat.
Proof.
  unfold update_cvm_catalog.
  destruct (downloads _ w) as [[results|e] w']; [|discriminate].
  destruct (result_data results) as [rows|e] eqn:Hrows; [|discriminate].
  cbn [returned]. intros H. injection H as <- _.
  intros name kind e s k Hin.
  apply result_data_no_skip in Hrows as [_ Hns].
  apply in_update_results_counts in Hin as (-> & -> & -> & st & msg & Hx).
  split; [apply count_status_none, Hns|].
  pose proof (Hns _ Hx) as Hst. pose proof (count_status_pos _ _ _ _ _ Hx).
  cbn in Hst. destruct st; [lia|congruence|lia].
Qed.




Lemma downloads_raise (m : if_metadata) (e : exn) (ms : list if_metadata) :
  m ∈ ms -> (forall w, (update_file m w).1 = Raise e) ->
  forall w, exists e' w', downloads ms w = (Raise e', w').
Proof.
  intros Hm Hraise. induction ms as [|m0 ms IH]; intros w.
  - inversion Hm.
  - cbn [run_downloads].
    destruct (update_file m0 w) as [[r|e0] w1] eqn:H0; [|eauto].
    assert (Hin : m ∈ ms).
    { apply elem_of_cons in Hm as [->|Hm]; [|exact Hm].
      pose proof (Hraise w) as Hr. rewrite H0 in Hr. discriminate Hr. }
    destruct (IH Hin w1) as (e' & w' & ->). eauto.
Qed.

(** When the portal refuses the URL of one scheduled entry the run raises
    a ValueError: the journal stays as reconciled, no entry is stamped,
    also not the entries downloaded before the failure. *)
Theorem refused_download_aborts_the_run (HISTORY_FOLDER : string)
    (R : list remote_row) (J : list journal_row) (w : world)
    (m : if_metadata) (u : string) (e : exn) :
  (forall c, c ∈ J ->
     c_last_download c = CNone \/ exists t, c_last_download c = CStr t) ->
  m ∈ metadata_to_process HISTORY_FOLDER (reconcile R J) ->
  c_url (row m) = CStr u ->
  urlopen u = Raise e ->
  let out := run HISTORY_FOLDER R (Some J) w in
  returned out = Raise ValueError /\ journal_after out = reconcile R J.
Proof.
  intros HJ Hm Hu He. cbv zeta.
  assert (Hraise : forall w1, (update_file m w1).1 = Raise e).
  { intros w1. unfold _update_cvm_history_file.
    rewrite (scheduled_entry_is_downloaded _ _ _ _ HJ Hm), Hu, He.
    reflexivity. }
  destruct (downloads_raise m e _ Hm Hraise w) as (e' & w' & Hd).
  unfold update_cvm_catalog. change (default [] (Some J)) with J. rewrite Hd. split; reflexivity.
Qed.

(** An archive without members gives a result without entries, and the run
    raises a ValueError on it: the journal stays as reconciled. *)
Theorem empty_archive_aborts_the_run (HISTORY_FOLDER : string)
    (R : list remote_row) (J : list journal_row) (w : world)
    (m : if_metadata) (u data : string) :
  (forall c, c ∈ J ->
     c_last_download c = CNone \/ exists t, c_last_download c = CStr t) ->
  m ∈ metadata_to_process HISTORY_FOLDER (reconcile R J) ->
  c_url (row m) = CStr u ->
  urlopen u = Ok data ->
  any_in zip_mime_types
    (default "" (head (split (magic_from_buffer data) ";"))) = true ->
  zip_members data = Ok [] ->
  let out := run HISTORY_FOLDER R (Some J) w in
  returned out = Raise ValueError /\ journal_after out = reconcile R J.
Proof.
  intros HJ Hm Hu Hd Hzip Hmembers. cbv zeta.
  assert (Hempty : forall w1, (update_file m w1).1 = Ok (m, [])).
  { intros w1. unfold _update_cvm_history_file.
    rewrite (scheduled_entry_is_downloaded _ _ _ _ HJ Hm), Hu, Hd, Hzip,
      Hmembers.
    reflexivity. }
  unfold update_cvm_catalog. change (default [] (Some J)) with J.
  destruct (downloads _ w) as [[results|e] w'] eqn:Hrun;
    [|split; reflexivity].
  destruct (result_data results) as [rows|e] eqn:Hrows;
    [exfalso|split; reflexivity].
  apply result_data_no_skip in Hrows as [Hne _].
  apply run_downloads_results in Hrun.
  apply list_elem_of_lookup in Hm as [i Hi].
  destruct (Forall2_lookup_l _ _ _ _ _ Hrun Hi) as (r & Hr & w1 & Hw1).
  rewrite Hempty in Hw1. injection Hw1 as <-.
  rewrite Forall_lookup in Hne. apply (Hne _ _ Hr). reflexivity.
Qed.

Lemma downloads_fetched (ms : list if_metadata) :
  (forall m, m ∈ ms -> needs_download m = Ok true) ->
  forall w rs w',
    downloads ms w = (Ok rs, w') ->
    fetched w' = fetched w ++ map (fun m => c_url (row m)) ms
    /\ Forall (fun r => Forall (fun x => x.1 = SUCCESS \/ x.1 = ERROR) r.2) rs.
Proof.
  induction ms as [|m ms IH]; intros Hneed w rs w' H.
  - cbn in H. injection H as <- <-. rewrite app_nil_r.
    split; [reflexivity|constructor].
  - cbn [run_downloads] in H.
    destruct (download_attempted urlopen magic_from_buffer zip_members now
                writable m w (Hneed m ltac:(apply list_elem_of_here)))
      as [Hf Hst].
    destruct (update_file m w) as [[[md r]|e] w1] eqn:Hm; [|discriminate].
    destruct (downloads ms w1) as [[rs'|e] w2] eqn:Hms; [|discriminate].
    injection H as <- <-.
    destruct (IH (fun m' Hm' => Hneed m' ltac:(apply list_elem_of_further;
                                                 exact Hm')) _ _ _ Hms)
      as [Hf' Hst'].
    cbn [fst snd] in Hf. split.
    + rewrite Hf', Hf, <- app_assoc. reflexivity.
    + constructor; [apply (Hst md r eq_refl)|exact Hst'].
Qed.

(** With a journal whose last_download column holds texts or NULL, a run
    that returns has opened the URL of every scheduled entry, once and in
    the order of the journal, and has opened nothing else. *)
Theorem run_fetches_the_scheduled_entries (HISTORY_FOLDER : string)
    (R : list remote_row) (J : list journal_row) (w : world)
    (groups : list group_row) (ms : list if_metadata) :
  (forall c, c ∈ J ->
     c_last_download c = CNone \/ exists t, c_last_download c = CStr t) ->
  let out := run HISTORY_FOLDER R (Some J) w in
  returned out = Ok (groups, ms) ->
  fetched (world_after out)
  = fetched w
    ++ map c_url (List.filter (fun c => truthy (c_process c)) (reconcile R J))
  /\ length ms
     = length (List.filter (fun c => truthy (c_process c)) (reconcile R J)).
Proof.
  intros HJ. cbv zeta. unfold update_cvm_catalog. change (default [] (Some J)) with J.
  destruct (downloads _ w) as [[results|e] w'] eqn:Hrun; [|discriminate].
  destruct (result_data results) as [rows|e]; [|discriminate].
  cbn [returned world_after]. intros H. injection H as _ <-.
  pose proof (run_downloads_results _ _ _ _ _ _ _ _ _ Hrun) as Hlen.
  apply Forall2_length in Hlen.
  apply downloads_fetched in Hrun as [Hf _].
  - split.
    + cbn [tick fetched]. rewrite Hf. f_equal. unfold metadata_to_process.
      rewrite map_map. reflexivity.
    + rewrite length_fmap, <- Hlen. unfold metadata_to_process.
      apply length_map.
  - intros m Hm. eapply scheduled_entry_is_downloaded; eassumption.
Qed.

End run_facts.

Lemma skips_are_never_counted_witness :
  let out := update_cvm_catalog sample.urlopen sample.magic_from_buffer
               sample.zip_members sample.now sample.writable "/history"
               [sample.cad_fi] None sample.world0 in
  exists groups ms,
    returned out = Ok (groups, ms)
    /\ In (CStr "cad_fi", CStr "IF_REGISTER", 2%nat, 0%nat, 0%nat) groups
    /\ (0 < 2 + 0)%nat.
Proof.
  cbv zeta. eexists _, _. split; [vm_compute; reflexivity|].
  split; [left; reflexivity|].
  refine (proj2 (skips_are_never_counted sample.urlopen
                   sample.magic_from_buffer sample.zip_members sample.now
                   sample.writable "/history" [sample.cad_fi] None
                   sample.world0 _ _ _ (CStr "cad_fi") (CStr "IF_REGISTER")
                   2%nat 0%nat 0%nat _)).
  - vm_compute. reflexivity.
  - left. reflexivity.
Defined.


Lemma refused_download_aborts_the_run_witness :
  let out := update_cvm_catalog (fun _ => Raise OSError)
               sample.magic_from_buffer sample.zip_members sample.now
               sample.writable "/history" [sample.cad_fi] (Some [])
               sample.world0 in
  returned out = Raise ValueError
  /\ journal_after out = reconcile [sample.cad_fi] [].
Proof.
  apply (refused_download_aborts_the_run (fun _ => Raise OSError)
           sample.magic_from_buffer sample.zip_members sample.now
           sample.writable "/history" [sample.cad_fi] [] sample.world0
           {| row := select_new (None, Some (with_file_url sample.cad_fi));
              history_folder := "/history"; history_file := None |}
           "http://dados.cvm.gov.br/dados/FI/CAD/DADOS/cad_fi.csv" OSError).
  - intros c Hc. inversion Hc.
  - vm_compute. apply list_elem_of_here.
  - reflexivity.
  - reflexivity.
Defined.

Lemma empty_archive_aborts_the_run_witness :
  let out := update_cvm_catalog sample.urlopen
               (fun _ => "Zip archive data, at least v2.0 to extract")
               (fun _ => Ok []) sample.now sample.writable "/history"
               [sample.cad_fi] (Some []) sample.world0 in
  returned out = Raise ValueError
  /\ journal_after out = reconcile [sample.cad_fi] [].
Proof.
  apply (empty_archive_aborts_the_run sample.urlopen
           (fun _ => "Zip archive data, at least v2.0 to extract")
           (fun _ => Ok []) sample.now sample.writable "/history"
           [sample.cad_fi] [] sample.world0
           {| row := select_new (None, Some (with_file_url sample.cad_fi));
              history_folder := "/history"; history_file := None |}
           "http://dados.cvm.gov.br/dados/FI/CAD/DADOS/cad_fi.csv" "??").
  - intros c Hc. inversion Hc.
  - vm_compute. apply list_elem_of_here.
  - reflexivity.
  - reflexivity.
  - reflexivity.
  - reflexivity.
Defined.

Lemma run_fetches_the_scheduled_entries_witness :
  let out := update_cvm_catalog sample.urlopen sample.magic_from_buffer
               sample.zip_members sample.now sample.writable "/history"
               [sample.cad_fi]
               (Some [set_last_download (CStr "2024-01-01 00:00:00")
                        sample.cad_fi_synced]) sample.world0 in
  exists groups ms,
    returned out = Ok (groups, ms)
    /\ fetched (world_after out)
       = fetched sample.world0
         ++ [CStr "http://dados.cvm.gov.br/dados/FI/CAD/DADOS/cad_fi.csv"].
Proof.
  cbv zeta. eexists _, _. split; [vm_compute; reflexivity|].
  refine (proj1 (run_fetches_the_scheduled_entries sample.urlopen
                   sample.magic_from_buffer sample.zip_members sample.now
                   sample.writable "/history" [sample.cad_fi]
                   [set_last_download (CStr "2024-01-01 00:00:00")
                      sample.cad_fi_synced] sample.world0 _ _ _ _)).
  - intros c Hc. apply list_elem_of_In in Hc. destruct Hc as [<-|[]].
    right. eexists. reflexivity.
  - vm_compute. reflexivity.
Defined.
(** ** The files to process and their update *)

Section files_facts.





Lemma for_each_collect {A B} (f : A -> res B) (l : list A) :
  forall acc,
    for_each (fun a acc => do e <- f a; Ok (acc ++ [e])) l acc
    = match for_each (fun a acc => do e <- f a; Ok (acc ++ [e])) l [] with
      | Ok es => Ok (acc ++ es)
      | Raise e => Raise e
      end.
Proof.
  induction l as [|a l IH]; intros acc; cbn [for_each].
  - rewrite app_nil_r. reflexivity.
  - destruct (f a) as [e|e]; cbn [bind]; [|reflexivity].
    rewrite (IH (acc ++ [e])), (IH ([] ++ [e])).
    destruct (for_each _ l []); [|reflexivity].
    rewrite <- app_assoc. reflexivity.
Qed.

(** The loop that collects one entry for each element. *)
Lemma for_each_collected {A B} (f : A -> res B) (l : list A) :
  match for_each (fun a acc => do e <- f a; Ok (acc ++ [e])) l [] with
  | Ok es => Forall2 (fun a e => f a = Ok e) l es
  | Raise _ => exists a, a ∈ l /\ forall e, f a <> Ok e
  end.
Proof.
  induction l as [|a l IH]; cbn [for_each]; [constructor|].
  destruct (f a) as [e|e] eqn:Ha; cbn [bind].
  - rewrite for_each_collect.
    destruct (for_each _ l []) as [es|e'].
    + cbn [app]. constructor; [exact Ha|exact IH].
    + destruct IH as (b & Hb & Hraise). exists b.
      split; [apply list_elem_of_further, Hb|exact Hraise].
  - exists a. split; [apply list_elem_of_here|]. congruence.
Qed.

Variable find : string -> string -> list string.




End files_facts.



Section run_then_update.

Variable urlopen : string -> res string.
Variable magic_from_buffer : string -> string.
Variable zip_members : string -> res (list (string * string)).
Variable now : nat -> string.
Variable writable : string -> bool.


End run_then_update.

(** ** More on _get_expression_and_converters *)

Section expression_facts.

Lemma compiled_rows (mappings : list mapping) :
  forall exprs convs,
    _get_expression_and_converters mappings = Ok (exprs, convs) ->
    Forall2 (fun m s => exists t e,
                 Target_Field m = CStr t /\ row_expression m = Ok e
                 /\ s = str e +:+ " AS " +:+ lower t) mappings exprs
    /\ forall t,
         match last (List.filter
                       (fun m => bool_decide (Target_Field m = CStr t))
                       mappings) with
         | Some m => exists c, row_converter m = Ok c /\ convs !! t = Some c
         | None => convs !! t = None
         end.
Proof.
  unfold _get_expression_and_converters.
  induction mappings as [|m mappings IH] using rev_ind; intros exprs convs H.
  - cbn in H. injection H as <- <-. split; [constructor|].
    intros t. cbn. apply lookup_empty.
  - rewrite for_each_app in H.
    destruct (for_each compile_row mappings ([], ∅)) as [[es cs]|e];
      [|discriminate].
    destruct (IH es cs eq_refl) as [IH1 IH2].
    cbn [bind for_each] in H. unfold compile_row in H.
    destruct (row_expression m) as [e|] eqn:He; [|discriminate].
    destruct (row_converter m) as [c|] eqn:Hc; [|discriminate].
    cbn [bind] in H.
    destruct (Target_Field m) as [| |t| |] eqn:Ht; try discriminate.
    cbn [fst snd] in H. injection H as <- <-. split.
    + apply Forall2_app; [exact IH1|]. constructor; [|constructor].
      exists t, e. auto.
    + intros t'. rewrite List.filter_app. cbn [List.filter]. rewrite Ht.
      destruct (decide (t = t')) as [->|Hne].
      * rewrite bool_decide_eq_true_2 by reflexivity. rewrite last_snoc.
        exists c. split; [exact Hc|apply lookup_insert_eq].
      * rewrite bool_decide_eq_false_2 by congruence. rewrite app_nil_r.
        specialize (IH2 t'). rewrite lookup_insert_ne by exact Hne.
        exact IH2.
Qed.


(** A row without a target, like the rows generated for the fields that
    have no mapping, cannot be compiled: the function raises. *)
Theorem row_without_target_raises (mappings : list mapping) (m : mapping) :
  m ∈ mappings ->
  (forall t, Target_Field m <> CStr t) ->
  exists e, _get_expression_and_converters mappings = Raise e.
Proof.
  intros Hm Hnone.
  destruct (_get_expression_and_converters mappings) as [[exprs convs]|e]
    eqn:H; [exfalso|eauto].
  apply compiled_rows in H as [H _].
  apply list_elem_of_lookup in Hm as [i Hi].
  destruct (Forall2_lookup_l _ _ _ _ _ H Hi) as (s & _ & t & e & Ht & _).
  exact (Hnone t Ht).
Qed.

End expression_facts.


Lemma row_without_target_raises_witness :
  exists e,
    _get_expression_and_converters
      [{| Kind := CStr "IF_REGISTER"; Sub_Kind := CStr "CAD_FI";
          Header := CStr "CNPJ_FUNDO;SIT"; Hash := CStr "h";
          Order := CInt 3; Target_Field := CNone; Source_Field := CStr "SIT";
          Transformation1 := CNone; Transformation2 := CNone;
          Transformation3 := CNone; Converter := CNone;
          Is_New := CBool true |}] = Raise e.
Proof.
  eapply row_without_target_raises; [apply list_elem_of_here|].
  intros t. discriminate.
Defined.
(** ** More on the header registry *)

Section registry_more.

Variable hash_string : string -> string.
Variable read_text : string -> res string.

Local Abbreviation file_metadata := (_get_cvm_file_metadata hash_string read_text).
Local Abbreviation updated_headers :=
  (_get_cvm_updated_headers hash_string read_text).
Local Abbreviation headers_changed :=
  (_check_cvm_headers_changed hash_string read_text).

(** A loop that returns has run its body on every element. *)
Lemma for_each_ok_body {A S} (body : A -> S -> res S) (l : list A) (a : A) :
  a ∈ l -> forall s s', for_each body l s = Ok s' ->
  exists t t', body a t = Ok t'.
Proof.
  intros Ha. induction l as [|b l IH]; intros s s' H; [inversion Ha|].
  cbn [for_each] in H. destruct (body b s) as [t|e] eqn:Hb; [|discriminate].
  cbn [bind] in H. apply elem_of_cons in Ha as [->|Ha]; [eauto|].
  eapply IH; eauto.
Qed.

Lemma header_mappings_missing (sheet : list template_row) (kind : string) :
  (forall t, t ∈ sheet -> to_sql (t_Header t) <> CStr kind) ->
  header_mappings sheet kind = Raise KeyError.
Proof.
  intros Hnone. unfold header_mappings.
  destruct (List.filter _ (map template_to_sql sheet)) as [|t rows] eqn:Hf;
    [reflexivity|exfalso].
  assert (Hin : In t (List.filter
                        (fun t => bool_decide (t_Header t = CStr kind))
                        (map template_to_sql sheet)))
    by (rewrite Hf; left; reflexivity).
  apply filter_In in Hin as [Hin Hh]. apply bool_decide_eq_true in Hh.
  apply in_map_iff in Hin as (t0 & <- & Ht0).
  apply (Hnone t0); [apply list_elem_of_In, Ht0|exact Hh].
Qed.

(** The files whose metadata was collected. *)
Lemma metadata_of_files (cvm_files : list string) (mds : list source_header) :
  for_each (fun f acc => do md <- file_metadata f; Ok (acc ++ [md]))
    cvm_files [] = Ok mds ->
  Forall2 (fun f md => file_metadata f = Ok md) cvm_files mds.
Proof.
  intros H. pose proof (for_each_collected file_metadata cvm_files) as Hc.
  rewrite H in Hc. exact Hc.
Qed.

(** A file of a kind that the sheet of the templates does not have makes
    [_get_cvm_updated_headers] raise, a ValueError, also when the header of
    the file is already in the persisted headers. *)
Theorem kind_without_template_raises (sheet : list template_row)
    (HEADERS : list mapping) (cvm_files : list string)
    (file kind sub_kind header header_hash : string) :
  file ∈ cvm_files ->
  file_metadata file = Ok (kind, sub_kind, header, header_hash) ->
  (forall t, t ∈ sheet -> to_sql (t_Header t) <> CStr kind) ->
  updated_headers sheet HEADERS cvm_files = Raise ValueError.
Proof.
  intros Hfile Hmd Hnone. unfold _get_cvm_updated_headers.
  destruct (for_each _ cvm_files []) as [mds|e] eqn:Hmds; [|reflexivity].
  cbn [bind].
  destruct ((length cvm_files =? 0)%nat && _); [reflexivity|].
  destruct (for_each _ _ HEADERS) as [r|e] eqn:Hloop; [exfalso|reflexivity].
  destruct (collected_metadata _ _ _ _ _ Hmds) as [_ Hall].
  destruct (Hall file Hfile) as (md & Hmd' & Hin). rewrite Hmd in Hmd'.
  injection Hmd' as <-.
  assert (Hg : (kind, sub_kind) ∈
               remove_dups (map (fun sh : source_header => (sh.1.1.1, sh.1.1.2))
                              (remove_dups mds))).
  { rewrite elem_of_remove_dups. apply list_elem_of_In, in_map_iff.
    exists (kind, sub_kind, header, header_hash). split; [reflexivity|].
    apply list_elem_of_In. rewrite elem_of_remove_dups. exact Hin. }
  destruct (for_each_ok_body _ _ _ Hg _ _ Hloop) as (t & t' & Hstep).
  unfold group_step in Hstep. cbn [fst] in Hstep.
  rewrite (header_mappings_missing sheet kind Hnone) in Hstep.
  discriminate Hstep.
Qed.

Lemma header_step_generated existing hm sh s s' :
  header_step existing hm sh s = Ok s' -> extends (generated sh.2) s s'.
Proof.
  destruct sh as [[[kind sub_kind] header] header_hash]. unfold header_step.
  destruct (negb (str_in_cells header_hash existing)).
  - intros H. eapply for_each_extends; [|exact H].
    intros m t t' _ Hstep. eapply template_step_extends. exact Hstep.
  - intros H. injection H as <-. apply extends_refl.
Qed.

Lemma extends_weaken (Q Q' : mapping -> Prop) s s' :
  (forall x, Q x -> Q' x) -> extends Q s s' -> extends Q' s s'.
Proof.
  intros HQ (new & -> & Hnew). exists new. split; [reflexivity|].
  eapply Forall_impl; [exact Hnew|exact HQ].
Qed.

Lemma group_step_hashes sheet existing (shs : list source_header) g s s' :
  group_step sheet existing shs g s = Ok s' ->
  extends (fun x => exists sh, sh ∈ shs /\ Hash x = CStr sh.2) s s'.
Proof.
  unfold group_step. destruct (header_mappings sheet g.1) as [hm|e];
    [|discriminate]. cbn [bind]. apply for_each_extends.
  intros sh t t' Hsh Hstep. apply header_step_generated in Hstep.
  eapply extends_weaken; [|exact Hstep]. intros x [Hx _]. exists sh.
  split; [|exact Hx]. apply list_elem_of_In in Hsh.
  apply filter_In in Hsh as [Hsh _]. apply list_elem_of_In, Hsh.
Qed.

(** The new rows carry the hashes of the given files. *)
Lemma updated_headers_hashes sheet HEADERS cvm_files result :
  updated_headers sheet HEADERS cvm_files = Ok result ->
  extends (fun x => exists file md, file ∈ cvm_files
                      /\ file_metadata file = Ok md /\ Hash x = CStr md.2)
    HEADERS result.
Proof.
  unfold _get_cvm_updated_headers, as_ValueError. intros H.
  destruct (for_each _ cvm_files []) as [mds|e] eqn:Hmds; [|discriminate].
  cbn [bind] in H.
  destruct ((length cvm_files =? 0)%nat && _); [discriminate|].
  destruct (for_each _ _ HEADERS) as [r|e] eqn:Hloop; [|discriminate].
  injection H as <-. apply metadata_of_files in Hmds.
  eapply for_each_extends; [|exact Hloop].
  intros g t t' _ Hstep. apply group_step_hashes in Hstep.
  eapply extends_weaken; [|exact Hstep]. intros x (sh & Hsh & Hx).
  rewrite elem_of_remove_dups in Hsh.
  apply list_elem_of_lookup in Hsh as [i Hi].
  destruct (Forall2_lookup_r _ _ _ _ _ Hmds Hi) as (file & Hfile & Hmd).
  exists file, sh. split; [eapply list_elem_of_lookup_2; exact Hfile|auto].
Qed.

Lemma template_step_adds kind sub_kind header header_hash hm fields m s s' :
  template_step kind sub_kind header header_hash hm fields m s = Ok s' ->
  exists x, x ∈ s' /\ Hash x = CStr header_hash.
Proof.
  unfold template_step. intros H.
  exists (mapped_row kind sub_kind header header_hash fields m).
  split; [|reflexivity].
  destruct (bool_decide (sub_kind ∈ ["CAD_FI"; "DIARIO_FI"])).
  - destruct (max_order_of hm) as [o|e]; [|discriminate]. cbn [bind] in H.
    injection H as <-. rewrite !elem_of_app, list_elem_of_singleton. auto.
  - injection H as <-. rewrite elem_of_app, list_elem_of_singleton. auto.
Qed.

Lemma has_hash_extends Q (h : cell) s s' :
  extends Q s s' -> (exists x, x ∈ s /\ Hash x = h) ->
  exists x, x ∈ s' /\ Hash x = h.
Proof.
  intros (new & -> & _) (x & Hx & H). exists x.
  split; [apply elem_of_app; left; exact Hx|exact H].
Qed.

(** A file whose hash is not persisted gets rows. *)
Lemma new_hash_gets_rows sheet HEADERS cvm_files result
    file kind sub_kind header header_hash :
  updated_headers sheet HEADERS cvm_files = Ok result ->
  file ∈ cvm_files ->
  file_metadata file = Ok (kind, sub_kind, header, header_hash) ->
  CStr header_hash ∉ map Hash HEADERS ->
  exists x, x ∈ result /\ Hash x = CStr header_hash.
Proof.
  intros Hres Hfile Hmd Hfresh.
  unfold _get_cvm_updated_headers, as_ValueError in Hres.
  destruct (for_each _ cvm_files []) as [mds|e] eqn:Hmds; [|discriminate].
  cbn [bind] in Hres.
  destruct ((length cvm_files =? 0)%nat && _); [discriminate|].
  destruct (for_each _ _ HEADERS) as [r|e] eqn:Hloop; [|discriminate].
  injection Hres as ->.
  destruct (collected_metadata _ _ _ _ _ Hmds) as [_ Hall].
  destruct (Hall file Hfile) as (md & Hmd' & Hin). rewrite Hmd in Hmd'.
  injection Hmd' as <-.
  set (existing := remove_dups (map Hash HEADERS)) in *.
  set (shs := remove_dups mds) in *.
  assert (Hsh : (kind, sub_kind, header, header_hash) ∈ shs)
    by (unfold shs; rewrite elem_of_remove_dups; exact Hin).
  assert (Hex : str_in_cells header_hash existing = false).
  { unfold str_in_cells. apply bool_decide_eq_false. intros Hc.
    unfold existing in Hc. rewrite elem_of_remove_dups in Hc.
    exact (Hfresh Hc). }
  eapply (for_each_reaches _ (fun _ => True)
            (fun s => exists x, x ∈ s /\ Hash x = CStr header_hash) _
            (kind, sub_kind)); [| | | |exact I|exact Hloop].
  - auto.
  - intros g s s' _ Hstep. apply has_hash_extends with (Q := fresh existing).
    eapply group_step_extends. exact Hstep.
  - rewrite elem_of_remove_dups. apply list_elem_of_In, in_map_iff.
    exists (kind, sub_kind, header, header_hash).
    split; [reflexivity|apply list_elem_of_In; exact Hsh].
  - intros s s' _ Hstep. unfold group_step in Hstep. cbn [fst snd] in Hstep.
    destruct (header_mappings sheet kind) as [hm|e] eqn:Hhm; [|discriminate].
    cbn [bind] in Hstep.
    destruct (header_mappings_rows _ _ _ Hhm) as [[t1 Ht1] _].
    eapply (for_each_reaches _ (fun _ => True)
              (fun s => exists x, x ∈ s /\ Hash x = CStr header_hash) _
              (kind, sub_kind, header, header_hash));
      [| | | |exact I|exact Hstep].
    + auto.
    + intros sh t t' _ Hst. apply has_hash_extends with (Q := fresh existing).
      eapply header_step_extends. exact Hst.
    + apply list_elem_of_In, filter_In.
      split; [apply list_elem_of_In; exact Hsh|].
      cbn. rewrite !bool_decide_eq_true_2 by reflexivity. reflexivity.
    + intros t t' _ Hst. unfold header_step in Hst. rewrite Hex in Hst.
      cbn [negb] in Hst.
      eapply (for_each_reaches _ (fun _ => True)
                (fun s => exists x, x ∈ s /\ Hash x = CStr header_hash) _ t1);
        [| |exact Ht1| |exact I|exact Hst].
      * auto.
      * intros m u u' _ Hm.
        apply has_hash_extends with (Q := generated header_hash).
        eapply template_step_extends. exact Hm.
      * intros u u' _ Hm. eapply template_step_adds. exact Hm.
Qed.

(** The hashes [_check_cvm_headers_changed] returns are, each once, the
    hashes of the given files that the persisted headers do not have. *)
Theorem changed_headers_are_the_new_hashes (sheet : list template_row)
    (HEADERS : list mapping) (cvm_files : list string)
    (changed : list cell) :
  headers_changed sheet HEADERS cvm_files = Ok changed ->
  NoDup changed
  /\ forall h, h ∈ changed <->
       (h ∉ map Hash HEADERS)
       /\ exists file kind sub_kind header header_hash,
            file ∈ cvm_files
            /\ file_metadata file = Ok (kind, sub_kind, header, header_hash)
            /\ h = CStr header_hash.
Proof.
  unfold _check_cvm_headers_changed, as_ValueError. intros H.
  destruct (updated_headers sheet HEADERS cvm_files) as [result|e] eqn:Hres;
    [|discriminate].
  cbn [bind] in H. injection H as <-. split.
  { apply NoDup_ListNoDup, List.NoDup_filter, NoDup_ListNoDup,
      NoDup_remove_dups. }
  intros h. rewrite list_elem_of_In, filter_In, <- list_elem_of_In,
    elem_of_remove_dups, negb_true_iff, bool_decide_eq_false.
  split.
  - intros [Hin Hfresh]. split; [exact Hfresh|].
    destruct (updated_headers_hashes _ _ _ _ Hres) as (new & -> & Hnew).
    apply list_elem_of_In, in_map_iff in Hin as (x & <- & Hx).
    apply in_app_iff in Hx as [Hx|Hx].
    + exfalso. apply Hfresh, list_elem_of_In, in_map, Hx.
    + rewrite List.Forall_forall in Hnew.
      destruct (Hnew x Hx) as (file & [[[k sk] hd] hs] & Hfile & Hmd & Hh).
      exists file, k, sk, hd, hs. auto.
  - intros [Hfresh (file & k & sk & hd & hs & Hfile & Hmd & ->)].
    split; [|exact Hfresh].
    destruct (new_hash_gets_rows _ _ _ _ _ _ _ _ _ Hres Hfile Hmd Hfresh)
      as (x & Hx & Hh).
    rewrite <- Hh. apply list_elem_of_In, in_map, list_elem_of_In, Hx.
Qed.

End registry_more.

Lemma kind_without_template_raises_witness :
  _get_cvm_updated_headers sample.hash_string sample.read_text
    [sample.template 1 "DT_COMPTC" "DT_COMPTC"] sample.HEADERS
    ["/history/if_position.inf_diario_fi_202401.csv"]
  = Raise ValueError
  /\ _get_cvm_updated_headers sample.hash_string
       (fun _ => Ok "TP_FUNDO;CNPJ_FUNDO;DT_COMPTC") [] sample.HEADERS
       ["/history/if_position.inf_diario_fi_202401.csv"]
     = Raise ValueError.
Proof.
  split; [reflexivity|].
  apply (kind_without_template_raises sample.hash_string
           (fun _ => Ok "TP_FUNDO;CNPJ_FUNDO;DT_COMPTC") [] sample.HEADERS
           ["/history/if_position.inf_diario_fi_202401.csv"]
           "/history/if_position.inf_diario_fi_202401.csv"
           "IF_POSITION" "DIARIO_FI" "TP_FUNDO;CNPJ_FUNDO;DT_COMPTC"
           "#IF_POSITION;DIARIO_FI;TP_FUNDO;CNPJ_FUNDO;DT_COMPTC").
  - apply list_elem_of_here.
  - vm_compute. reflexivity.
  - intros t Ht. inversion Ht.
Defined.

Lemma changed_headers_are_the_new_hashes_witness :
  exists changed,
    _check_cvm_headers_changed sample.hash_string sample.read_text
      sample.sheet sample.HEADERS [sample.cad_fi_file] = Ok changed
    /\ changed = [CStr sample.cad_fi_hash]
    /\ NoDup changed.
Proof.
  eexists. split; [vm_compute; reflexivity|]. split; [reflexivity|].
  refine (proj1 (changed_headers_are_the_new_hashes sample.hash_string
                   sample.read_text sample.sheet sample.HEADERS
                   [sample.cad_fi_file] _ _)).
  vm_compute. reflexivity.
Defined.
(** ** The remote files and the written sheet *)

Section remote_files_facts.

Variable strptime_listing : string -> res string.

(** The timestamp of a row of the listing is read from the second and the
    third column of its line, joined by a space; a line without them, or
    with an empty one, has no timestamp and is not parsed. *)
Theorem listing_timestamps (hrefs : list (option string))
    (contents : list (list cell)) (dir : list dir_row) (k : nat)
    (d : dir_row) :
  _get_url_paths strptime_listing hrefs contents = Ok dir ->
  dir !! k = Some d ->
  exists content,
    contents !! k = Some content
    /\ match d_last_modified d with
       | Some t =>
           exists a b, content !! 1%nat = Some (CStr a)
                       /\ content !! 2%nat = Some (CStr b)
                       /\ a <> "" /\ b <> ""
                       /\ strptime_listing (a +:+ " " +:+ b) = Ok t
       | None =>
           (length content <= 2)%nat
           \/ (exists x, content !! 1%nat = Some x /\ truthy x = false)
           \/ (exists y, content !! 2%nat = Some y /\ truthy y = false)
       end.
Proof.
  intros Hdir Hk.
  destruct (directory_rows_spec strptime_listing contents hrefs 0 dir Hdir)
    as [_ Hrows].
  destruct (Hrows k d Hk) as [_ Hrow]. cbn [Nat.add] in Hrow.
  unfold directory_row in Hrow.
  destruct (contents !! k) as [content|] eqn:Hc; [|discriminate].
  cbn [bind] in Hrow. exists content. split; [reflexivity|].
  destruct (listing_name content) as [name|]; [|discriminate].
  cbn [bind] in Hrow.
  assert (Hget : forall i : nat, (0 < i)%nat ->
            _get_value_by_index_if_exists content (Z.of_nat i) CNone
            = Ok (default CNone (content !! i))).
  { intros i Hi. unfold _get_value_by_index_if_exists, index.
    destruct (Z.of_nat i <? Z.of_nat (length content))%Z eqn:Hlt.
    - apply Z.ltb_lt in Hlt.
      assert (H0 : (Z.of_nat i <? 0)%Z = false) by (apply Z.ltb_ge; lia).
      assert (Hn : (Z.of_nat (length content) <=? Z.of_nat i)%Z = false)
        by (apply Z.leb_gt; lia).
      cbv zeta. rewrite H0. cbv iota. rewrite H0, Hn. cbn [orb].
      rewrite Nat2Z.id.
      destruct (lookup_lt_is_Some_2 content i ltac:(lia)) as [v ->].
      reflexivity.
    - apply Z.ltb_ge in Hlt. rewrite lookup_ge_None_2 by lia. reflexivity. }
  change 1%Z with (Z.of_nat 1) in Hrow. change 2%Z with (Z.of_nat 2) in Hrow.
  rewrite !Hget in Hrow by lia. cbn [bind] in Hrow.
  destruct (_make_datetime strptime_listing _ _) as [lm|] eqn:Hlm;
    [|discriminate].
  cbn [bind] in Hrow.
  destruct (_get_value_by_index_if_exists content 3 CNone) as [v3|];
    [|discriminate].
  cbn [bind] in Hrow.
  destruct (_make_number_type _) as [sz|]; [|discriminate].
  cbn [bind] in Hrow. injection Hrow as Hrow.
  assert (Hd : d_last_modified d = lm) by (rewrite <- Hrow; reflexivity).
  rewrite Hd. clear Hrow Hd. unfold _make_datetime in Hlm.
  destruct (content !! 1%nat) as [x|] eqn:H1.
  - destruct (content !! 2%nat) as [y|] eqn:H2.
    + cbn [default from_option id] in Hlm.
      destruct (truthy x) eqn:Hx; cbn [andb negb] in Hlm.
      * destruct (truthy y) eqn:Hy; cbn [negb] in Hlm.
        -- destruct x as [| |a| |]; try discriminate Hlm.
           destruct y as [| |b| |]; try discriminate Hlm.
           destruct (strptime_listing (join " " [a; b])) as [t|] eqn:Ht;
             [|discriminate].
           cbn [bind] in Hlm. injection Hlm as <-. exists a, b.
           repeat split; [intros ->; discriminate Hx
                         |intros ->; discriminate Hy|exact Ht].
        -- injection Hlm as <-. right; right. eauto.
      * injection Hlm as <-. right; left. eauto.
    + cbn [default from_option id truthy andb negb] in Hlm.
      rewrite andb_false_r in Hlm. cbn [negb] in Hlm. injection Hlm as <-.
      left. apply lookup_ge_None in H2. exact H2.
  - cbn [default from_option id truthy andb negb] in Hlm.
    injection Hlm as <-. left. apply lookup_ge_None in H1. lia.
Qed.


End remote_files_facts.

Lemma listing_timestamps_witness :
  exists dir d content,
    _get_url_paths sample.strptime_listing sample.listing_hrefs
      sample.listing_contents = Ok dir
    /\ dir !! 0%nat = Some d
    /\ d_last_modified d = None
    /\ sample.listing_contents !! 0%nat = Some content
    /\ (length content <= 2)%nat.
Proof.
  eexists _, _, _. split; [vm_compute; reflexivity|].
  split; [reflexivity|]. split; [reflexivity|].
  split; [reflexivity|].
  destruct (listing_timestamps sample.strptime_listing sample.listing_hrefs
              sample.listing_contents _ 0%nat _ eq_refl eq_refl)
    as (content & Hc & H).
  injection Hc as <-. cbn. lia.
Defined.

(** ** _write_cvm_headers_mappings *)

Section sheet_facts.

Lemma in_insert_sheet_row (x m : mapping) (l : list mapping) :
  x ∈ insert_sheet_row m l <-> x = m \/ x ∈ l.
Proof.
  induction l as [|n l IH]; cbn [insert_sheet_row].
  - rewrite list_elem_of_singleton. split; [auto|].
    intros [H|H]; [exact H|inversion H].
  - destruct (sheet_le m n).
    + apply elem_of_cons.
    + rewrite !elem_of_cons, IH. tauto.
Qed.

Lemma NoDup_insert_sheet_row (m : mapping) (l : list mapping) :
  m ∉ l -> NoDup l -> NoDup (insert_sheet_row m l).
Proof.
  induction l as [|n l IH]; intros Hm Hl; cbn [insert_sheet_row].
  - apply NoDup_singleton.
  - destruct (sheet_le m n); [apply NoDup_cons; auto|].
    apply NoDup_cons in Hl as [Hn Hl]. apply not_elem_of_cons in Hm as [Hmn Hm].
    apply NoDup_cons. split; [|apply IH; assumption].
    rewrite in_insert_sheet_row. intros [->|H]; [congruence|exact (Hn H)].
Qed.

Lemma sorted_sheet (l : list mapping) :
  NoDup l ->
  NoDup (fold_right insert_sheet_row [] l)
  /\ forall x, x ∈ fold_right insert_sheet_row [] l <-> x ∈ l.
Proof.
  induction l as [|m l IH]; intros Hl; cbn [fold_right].
  - split; [constructor|reflexivity].
  - apply NoDup_cons in Hl as [Hm Hl]. destruct (IH Hl) as [Hnd Hin]. split.
    + apply NoDup_insert_sheet_row; [rewrite Hin; exact Hm|exact Hnd].
    + intros x. rewrite in_insert_sheet_row, Hin, elem_of_cons. reflexivity.
Qed.

(** Nothing is written for an empty list.  What is written has no column
    Header and holds every row once: rows that are equal, or differ in
    their Header only, are written as one row. *)
Theorem written_sheet_rows (mappings : list mapping) :
  match _write_cvm_headers_mappings mappings with
  | Some written =>
      mappings <> [] /\ NoDup written
      /\ (forall x, x ∈ written <-> exists m, m ∈ mappings /\ x = sheet_row m)
      /\ forall x, x ∈ written -> Header x = CNone
  | None => mappings = []
  end.
Proof.
  unfold _write_cvm_headers_mappings.
  destruct mappings as [|m0 ms]; [reflexivity|].
  set (mappings := m0 :: ms).
  destruct (sorted_sheet (remove_dups (map sheet_row mappings))
              (NoDup_remove_dups _)) as [Hnd Hin].
  assert (Hrows : forall x,
            x ∈ fold_right insert_sheet_row []
                  (remove_dups (map sheet_row mappings))
            <-> exists m, m ∈ mappings /\ x = sheet_row m).
  { intros x. rewrite Hin, elem_of_remove_dups, list_elem_of_In, in_map_iff.
    split; intros (m & H1 & H2).
    - exists m. split; [apply list_elem_of_In, H2|auto].
    - exists m. split; [auto|apply list_elem_of_In, H1]. }
  split; [discriminate|]. split; [exact Hnd|]. split; [exact Hrows|].
  intros x Hx. apply Hrows in Hx as (m & _ & ->). reflexivity.
Qed.

End sheet_facts.
